(** * mini-claude-code: the v1 and v2 agents (v1_basic_agent.py, v2_todo_agent.py)

    A shallow embedding of the two Python agents and the properties of their
    tool layer, task list and reminder logic.

    Conventions of the embedding.
    - A Python [str] is a [string]; each [ascii] stands for one code point of
      U+0000..U+00FF, so [length] is Python's [len].
    - The interpreter state the code touches (the file system below the
      root directory, the commands handed to [subprocess.run], the global
      [TODO] and the global [rounds_without_todo]) is one record [world],
      threaded by a monad of state and exceptions.
    - The platform is POSIX (Linux) with UTF-8 as the text encoding. The
      tools run on a file system without symbolic links; [safe_path] is
      modelled a second time on a file system with them (module [Links]),
      and the two agree where there is no link.
    - [print] calls are left out: they touch nothing the program reads. *)

From Stdlib Require Import Bool List Arith ZArith NArith Lia.
From Stdlib Require Import Strings.Ascii Strings.String Numbers.DecimalString.
Import ListNotations.

Set Warnings "-register-all,-abstract-large-number".

Open Scope list_scope.
Open Scope string_scope.

(* ================================================================== *)
(** * Python built-ins used by the agents *)
(* ================================================================== *)

Module Py.

(** Code point of a character. *)
Definition ord (c : ascii) : N := N_of_ascii c.

Definition chr (n : N) : ascii := ascii_of_N n.

Definition between (lo hi n : N) : bool := ((lo <=? n) && (n <=? hi))%N.

(** [str.isspace] on one code point below U+0100: the characters [strip]
    removes. *)
Definition is_space (c : ascii) : bool :=
  let n := ord c in
  between 9 13 n || between 28 32 n || (n =? 133)%N || (n =? 160)%N.

(** [s.lstrip()] *)
Fixpoint lstrip (s : string) : string :=
  match s with
  | String c s' => if is_space c then lstrip s' else s
  | EmptyString => EmptyString
  end.

(** [s.rstrip()] *)
Fixpoint rstrip (s : string) : string :=
  match s with
  | String c s' =>
      match rstrip s' with
      | EmptyString => if is_space c then EmptyString else String c EmptyString
      | r => String c r
      end
  | EmptyString => EmptyString
  end.

(** [s.strip()] *)
Definition strip (s : string) : string := rstrip (lstrip s).

(** [str.lower] on one code point below U+0100: A-Z and the Latin-1
    capitals U+00C0..U+00DE (the multiplication sign U+00D7 apart). *)
Definition lower_char (c : ascii) : ascii :=
  let n := ord c in
  if between 65 90 n || (between 192 222 n && negb (n =? 215)%N)
  then chr (n + 32) else c.

(** [s.lower()] *)
Fixpoint lower (s : string) : string :=
  match s with
  | String c s' => String (lower_char c) (lower s')
  | EmptyString => EmptyString
  end.

(** [s.startswith(p)] *)
Fixpoint startswith (p s : string) : bool :=
  match p, s with
  | EmptyString, _ => true
  | String a p', String b s' => Ascii.eqb a b && startswith p' s'
  | String _ _, EmptyString => false
  end.

(** [s[n:]] for [n >= 0] *)
Fixpoint drop (n : nat) (s : string) : string :=
  match n, s with
  | O, _ => s
  | S n', String _ s' => drop n' s'
  | S _, EmptyString => EmptyString
  end.

(** [s[:n]] for [n >= 0] *)
Fixpoint take (n : nat) (s : string) : string :=
  match n, s with
  | O, _ => EmptyString
  | S n', String c s' => String c (take n' s')
  | S _, EmptyString => EmptyString
  end.

(** [d in s] for two strings: [d] occurs in [s] as a substring. *)
Fixpoint contains (d s : string) : bool :=
  startswith d s ||
  match s with
  | String _ s' => contains d s'
  | EmptyString => false
  end.

(** [s.find(d)]: the index of the first occurrence, if any. *)
Fixpoint find (d s : string) : option nat :=
  if startswith d s then Some 0
  else match s with
       | String _ s' => option_map S (find d s')
       | EmptyString => None
       end.

(** [s.replace(old, new, 1)]: the first occurrence of [old] replaced;
    [s] itself when there is none. *)
Fixpoint replace1 (old new s : string) : string :=
  if startswith old s then new ++ drop (length old) s
  else match s with
       | String c s' => String c (replace1 old new s')
       | EmptyString => EmptyString
       end.

(** Line boundaries of [str.splitlines] below U+0100:
    LF, VT, FF, CR, FS, GS, RS and NEL. *)
Definition is_linebreak (c : ascii) : bool :=
  let n := ord c in
  between 10 13 n || between 28 30 n || (n =? 133)%N.

Definition CR : ascii := chr 13.
Definition LF : ascii := chr 10.
Definition NUL : ascii := chr 0.
Definition NL : string := String LF EmptyString.

(** [s.splitlines()]: [cur] is the line read so far. CR LF is one
    boundary; a last line without terminator is kept unless empty. *)
Fixpoint splitlines_from (cur s : string) : list string :=
  match s with
  | EmptyString =>
      match cur with EmptyString => [] | _ => [cur] end
  | String c s' =>
      if is_linebreak c then
        match s' with
        | String c' s'' =>
            if Ascii.eqb c CR && Ascii.eqb c' LF
            then cur :: splitlines_from EmptyString s''
            else cur :: splitlines_from EmptyString s'
        | EmptyString => [cur]
        end
      else splitlines_from (cur ++ String c EmptyString) s'
  end.

Definition splitlines (s : string) : list string :=
  splitlines_from EmptyString s.

(** What text mode hands to the reader of a file (universal newlines):
    CR LF and a lone CR are read as LF. *)
Fixpoint universal_newlines (s : string) : string :=
  match s with
  | EmptyString => EmptyString
  | String c s' =>
      if Ascii.eqb c CR then
        match s' with
        | String c' s'' =>
            if Ascii.eqb c' LF then String LF (universal_newlines s'')
            else String LF (universal_newlines s')
        | EmptyString => String LF EmptyString
        end
      else String c (universal_newlines s')
  end.

(** [sep.join(l)] *)
Definition join (sep : string) (l : list string) : string :=
  String.concat sep l.

(** [l[:k]] on a list, for any integer [k]: a negative [k] counts from
    the end. *)
Definition slice_to {A} (l : list A) (k : Z) : list A :=
  if (k <? 0)%Z
  then firstn (Z.to_nat (Z.of_nat (List.length l) + k)) l
  else firstn (Z.to_nat k) l.

(** [str(n)] for an integer. *)
Definition str_of_Z (z : Z) : string := NilZero.string_of_int (Z.to_int z).

Definition str_of_nat (n : nat) : string := str_of_Z (Z.of_nat n).

(** [s.split(sep)] for a one-character separator. *)
Fixpoint split_from (sep : ascii) (cur s : string) : list string :=
  match s with
  | EmptyString => [cur]
  | String c s' =>
      if Ascii.eqb c sep then cur :: split_from sep EmptyString s'
      else split_from sep (cur ++ String c EmptyString) s'
  end.

Definition split (sep : ascii) (s : string) : list string :=
  split_from sep EmptyString s.

Definition hex_digit (n : N) : ascii :=
  if (n <? 10)%N then chr (48 + n) else chr (87 + n).

(** The two-digit escape [\xhh]. *)
Definition hex_escape (c : ascii) : string :=
  String "\" (String "x"
    (String (hex_digit (ord c / 16)) (String (hex_digit (ord c mod 16)) EmptyString))).

(** [str.isprintable] on one code point below U+0100. *)
Definition is_printable (c : ascii) : bool :=
  let n := ord c in
  between 32 126 n || (between 161 255 n && negb (n =? 173)%N).

Definition SQ : ascii := chr 39.
Definition DQ : ascii := chr 34.

Fixpoint mem_char (c : ascii) (s : string) : bool :=
  match s with
  | String a s' => Ascii.eqb a c || mem_char c s'
  | EmptyString => false
  end.

Fixpoint repr_chars (quote : ascii) (s : string) : string :=
  match s with
  | EmptyString => EmptyString
  | String c s' =>
      (if Ascii.eqb c quote || Ascii.eqb c "\" then String "\" (String c EmptyString)
       else if Ascii.eqb c (chr 9) then "\t"
       else if Ascii.eqb c LF then "\n"
       else if Ascii.eqb c CR then "\r"
       else if is_printable c then String c EmptyString
       else hex_escape c) ++ repr_chars quote s'
  end.

(** [repr(s)] for a string: single quotes, unless the string has a
    single quote and no double quote. *)
Definition repr_str (s : string) : string :=
  let quote := if mem_char SQ s && negb (mem_char DQ s) then DQ else SQ in
  String quote (repr_chars quote s ++ String quote EmptyString).

End Py.

(* ================================================================== *)
(** * Python values, exceptions *)
(* ================================================================== *)

(** The values [json] decoding hands to a tool (numbers with a fraction
    apart). A dict is an association list read from the left. *)
Inductive pyval : Type :=
| VNone
| VBool (b : bool)
| VInt (z : Z)
| VStr (s : string)
| VList (l : list pyval)
| VDict (d : list (string * pyval)).

(** [repr(v)] *)
Fixpoint repr (v : pyval) : string :=
  match v with
  | VNone => "None"
  | VBool true => "True"
  | VBool false => "False"
  | VInt z => Py.str_of_Z z
  | VStr s => Py.repr_str s
  | VList l => "[" ++ Py.join ", " (map repr l) ++ "]"
  | VDict d =>
      "{" ++ Py.join ", "
               (map (fun kv => match kv with
                               | (k, x) => Py.repr_str k ++ ": " ++ repr x
                               end) d) ++ "}"
  end.

(** [str(v)] *)
Definition str (v : pyval) : string :=
  match v with
  | VStr s => s
  | _ => repr v
  end.

(** [d.get(key, default)] *)
Fixpoint dict_get (d : list (string * pyval)) (key : string) (default : pyval) : pyval :=
  match d with
  | [] => default
  | (k, v) :: d' => if String.eqb k key then v else dict_get d' key default
  end.

(** The exceptions the agents can meet; all are subclasses of
    [Exception]. [OSError] stands for its subclasses FileNotFoundError,
    NotADirectoryError, IsADirectoryError and FileExistsError, told apart
    by [errno]. *)
Inductive exn : Type :=
| ValueError (msg : string)
| KeyError (key : string)
| TypeError (msg : string)
| OSError (errno : nat) (filename : string)
| TimeoutExpired (cmd : string)
| OtherError (msg : string).

Definition ENOENT := 2.
Definition EEXIST := 17.
Definition ENOTDIR := 20.
Definition EISDIR := 21.

Definition strerror (errno : nat) : string :=
  if Nat.eqb errno ENOENT then "No such file or directory"
  else if Nat.eqb errno EEXIST then "File exists"
  else if Nat.eqb errno ENOTDIR then "Not a directory"
  else if Nat.eqb errno EISDIR then "Is a directory"
  else "Unknown error " ++ Py.str_of_nat errno.

(** [str(e)] *)
Definition str_exn (e : exn) : string :=
  match e with
  | ValueError msg => msg
  | KeyError key => Py.repr_str key
  | TypeError msg => msg
  | OSError errno filename =>
      "[Errno " ++ Py.str_of_nat errno ++ "] " ++ strerror errno ++ ": "
        ++ Py.repr_str filename
  | TimeoutExpired cmd =>
      "Command " ++ Py.repr_str cmd ++ " timed out after 60 seconds"
  | OtherError msg => msg
  end.

(* ================================================================== *)
(** * The file system and pathlib *)
(* ================================================================== *)

Module Fs.

(** A regular file holds the text on disk (its bytes are [utf8_encode] of
    it); a directory holds its entries by name. *)
Inductive node : Type :=
| File (text : string)
| Dir (entries : list (string * node)).

(** An absolute path: its components below [/]. *)
Definition Path := list string.

(** [str(path)] *)
Definition str_of_path (p : Path) : string :=
  match p with
  | [] => "/"
  | _ => String.concat EmptyString (map (fun c => "/" ++ c) p)
  end.

Fixpoint lookup (name : string) (es : list (string * node)) : option node :=
  match es with
  | [] => None
  | (k, n) :: es' => if String.eqb k name then Some n else lookup name es'
  end.

(** Replace the entry [name], or add it. *)
Fixpoint set_entry (name : string) (n : node) (es : list (string * node))
  : list (string * node) :=
  match es with
  | [] => [(name, n)]
  | (k, m) :: es' =>
      if String.eqb k name then (k, n) :: es' else (k, m) :: set_entry name n es'
  end.

(** The node at [p] below [n], or the error of the path walk. *)
Fixpoint stat (n : node) (p : Path) : nat + node :=
  match p with
  | [] => inr n
  | c :: p' =>
      match n with
      | File _ => inl ENOTDIR
      | Dir es =>
          match lookup c es with
          | Some m => stat m p'
          | None => inl ENOENT
          end
      end
  end.

(** [open(p).read()]: the text of the regular file at [p]. *)
Definition read_file (n : node) (p : Path) : nat + string :=
  match stat n p with
  | inl e => inl e
  | inr (File text) => inr text
  | inr (Dir _) => inl EISDIR
  end.

(** [open(p, "w").write(text)]: creates or truncates the file at [p];
    its directory must exist. *)
Fixpoint write_file (n : node) (p : Path) (text : string) : nat + node :=
  match p with
  | [] =>
      match n with
      | File _ => inr (File text)
      | Dir _ => inl EISDIR
      end
  | c :: p' =>
      match n with
      | File _ => inl ENOTDIR
      | Dir es =>
          match lookup c es with
          | Some m =>
              match write_file m p' text with
              | inr m' => inr (Dir (set_entry c m' es))
              | inl e => inl e
              end
          | None =>
              match p' with
              | [] => inr (Dir (set_entry c (File text) es))
              | _ :: _ => inl ENOENT
              end
          end
      end
  end.

(** [p.mkdir(parents=True, exist_ok=True)]: every missing directory on the
    way to [p] is made; a regular file in the way is an error. *)
Fixpoint mkdir_parents (n : node) (p : Path) : nat + node :=
  match p with
  | [] =>
      match n with
      | Dir _ => inr n
      | File _ => inl EEXIST
      end
  | c :: p' =>
      match n with
      | File _ => inl ENOTDIR
      | Dir es =>
          match mkdir_parents (match lookup c es with
                               | Some m => m
                               | None => Dir []
                               end) p' with
          | inr m' => inr (Dir (set_entry c m' es))
          | inl e => inl e
          end
      end
  end.

(** [p.parent] *)
Definition parent (p : Path) : Path := removelast p.

(** The components of a path string as pathlib parses it: empty
    components and [.] are dropped, [..] is kept. *)
Definition components (p : string) : list string :=
  filter (fun c => negb (String.eqb c EmptyString || String.eqb c "."))
         (Py.split "/" p).

Definition is_absolute (p : string) : bool := Py.startswith "/" p.

(** [base / p]: an absolute [p] replaces [base]. *)
Definition joinpath (base : Path) (p : string) : list string :=
  if is_absolute p then components p else (base ++ components p)%list.

(** [path.resolve()] where nothing is a symbolic link: [..] steps to the
    parent, and the parent of [/] is [/]. [seen] is the resolved part,
    innermost component first. *)
Fixpoint resolve_from (seen : list string) (rest : list string) : Path :=
  match rest with
  | [] => rev seen
  | c :: rest' =>
      if String.eqb c ".." then resolve_from (tl seen) rest'
      else resolve_from (c :: seen) rest'
  end.

Definition resolve (p : list string) : Path := resolve_from [] p.

(** [path.is_relative_to(base)]: [base] is [path] or one of its parents. *)
Fixpoint is_relative_to (path base : Path) {struct base} : bool :=
  match base with
  | [] => true
  | b :: base' =>
      match path with
      | c :: path' => String.eqb b c && is_relative_to path' base'
      | [] => false
      end
  end.

(** A canonical path: no component is [..]. *)
Definition canonical (p : Path) : bool :=
  forallb (fun c => negb (String.eqb c "..")) p.

(** A name of the path holds a NUL character: the system calls refuse
    such a path, and Python raises [ValueError] in their place. *)
Definition has_nul (p : list string) : bool :=
  existsb (Py.mem_char Py.NUL) p.

(** The bytes [write_text] puts on disk for a text: UTF-8, one byte below
    U+0080 and two from there to U+00FF. *)
Fixpoint utf8_encode (s : string) : list N :=
  match s with
  | EmptyString => []
  | String c s' =>
      let n := Py.ord c in
      if (n <? 128)%N then n :: utf8_encode s'
      else (192 + n / 64)%N :: (128 + n mod 64)%N :: utf8_encode s'
  end.

End Fs.

(* ================================================================== *)
(** * The interpreter state and its monad *)
(* ================================================================== *)

(** A validated task: the dict [update] stores. *)
Record todo : Type := mk_todo {
  t_content : string;
  t_status : string;
  t_activeForm : string
}.

(** The arguments of a tool call ([tc.input]): the keys the tools read. A
    key that is present holds a value of the type its schema gives; the
    value of [items] is any value, since [update] checks it itself. *)
Record tool_input : Type := mk_input {
  arg_command : option string;
  arg_path : option string;
  arg_limit : option Z;
  arg_content : option string;
  arg_old_text : option string;
  arg_new_text : option string;
  arg_items : option pyval
}.

(** A content block of a gateway response. *)
Inductive block : Type :=
| TextBlock (text : string)
| ToolUse (id name : string) (input : tool_input).

Record response : Type := mk_response {
  resp_content : list block;
  stop_reason : string
}.

(** What a message of the conversation holds. *)
Inductive content : Type :=
| Texts (l : list string)
| Blocks (l : list block)
| ToolResults (l : list (string * string)).

Record message : Type := mk_message {
  role : string;
  msg_content : content
}.

Record world : Type := mk_world {
  files : Fs.node;
  spawned : list string;
  TODO_items : list todo;
  rounds_without_todo : nat;
  history : list message
}.

Inductive outcome (A : Type) : Type :=
| Return (a : A)
| Raise (e : exn).

Arguments Return {A} a.
Arguments Raise {A} e.

(** A computation: runs from a world, returns or raises, and leaves a
    world. What was done before an exception stays done. *)
Definition M (A : Type) : Type := world -> outcome A * world.

Definition ret {A} (a : A) : M A := fun w => (Return a, w).

Definition raise {A} (e : exn) : M A := fun w => (Raise e, w).

Definition bind {A B} (m : M A) (k : A -> M B) : M B :=
  fun w =>
    match m w with
    | (Return a, w') => k a w'
    | (Raise e, w') => (Raise e, w')
    end.

(** [try: body / except Exception as e: handler] *)
Definition try_except {A} (body : M A) (handler : exn -> M A) : M A :=
  fun w =>
    match body w with
    | (Return a, w') => (Return a, w')
    | (Raise e, w') => handler e w'
    end.

Declare Scope monad_scope.
Delimit Scope monad_scope with monad.
Notation "x <- m ;; k" := (bind m (fun x => k))
  (at level 61, m at next level, right associativity) : monad_scope.
Notation "m ;;; k" := (bind m (fun _ => k))
  (at level 61, right associativity) : monad_scope.
Open Scope monad_scope.

(** The outcome of a computation that does not touch the world. *)
Definition lift {A} (o : outcome A) : M A := fun w => (o, w).

(** [d[key]] *)
Definition getitem {A} (v : option A) (key : string) : M A :=
  match v with
  | Some a => ret a
  | None => raise (KeyError key)
  end.

(** What running a command does: the captured output or the exception of
    [subprocess.run], and the file system it leaves. *)
Definition shell : Type :=
  string -> Fs.node -> outcome (string * string) * Fs.node.

(** [fp.read_text()]: the file is opened in text mode, which reads every
    line end as LF. *)
Definition read_text (fp : Fs.Path) : M string :=
  fun w =>
    match Fs.read_file (files w) fp with
    | inr text => (Return (Py.universal_newlines text), w)
    | inl errno => (Raise (OSError errno (Fs.str_of_path fp)), w)
    end.

Definition set_files (fs : Fs.node) (w : world) : world :=
  mk_world fs (spawned w) (TODO_items w) (rounds_without_todo w) (history w).

(** [fp.write_text(text)]: the text is written as it is. *)
Definition write_text (fp : Fs.Path) (text : string) : M unit :=
  fun w =>
    match Fs.write_file (files w) fp text with
    | inr fs => (Return tt, set_files fs w)
    | inl errno => (Raise (OSError errno (Fs.str_of_path fp)), w)
    end.

(** [fp.mkdir(parents=True, exist_ok=True)] *)
Definition mkdir (fp : Fs.Path) : M unit :=
  fun w =>
    match Fs.mkdir_parents (files w) fp with
    | inr fs => (Return tt, set_files fs w)
    | inl errno => (Raise (OSError errno (Fs.str_of_path fp)), w)
    end.

(** [path.resolve()] where nothing is a symbolic link: a name with a
    NUL character raises [ValueError], as the first system call on it
    does; otherwise the path comes back without its [..]. *)
Definition resolve_path (p : list string) : M Fs.Path :=
  if Fs.has_nul p then raise (ValueError "embedded null byte")
  else ret (Fs.resolve p).

(** [subprocess.run(cmd, shell=True, cwd=WORKDIR, capture_output=True,
    text=True, timeout=60)]. The call is recorded in [spawned] with the
    command it was given, whatever comes of it; the oracle says what
    comes of it: the output of the process, its time-out, or an
    exception of the call itself, which may be raised before any process
    is made (as [ValueError] is for a command with a NUL character). *)
Definition subprocess_run (sh : shell) (cmd : string) : M (string * string) :=
  fun w =>
    let (r, fs) := sh cmd (files w) in
    (r, mk_world fs (spawned w ++ [cmd])%list (TODO_items w)
                 (rounds_without_todo w) (history w)).

Definition is_empty (s : string) : bool :=
  match s with EmptyString => true | String _ _ => false end.

(* ================================================================== *)
(** * v1_basic_agent.py: the tools *)
(* ================================================================== *)

Module V1.
Section Agent.

Variable WORKDIR : Fs.Path.
Variable sh : shell.

Definition safe_path (p : string) : M Fs.Path :=
  path <- resolve_path (Fs.joinpath WORKDIR p) ;;
  if negb (Fs.is_relative_to path WORKDIR)
  then raise (ValueError ("Path escapes workspace: " ++ p))
  else ret path.

Definition dangerous : list string :=
  ["rm -rf /"; "sudo"; "shutdown"; "reboot"; "> /dev/"].

Definition run_bash (cmd : string) : M string :=
  if existsb (fun d => Py.contains d cmd) dangerous
  then ret "Error: Dangerous command blocked"
  else
    try_except
      (result <- subprocess_run sh cmd ;;
       let output := Py.strip (fst result ++ snd result) in
       ret (if is_empty output then "(no output)" else Py.take 50000 output))
      (fun e =>
         match e with
         | TimeoutExpired _ => ret "Error: Command timed out (60s)"
         | _ => ret ("Error: " ++ str_exn e)
         end).

Definition run_read (path : string) (limit : option Z) : M string :=
  try_except
    (fp <- safe_path path ;;
     text <- read_text fp ;;
     let lines := Py.splitlines text in
     let lines :=
       match limit with
       | Some limit =>
           if negb (limit =? 0)%Z && (limit <? Z.of_nat (List.length lines))%Z
           then (Py.slice_to lines limit
                 ++ [("... ("
                      ++ Py.str_of_Z (Z.of_nat (List.length (Py.splitlines text)) - limit)
                      ++ " more lines)")%string])%list
           else lines
       | None => lines
       end in
     ret (Py.take 50000 (Py.join Py.NL lines)))
    (fun e => ret ("Error: " ++ str_exn e)).

Definition run_write (path : string) (content : string) : M string :=
  try_except
    (fp <- safe_path path ;;
     mkdir (Fs.parent fp) ;;;
     write_text fp content ;;;
     ret ("Wrote " ++ Py.str_of_nat (length content) ++ " bytes to " ++ path))
    (fun e => ret ("Error: " ++ str_exn e)).

Definition run_edit (path old_text new_text : string) : M string :=
  try_except
    (fp <- safe_path path ;;
     content <- read_text fp ;;
     if negb (Py.contains old_text content)
     then ret ("Error: Text not found in " ++ path)
     else
       let new_content := Py.replace1 old_text new_text content in
       write_text fp new_content ;;;
       ret ("Edited " ++ path))
    (fun e => ret ("Error: " ++ str_exn e)).

Definition execute_tool (name : string) (input : tool_input) : M string :=
  if String.eqb name "bash" then
    command <- getitem (arg_command input) "command" ;;
    run_bash command
  else if String.eqb name "read_file" then
    path <- getitem (arg_path input) "path" ;;
    run_read path (arg_limit input)
  else if String.eqb name "write_file" then
    path <- getitem (arg_path input) "path" ;;
    content <- getitem (arg_content input) "content" ;;
    run_write path content
  else if String.eqb name "edit_file" then
    path <- getitem (arg_path input) "path" ;;
    old_text <- getitem (arg_old_text input) "old_text" ;;
    new_text <- getitem (arg_new_text input) "new_text" ;;
    run_edit path old_text new_text
  else ret ("Unknown tool: " ++ name).

End Agent.
End V1.

(* ================================================================== *)
(** * v2_todo_agent.py *)
(* ================================================================== *)

Module V2.

(** ** TodoManager *)

Definition statuses : list string := ["pending"; "in_progress"; "completed"].

Definition mem (s : string) (l : list string) : bool :=
  existsb (String.eqb s) l.

(** The body of the [for] loop of [update], from item [i] on, with the
    loop's variables [validated] and [in_progress_count]. *)
Fixpoint validate (i : nat) (items : list pyval) (validated : list todo)
         (in_progress_count : nat) : outcome (list todo * nat) :=
  match items with
  | [] => Return (validated, in_progress_count)
  | item :: items' =>
      match item with
      | VDict d =>
          let content := Py.strip (str (dict_get d "content" (VStr EmptyString))) in
          if is_empty content
          then Raise (ValueError ("Item " ++ Py.str_of_nat i ++ ": content required"))
          else
            let status := Py.lower (str (dict_get d "status" (VStr "pending"))) in
            if negb (mem status statuses)
            then Raise (ValueError ("Item " ++ Py.str_of_nat i
                                    ++ ": invalid status '" ++ status ++ "'"))
            else
              let in_progress_count :=
                if String.eqb status "in_progress"
                then in_progress_count + 1 else in_progress_count in
              let active_form :=
                Py.strip (str (dict_get d "activeForm" (VStr EmptyString))) in
              if is_empty active_form
              then Raise (ValueError ("Item " ++ Py.str_of_nat i
                                      ++ ": activeForm required"))
              else validate (S i) items'
                     (validated ++ [mk_todo content status active_form])%list
                     in_progress_count
      | _ => Raise (ValueError ("Item " ++ Py.str_of_nat i ++ " must be an object"))
      end
  end.

Definition render_line (item : todo) : string :=
  if String.eqb (t_status item) "completed"
  then "[x] " ++ t_content item
  else if String.eqb (t_status item) "in_progress"
  then "[>] " ++ t_content item ++ " <- " ++ t_activeForm item
  else "[ ] " ++ t_content item.

Definition count_completed (items : list todo) : nat :=
  List.length (filter (fun t => String.eqb (t_status t) "completed") items).

(** [TodoManager.render] on the stored items. *)
Definition render_items (items : list todo) : string :=
  match items with
  | [] => "No todos."
  | _ :: _ =>
      let lines := map render_line items in
      let completed := count_completed items in
      let lines :=
        (lines ++ [(Py.NL ++ "(" ++ Py.str_of_nat completed ++ "/"
                    ++ Py.str_of_nat (List.length items) ++ " completed)")%string])%list in
      Py.join Py.NL lines
  end.

Definition render : M string :=
  fun w => (Return (render_items (TODO_items w)), w).

(** [self.items = validated] *)
Definition set_items (validated : list todo) : M unit :=
  fun w => (Return tt,
            mk_world (files w) (spawned w) validated (rounds_without_todo w)
                     (history w)).

(** [TodoManager.update] on the global [TODO]. *)
Definition update (items : pyval) : M string :=
  match items with
  | VList l =>
      r <- lift (validate 0 l [] 0) ;;
      let validated := fst r in
      let in_progress_count := snd r in
      if Nat.ltb 20 (List.length validated)
      then raise (ValueError "Max 20 todos allowed")
      else if Nat.ltb 1 in_progress_count
      then raise (ValueError "Only one task can be in_progress")
      else set_items validated ;;; render
  | _ => raise (ValueError "Items must be a list")
  end.

Definition INITIAL_REMINDER : string :=
  "<reminder>Use TodoWrite for multi-step tasks.</reminder>".

Definition NAG_REMINDER : string :=
  "<reminder>10+ turns without todo update. Please update todos.</reminder>".

Section Agent.

Variable WORKDIR : Fs.Path.
Variable sh : shell.

(** ** Tool implementations *)

Definition safe_path (p : string) : M Fs.Path :=
  path <- resolve_path (Fs.joinpath WORKDIR p) ;;
  if negb (Fs.is_relative_to path WORKDIR)
  then raise (ValueError ("Path escapes workspace: " ++ p))
  else ret path.

Definition dangerous : list string :=
  ["rm -rf /"; "sudo"; "shutdown"; "reboot"].

Definition run_bash (cmd : string) : M string :=
  if existsb (fun d => Py.contains d cmd) dangerous
  then ret "Error: Dangerous command blocked"
  else
    try_except
      (result <- subprocess_run sh cmd ;;
       let output := Py.strip (fst result ++ snd result) in
       ret (if is_empty output then "(no output)" else Py.take 50000 output))
      (fun e =>
         match e with
         | TimeoutExpired _ => ret "Error: Timeout"
         | _ => ret ("Error: " ++ str_exn e)
         end).

Definition run_read (path : string) (limit : option Z) : M string :=
  try_except
    (fp <- safe_path path ;;
     text <- read_text fp ;;
     let lines := Py.splitlines text in
     let lines :=
       match limit with
       | Some limit =>
           if negb (limit =? 0)%Z && (limit <? Z.of_nat (List.length lines))%Z
           then (Py.slice_to lines limit
                 ++ [("... ("
                      ++ Py.str_of_Z (Z.of_nat (List.length (Py.splitlines text)) - limit)
                      ++ " more)")%string])%list
           else lines
       | None => lines
       end in
     ret (Py.take 50000 (Py.join Py.NL lines)))
    (fun e => ret ("Error: " ++ str_exn e)).

Definition run_write (path : string) (content : string) : M string :=
  try_except
    (fp <- safe_path path ;;
     mkdir (Fs.parent fp) ;;;
     write_text fp content ;;;
     ret ("Wrote " ++ Py.str_of_nat (length content) ++ " bytes to " ++ path))
    (fun e => ret ("Error: " ++ str_exn e)).

Definition run_edit (path old_text new_text : string) : M string :=
  try_except
    (fp <- safe_path path ;;
     content <- read_text fp ;;
     if negb (Py.contains old_text content)
     then ret ("Error: Text not found in " ++ path)
     else
       write_text fp (Py.replace1 old_text new_text content) ;;;
       ret ("Edited " ++ path))
    (fun e => ret ("Error: " ++ str_exn e)).

Definition run_todo (items : pyval) : M string :=
  try_except (update items) (fun e => ret ("Error: " ++ str_exn e)).

Definition execute_tool (name : string) (input : tool_input) : M string :=
  if String.eqb name "bash" then
    command <- getitem (arg_command input) "command" ;;
    run_bash command
  else if String.eqb name "read_file" then
    path <- getitem (arg_path input) "path" ;;
    run_read path (arg_limit input)
  else if String.eqb name "write_file" then
    path <- getitem (arg_path input) "path" ;;
    content <- getitem (arg_content input) "content" ;;
    run_write path content
  else if String.eqb name "edit_file" then
    path <- getitem (arg_path input) "path" ;;
    old_text <- getitem (arg_old_text input) "old_text" ;;
    new_text <- getitem (arg_new_text input) "new_text" ;;
    run_edit path old_text new_text
  else if String.eqb name "TodoWrite" then
    items <- getitem (arg_items input) "items" ;;
    run_todo items
  else ret ("Unknown tool: " ++ name).

(** ** Agent loop *)

Definition get_rounds : M nat :=
  fun w => (Return (rounds_without_todo w), w).

(** [rounds_without_todo = n] *)
Definition set_rounds (n : nat) : M unit :=
  fun w => (Return tt,
            mk_world (files w) (spawned w) (TODO_items w) n (history w)).

(** [messages.append(m)]: [messages] is the list [main] holds as
    [history]. *)
Definition append_message (m : message) : M unit :=
  fun w => (Return tt,
            mk_world (files w) (spawned w) (TODO_items w)
                     (rounds_without_todo w) (history w ++ [m])%list).

(** The blocks of type [tool_use] of a response, in order: identifier,
    name and input of each. *)
Definition tool_calls_of (blocks : list block)
  : list (string * string * tool_input) :=
  flat_map (fun b => match b with
                     | ToolUse id name input => [(id, name, input)]
                     | TextBlock _ => []
                     end) blocks.

(** The loop [for tc in tool_calls], with its variables [results] and
    [used_todo]. *)
Fixpoint run_tools (tool_calls : list (string * string * tool_input))
         (results : list (string * string)) (used_todo : bool)
  : M (list (string * string) * bool) :=
  match tool_calls with
  | [] => ret (results, used_todo)
  | (id, name, input) :: tool_calls' =>
      output <- execute_tool name input ;;
      let results := (results ++ [(id, output)])%list in
      let used_todo := if String.eqb name "TodoWrite" then true else used_todo in
      run_tools tool_calls' results used_todo
  end.

(** One round of [while True] in [agent_loop], from the response of the
    gateway on; [true] when the loop returns. *)
Definition agent_round (response : response) : M bool :=
  let tool_calls := tool_calls_of (resp_content response) in
  if negb (String.eqb (stop_reason response) "tool_use") then
    append_message (mk_message "assistant" (Blocks (resp_content response))) ;;;
    ret true
  else
    r <- run_tools tool_calls [] false ;;
    let results := fst r in
    let used_todo := snd r in
    (if used_todo then set_rounds 0
     else (n <- get_rounds ;; set_rounds (n + 1))) ;;;
    append_message (mk_message "assistant" (Blocks (resp_content response))) ;;;
    append_message (mk_message "user" (ToolResults results)) ;;;
    ret false.

(** Where a run of [agent_loop] stands when the answers of the gateway
    known so far are used up. *)
Inductive loop_status : Type :=
| Returned
| AwaitingGateway.

(** [agent_loop(history)] against the answers the gateway gives to its
    successive calls: a response, or an exception of the call. *)
Fixpoint agent_loop (gateway : list (outcome response)) : M loop_status :=
  match gateway with
  | [] => ret AwaitingGateway
  | answer :: gateway' =>
      response <- lift answer ;;
      returned <- agent_round response ;;
      if returned then ret Returned else agent_loop gateway'
  end.

(** ** Main REPL *)

Definition exit_words : list string := ["exit"; "quit"; "q"].

(** One pass of the loop of [main] on a line read by [input] and the
    answers of the gateway during that turn. [None] is [break]; otherwise
    the value [first_message] has afterwards. An exception of
    [agent_loop] is caught and the session goes on; where the known
    answers of the gateway end, the run being described ends too. *)
Definition main_turn (first_message : bool) (line : string)
           (gateway : list (outcome response)) : M (option bool) :=
  let user_input := Py.strip line in
  if is_empty user_input || mem (Py.lower user_input) exit_words then ret None
  else
    rounds <- get_rounds ;;
    let content : list string := [] in
    let content :=
      if first_message then (content ++ [INITIAL_REMINDER])%list
      else if Nat.ltb 10 rounds then (content ++ [NAG_REMINDER])%list
      else content in
    let first_message := if first_message then false else first_message in
    let content := (content ++ [user_input])%list in
    append_message (mk_message "user" (Texts content)) ;;;
    status <- try_except (agent_loop gateway) (fun e => ret Returned) ;;
    match status with
    | Returned => ret (Some first_message)
    | AwaitingGateway => ret None
    end.

(** The loop of [main] on the lines typed; the end of the list is the end
    of input. *)
Fixpoint main_loop (first_message : bool)
         (inputs : list (string * list (outcome response))) : M unit :=
  match inputs with
  | [] => ret tt
  | (line, gateway) :: inputs' =>
      r <- main_turn first_message line gateway ;;
      match r with
      | None => ret tt
      | Some first_message => main_loop first_message inputs'
      end
  end.

Definition main (inputs : list (string * list (outcome response))) : M unit :=
  main_loop true inputs.

End Agent.

(** ** The tool schemas ([TOOLS]) *)

Definition is_some {A} (o : option A) : bool :=
  match o with Some _ => true | None => false end.


Fixpoint dict_find (d : list (string * pyval)) (key : string) : option pyval :=
  match d with
  | [] => None
  | (k, v) :: d' => if String.eqb k key then Some v else dict_find d' key
  end.



(** The keys the schema of the tool named requires are in the input. *)
Definition required_present (name : string) (input : tool_input) : bool :=
  if String.eqb name "bash" then is_some (arg_command input)
  else if String.eqb name "read_file" then is_some (arg_path input)
  else if String.eqb name "write_file"
  then is_some (arg_path input) && is_some (arg_content input)
  else if String.eqb name "edit_file"
  then is_some (arg_path input) && is_some (arg_old_text input)
       && is_some (arg_new_text input)
  else if String.eqb name "TodoWrite" then is_some (arg_items input)
  else true.

End V2.

(* ================================================================== *)
(** * The validation rules of the task list, as the specification words
      them *)
(* ================================================================== *)

Module Rules.

(** A structured item: an object. *)
Definition structured (item : pyval) : bool :=
  match item with VDict _ => true | _ => false end.

(** The text of a field of an item; an absent field has no text. *)
Definition field_text (item : pyval) (key : string) : string :=
  match item with
  | VDict d =>
      match V2.dict_find d key with
      | Some v => str v
      | None => EmptyString
      end
  | _ => EmptyString
  end.

(** Empty after trimming. *)
Definition blank (s : string) : bool := is_empty (Py.strip s).

(** The item gives a status, and it is none of the three, whatever the
    case of its letters. *)
Definition invalid_status (item : pyval) : bool :=
  match item with
  | VDict d =>
      match V2.dict_find d "status" with
      | Some v => negb (V2.mem (Py.lower (str v)) V2.statuses)
      | None => false
      end
  | _ => false
  end.

(** The item's status is [word], whatever the case of its letters. *)
Definition has_status (word : string) (item : pyval) : bool :=
  String.eqb (Py.lower (field_text item "status")) word.

Definition count_status (word : string) (items : list pyval) : nat :=
  List.length (filter (has_status word) items).

(** The input breaks one of the rules: it is not a sequence of structured
    items, some content or activeForm is empty after trimming, some status
    is invalid, there are more than 20 items, or more than one is in
    progress. *)
Definition violates (items : pyval) : bool :=
  match items with
  | VList l =>
      existsb (fun item => negb (structured item)) l
      || existsb (fun item => blank (field_text item "content")) l
      || existsb (fun item => blank (field_text item "activeForm")) l
      || existsb invalid_status l
      || Nat.ltb 20 (List.length l)
      || Nat.ltb 1 (count_status "in_progress" l)
  | _ => true
  end.

(** An item breaks a rule of its own. *)
Definition item_violates (item : pyval) : bool :=
  negb (structured item)
  || blank (field_text item "content")
  || blank (field_text item "activeForm")
  || invalid_status item.

(** The task stored for an item: content and activeForm trimmed, the
    status in lower case, [pending] when the item gives none. *)
Definition stored (item : pyval) : todo :=
  mk_todo (Py.strip (field_text item "content"))
          (match item with
           | VDict d => Py.lower (str (dict_get d "status" (VStr "pending")))
           | _ => "pending"
           end)
          (Py.strip (field_text item "activeForm")).

(** The first [limit] lines, then one marker line with the number of
    lines left out; [more] is the wording after the number. *)
Definition first_lines_with_marker (lines : list string) (limit : nat)
           (more : string) : string :=
  Py.join Py.NL
    (firstn limit lines
     ++ [("... (" ++ Py.str_of_nat (List.length lines - limit) ++ more)%string])%list.

(** Every character is ASCII. *)
Definition is_ascii (s : string) : bool :=
  forallb (fun c => (Py.ord c <? 128)%N) (list_ascii_of_string s).

(** [s] ends with [suffix]. *)
Definition endswith (suffix s : string) : bool :=
  Nat.leb (length suffix) (length s)
  && String.eqb (Py.drop (length s - length suffix) s) suffix.

(** The trailing count of a rendered list. *)
Definition trailing_count (completed total : nat) : string :=
  "(" ++ Py.str_of_nat completed ++ "/" ++ Py.str_of_nat total ++ " completed)".

End Rules.

(* ================================================================== *)
(** * What a computation can be observed to do *)
(* ================================================================== *)

(** The computation returns from every world: it never raises. *)
Definition returns {A} (m : M A) : Prop :=
  forall w, exists a w', m w = (Return a, w').

(** The computation leaves the observation [f] of the world as it was,
    whether it returns or raises. *)
Definition preserves {A X} (f : world -> X) (m : M A) : Prop :=
  forall w, f (snd (m w)) = f w.

(** What the agent loop keeps for itself: the round counter and the
    conversation. No tool reads or writes them. *)
Definition loop_state (w : world) : nat * list message :=
  (rounds_without_todo w, history w).

(** The tool call is named TodoWrite. *)
Definition is_todo_call (tc : string * string * tool_input) : bool :=
  String.eqb (snd (fst tc)) "TodoWrite".

(** The input of the tool call has the keys its tool requires. *)
Definition call_valid (tc : string * string * tool_input) : bool :=
  V2.required_present (snd (fst tc)) (snd tc).

(** The tool call is a TodoWrite whose items break a validation rule. *)
Definition failing_todo_call (tc : string * string * tool_input) : bool :=
  is_todo_call tc
  && match arg_items (snd tc) with
     | Some items => Rules.violates items
     | None => false
     end.

(** The line typed does not end the session. *)
Definition goes_on (line : string) : bool :=
  negb (is_empty (Py.strip line)
        || V2.mem (Py.lower (Py.strip line)) V2.exit_words).

(** The user turn [main] appends for the texts given. *)
Definition user_turn (texts : list string) : message :=
  mk_message "user" (Texts texts).




(* ================================================================== *)
(** * Sample inputs *)
(* ================================================================== *)

Module Sample.

(** A TodoWrite item with its three fields. *)
Definition item (content status activeForm : string) : pyval :=
  VDict [("content", VStr content); ("status", VStr status);
         ("activeForm", VStr activeForm)].

(** A workspace [/w] holding one file [f] of three lines. *)
Definition WORKDIR : Fs.Path := ["w"].

Definition three_lines : string :=
  "l1" ++ Py.NL ++ "l2" ++ Py.NL ++ "l3" ++ Py.NL.

Definition w0 : world :=
  mk_world (Fs.Dir [("w", Fs.Dir [("f", Fs.File three_lines)])]) [] [] 0 [].

(** A shell whose commands print their own text and change nothing. *)
Definition echo : shell := fun cmd fs => (Return (cmd, EmptyString), fs).

(** The one-character text U+00E9, e with acute accent. *)
Definition e_acute : string := String (Py.chr 233) EmptyString.

Definition no_input : tool_input :=
  mk_input None None None None None None None.

End Sample.

(* ================================================================== *)
(** * The task list as stored *)
(* ================================================================== *)

Module Stored.

(** A stored task as [update] leaves it: a status of the three, content
    and activeForm not empty and with no white space around them. *)
Definition task_ok (t : todo) : bool :=
  V2.mem (t_status t) V2.statuses
  && negb (is_empty (t_content t))
  && String.eqb (Py.strip (t_content t)) (t_content t)
  && negb (is_empty (t_activeForm t))
  && String.eqb (Py.strip (t_activeForm t)) (t_activeForm t).

Definition in_progress (t : todo) : bool :=
  String.eqb (t_status t) "in_progress".

(** The stored list: every task as above, at most 20 of them, at most
    one in progress. *)
Definition list_ok (items : list todo) : bool :=
  forallb task_ok items
  && Nat.leb (List.length items) 20
  && Nat.leb (List.length (filter in_progress items)) 1.

(** A stored task as an item of a later TodoWrite. *)
Definition as_item (t : todo) : pyval :=
  VDict [("content", VStr (t_content t)); ("status", VStr (t_status t));
         ("activeForm", VStr (t_activeForm t))].

End Stored.

(** The computation keeps the property [P] of the world, whether it
    returns or raises. *)
Definition keeps {A} (P : world -> Prop) (m : M A) : Prop :=
  forall w, P w -> P (snd (m w)).

(** The text of the regular file at a path, if there is one. *)
Definition text_at (fs : Fs.node) (p : Fs.Path) : option string :=
  match Fs.read_file fs p with
  | inr text => Some text
  | inl _ => None
  end.

(** A text of lines that end in LF, the last one without a line end: LF
    is its only line boundary, and it does not end with one. *)
Fixpoint plain_lines (s : string) : bool :=
  match s with
  | EmptyString => true
  | String c s' =>
      if Py.is_linebreak c
      then Ascii.eqb c Py.LF && negb (is_empty s') && plain_lines s'
      else plain_lines s'
  end.




(* ================================================================== *)
(** * The reminders of a session, as the specification words them *)
(* ================================================================== *)

Module Session.












End Session.

(* ================================================================== *)
(** * v1_basic_agent.py: the loop and the REPL *)
(* ================================================================== *)

Module V1Loop.

(** What a message of the conversation of v1 holds: the line typed, a
    string, the blocks of a response, or the results of its calls. *)
Inductive content : Type :=
| Line (text : string)
| Response (l : list block)
| Results (l : list (string * string)).

Record message : Type := mk_message {
  role : string;
  msg_content : content
}.

(** The state of a session of v1: the world, and the list [main] holds
    as [history] and hands to [agent_loop] as [messages]. *)
Record state : Type := mk_state {
  world_of : world;
  messages : list message
}.

(** A computation of the loop: as [M], over that state. What was
    appended before an exception stays appended. *)
Definition L (A : Type) : Type := state -> outcome A * state.

Definition ret_l {A} (a : A) : L A := fun s => (Return a, s).

Definition bind_l {A B} (m : L A) (k : A -> L B) : L B :=
  fun s =>
    match m s with
    | (Return a, s') => k a s'
    | (Raise e, s') => (Raise e, s')
    end.

Definition try_l {A} (body : L A) (handler : exn -> L A) : L A :=
  fun s =>
    match body s with
    | (Return a, s') => (Return a, s')
    | (Raise e, s') => handler e s'
    end.

(** A computation on the world, run within the loop. *)
Definition run {A} (m : M A) : L A :=
  fun s =>
    let (o, w) := m (world_of s) in
    (o, mk_state w (messages s)).

(** [messages.append(m)] *)
Definition append_message (m : message) : L unit :=
  fun s => (Return tt, mk_state (world_of s) (messages s ++ [m])%list).

Section Agent.

Variable WORKDIR : Fs.Path.
Variable sh : shell.

(** The loop [for tc in tool_calls], with its variable [results]. *)
Fixpoint run_tools (tool_calls : list (string * string * tool_input))
         (results : list (string * string)) : M (list (string * string)) :=
  match tool_calls with
  | [] => ret results
  | (id, name, input) :: tool_calls' =>
      output <- V1.execute_tool WORKDIR sh name input ;;
      run_tools tool_calls' (results ++ [(id, output)])%list
  end.

(** One round of [while True] in [agent_loop], from the response of the
    gateway on; [true] when the loop returns. *)
Definition agent_round (response : response) : L bool :=
  let tool_calls := V2.tool_calls_of (resp_content response) in
  if negb (String.eqb (stop_reason response) "tool_use") then
    bind_l (append_message
              (mk_message "assistant" (Response (resp_content response))))
           (fun _ => ret_l true)
  else
    bind_l (run (run_tools tool_calls [])) (fun results =>
    bind_l (append_message
              (mk_message "assistant" (Response (resp_content response))))
           (fun _ =>
    bind_l (append_message (mk_message "user" (Results results))) (fun _ =>
    ret_l false))).

(** [agent_loop(history)] against the answers the gateway gives to its
    successive calls. *)
Fixpoint agent_loop (gateway : list (outcome response)) : L V2.loop_status :=
  match gateway with
  | [] => ret_l V2.AwaitingGateway
  | answer :: gateway' =>
      bind_l (run (lift answer)) (fun response =>
      bind_l (agent_round response) (fun returned =>
      if returned then ret_l V2.Returned else agent_loop gateway'))
  end.

Definition exit_words : list string := ["exit"; "quit"; "q"].

(** One pass of the loop of [main] on a line read by [input] and the
    answers of the gateway during that turn; [false] is [break], or the
    end of the known answers of the gateway. *)
Definition main_turn (line : string) (gateway : list (outcome response))
  : L bool :=
  let user_input := Py.strip line in
  if is_empty user_input || V2.mem (Py.lower user_input) exit_words
  then ret_l false
  else
    bind_l (append_message (mk_message "user" (Line user_input))) (fun _ =>
    bind_l (try_l (agent_loop gateway) (fun e => ret_l V2.Returned))
           (fun status =>
    match status with
    | V2.Returned => ret_l true
    | V2.AwaitingGateway => ret_l false
    end)).

(** The loop of [main] on the lines typed; the end of the list is the end
    of input. *)
Fixpoint main_loop (inputs : list (string * list (outcome response)))
  : L unit :=
  match inputs with
  | [] => ret_l tt
  | (line, gateway) :: inputs' =>
      bind_l (main_turn line gateway) (fun continue =>
      if continue then main_loop inputs' else ret_l tt)
  end.

(** [main()], from the world it is started in: [history] starts empty. *)
Definition main (inputs : list (string * list (outcome response)))
           (w : world) : outcome unit * state :=
  main_loop inputs (mk_state w []).

End Agent.

(** The line typed does not end the session. *)
Definition goes_on (line : string) : bool :=
  negb (is_empty (Py.strip line)
        || V2.mem (Py.lower (Py.strip line)) exit_words).

End V1Loop.

(* ================================================================== *)
(** * [safe_path] on a file system with symbolic links *)
(* ================================================================== *)

(** The tools above run on a tree without symbolic links. [Path.resolve()]
    follows links, and what [safe_path] is there to keep inside the
    workspace is the place a path leads to. This module has the tree
    with links, [os.path.realpath] and [Path.resolve()] as CPython 3.10
    to 3.12 have them on Linux, and [safe_path] over them. (The versions
    differ in what they do at a loop of links only: 3.9 raises at every
    loop, and from 3.13 on the walk goes on past one.) *)

Module Links.

(** A link holds its target as [os.readlink] gives it. *)
Inductive node : Type :=
| File (text : string)
| Dir (entries : list (string * node))
| Link (target : string).

Fixpoint lookup (name : string) (es : list (string * node)) : option node :=
  match es with
  | [] => None
  | (k, n) :: es' => if String.eqb k name then Some n else lookup name es'
  end.

(** [os.lstat(p)] for a path [p] whose directory is reached without a
    link, as the paths [realpath] asks about are: the node at [p], a
    link there not followed; nothing where the path does not lead. *)
Fixpoint lstat (n : node) (p : Fs.Path) : option node :=
  match p with
  | [] => Some n
  | c :: p' =>
      match n with
      | Dir es =>
          match lookup c es with
          | Some m => lstat m p'
          | None => None
          end
      | _ => None
      end
  end.

(** [os.readlink(p)] where [p] is a link. *)
Definition readlink (fs : node) (p : Fs.Path) : option string :=
  match lstat fs p with
  | Some (Link target) => Some target
  | _ => None
  end.

(** The paths of the links of a tree. *)
Fixpoint link_paths (n : node) : list Fs.Path :=
  match n with
  | File _ => []
  | Link _ => [[]]
  | Dir es =>
      (fix below (es : list (string * node)) : list Fs.Path :=
         match es with
         | [] => []
         | (k, m) :: es' => (map (cons k) (link_paths m) ++ below es')%list
         end) es
  end.

Fixpoint path_eqb (p q : Fs.Path) : bool :=
  match p, q with
  | [], [] => true
  | a :: p', b :: q' => String.eqb a b && path_eqb p' q'
  | _, _ => false
  end.

(** The loop of [_joinrealpath(path, rest, strict=False, seen)]: [path]
    is the part resolved so far, [rest] the names still to walk, [seen]
    the links whose resolution is under way, and [enter] the call of
    [_joinrealpath] on the target of a link. The result is the pair
    [(path, ok)] of the source, or the [ValueError] that [os.lstat]
    raises on a name with a NUL character. *)
Fixpoint walk (enter : list Fs.Path -> Fs.Path -> list string
                       -> outcome (list string * bool))
         (fs : node) (seen : list Fs.Path) (path : Fs.Path) (rest : list string)
         {struct rest} : outcome (list string * bool) :=
  match rest with
  | [] => Return (path, true)
  | name :: rest' =>
      if String.eqb name ".." then walk enter fs seen (removelast path) rest'
      else if Py.mem_char Py.NUL name
      then Raise (ValueError "embedded null byte")
      else
        let newpath := (path ++ [name])%list in
        match readlink fs newpath with
        | None => walk enter fs seen newpath rest'
        | Some target =>
            if existsb (path_eqb newpath) seen
            then Return ((newpath ++ rest')%list, false)
            else
              match enter (newpath :: seen)
                          (if Fs.is_absolute target then [] else path)
                          (Fs.components target) with
              | Return (path', true) => walk enter fs seen path' rest'
              | Return (path', false) => Return ((path' ++ rest')%list, false)
              | Raise e => Raise e
              end
        end
  end.

(** [_joinrealpath], by the depth of links within links it may still
    enter. A link is entered only while its own resolution is not under
    way, so the depth never exceeds the number of links of the tree
    (lemma [joinrealpath_depth]). *)
Fixpoint joinrealpath (depth : nat) (fs : node) (seen : list Fs.Path)
         (path : Fs.Path) (rest : list string) : outcome (list string * bool) :=
  match depth with
  | 0 => Return ((path ++ rest)%list, false)
  | S depth' => walk (joinrealpath depth' fs) fs seen path rest
  end.

(** [_joinrealpath('', filename, False, {})] for an absolute [filename],
    given by its names. *)
Definition realpath (fs : node) (p : list string) : outcome (list string * bool) :=
  joinrealpath (S (List.length (link_paths fs))) fs [] [] p.

Definition ELOOP : nat := 40.

(** The number of links the kernel follows on one walk before it gives
    up with [ELOOP]. *)
Definition MAXSYMLINKS : nat := 40.

(** The walk of the kernel for [os.stat]: from the directory [cur] along
    [rest], every link followed by [follow]. [None] when the walk
    arrives, the error otherwise. *)
Fixpoint kernel_walk (follow : Fs.Path -> list string -> option nat)
         (fs : node) (cur : Fs.Path) (rest : list string) {struct rest}
  : option nat :=
  match rest with
  | [] => None
  | name :: rest' =>
      if String.eqb name ".." then kernel_walk follow fs (removelast cur) rest'
      else
        match lstat fs (cur ++ [name])%list with
        | None => Some ENOENT
        | Some (Link target) =>
            follow (if Fs.is_absolute target then [] else cur)
                   (Fs.components target ++ rest')%list
        | Some (Dir _) => kernel_walk follow fs (cur ++ [name])%list rest'
        | Some (File _) =>
            match rest' with
            | [] => None
            | _ :: _ => Some ENOTDIR
            end
        end
  end.

Fixpoint kernel_stat (links : nat) (fs : node) (cur : Fs.Path)
         (rest : list string) : option nat :=
  match links with
  | 0 => kernel_walk (fun _ _ => Some ELOOP) fs cur rest
  | S links' => kernel_walk (kernel_stat links' fs) fs cur rest
  end.

(** The error of [os.stat(p)], if any. *)
Definition stat_error (fs : node) (p : Fs.Path) : option nat :=
  kernel_stat MAXSYMLINKS fs [] p.

(** [path.resolve()]: [realpath] and [abspath] of it, which drops the
    [..] a walk broken off by a loop has left; then the call of
    [stat()] by which [resolve] looks for a loop, and raises
    [RuntimeError] on [ELOOP]. *)
Definition resolve (fs : node) (p : list string) : outcome Fs.Path :=
  match realpath fs p with
  | Raise e => Raise e
  | Return (s, _) =>
      let q := Fs.resolve s in
      if Fs.has_nul q then Raise (ValueError "embedded null byte")
      else
        match stat_error fs q with
        | Some errno =>
            if Nat.eqb errno ELOOP
            then Raise (OtherError ("Symlink loop from "
                                    ++ Py.repr_str (Fs.str_of_path q)))
            else Return q
        | None => Return q
        end
  end.

(** [safe_path(p)] of v1 and of v2, in the file system [fs]. *)
Definition safe_path (WORKDIR : Fs.Path) (p : string) (fs : node)
  : outcome Fs.Path :=
  match resolve fs (Fs.joinpath WORKDIR p) with
  | Raise e => Raise e
  | Return path =>
      if negb (Fs.is_relative_to path WORKDIR)
      then Raise (ValueError ("Path escapes workspace: " ++ p))
      else Return path
  end.

(** The tree has no link. *)
Definition link_free (fs : node) : bool :=
  match link_paths fs with
  | [] => true
  | _ :: _ => false
  end.

(** What [realpath] keeps true of the part it has resolved: it has no
    [..] and no NUL character, and no part of it is a link. *)
Definition resolved (fs : node) (q : Fs.Path) : Prop :=
  Fs.canonical q = true
  /\ Fs.has_nul q = false
  /\ forall k, k < List.length q -> readlink fs (firstn (S k) q) = None.

(** The path is a real one in the tree: it has no [..], and no part
    of it is a link. *)
Definition real (fs : node) (q : Fs.Path) : bool :=
  Fs.canonical q
  && forallb (fun k => match readlink fs (firstn (S k) q) with
                       | Some _ => false
                       | None => true
                       end)
             (seq 0 (List.length q)).

End Links.

(* ================================================================== *)
(** * Properties *)
(* ================================================================== *)

(** ** Strings *)

Lemma str_app_nil_r (s : string) : s ++ EmptyString = s.
Proof. induction s as [|c s IH]; simpl; [reflexivity | now rewrite IH]. Qed.

Lemma str_app_assoc (a b c : string) : (a ++ b) ++ c = a ++ (b ++ c).
Proof. induction a as [|x a IH]; simpl; [reflexivity | now rewrite IH]. Qed.

Lemma str_length_app (a b : string) : length (a ++ b) = length a + length b.
Proof. induction a as [|x a IH]; simpl; [reflexivity | now rewrite IH]. Qed.

Lemma drop_app (a b : string) : Py.drop (length a) (a ++ b) = b.
Proof. induction a as [|x a IH]; simpl; [reflexivity | exact IH]. Qed.

Lemma endswith_app (a b : string) : Rules.endswith b (a ++ b) = true.
Proof.
  unfold Rules.endswith. rewrite str_length_app.
  replace (length a + length b - length b) with (length a) by lia.
  rewrite drop_app, String.eqb_refl, andb_true_r.
  apply Nat.leb_le. lia.
Qed.

Lemma join_snoc (sep x : string) (l : list string) :
  l <> [] -> Py.join sep (l ++ [x]) = Py.join sep l ++ sep ++ x.
Proof.
  unfold Py.join. induction l as [|a l IH]; intros Hne; [congruence|].
  destruct l as [|b l].
  - simpl. reflexivity.
  - change (String.concat sep ((a :: b :: l) ++ [x])%list)
      with (a ++ sep ++ String.concat sep ((b :: l) ++ [x])%list).
    rewrite IH by discriminate.
    change (String.concat sep (a :: b :: l))
      with (a ++ sep ++ String.concat sep (b :: l)).
    now rewrite !str_app_assoc.
Qed.

(** ** The task list *)

Lemma dict_get_find (d : list (string * pyval)) (key : string) (default : pyval) :
  dict_get d key default =
  match V2.dict_find d key with Some v => v | None => default end.
Proof.
  induction d as [|[k v] d IH]; simpl; [reflexivity|].
  destruct (String.eqb k key); [reflexivity | exact IH].
Qed.

Lemma existsb_orb {A} (f g : A -> bool) (l : list A) :
  existsb (fun x => f x || g x) l = existsb f l || existsb g l.
Proof.
  induction l as [|a l IH]; simpl; [reflexivity|].
  rewrite IH. destruct (f a), (g a), (existsb f l), (existsb g l); reflexivity.
Qed.

(** The rules on the whole input, item by item. *)
Lemma violates_items (l : list pyval) :
  Rules.violates (VList l) =
  existsb Rules.item_violates l
  || Nat.ltb 20 (List.length l)
  || Nat.ltb 1 (Rules.count_status "in_progress" l).
Proof.
  unfold Rules.violates, Rules.item_violates.
  now rewrite !existsb_orb.
Qed.

Lemma stored_status_in_progress (item : pyval) :
  Rules.item_violates item = false ->
  String.eqb (t_status (Rules.stored item)) "in_progress"
  = Rules.has_status "in_progress" item.
Proof.
  unfold Rules.item_violates, Rules.has_status, Rules.field_text, Rules.stored.
  destruct item as [| | | | |d]; simpl; try discriminate.
  rewrite dict_get_find. destruct (V2.dict_find d "status"); reflexivity.
Qed.

Lemma stored_status_completed (item : pyval) :
  Rules.item_violates item = false ->
  String.eqb (t_status (Rules.stored item)) "completed"
  = Rules.has_status "completed" item.
Proof.
  unfold Rules.item_violates, Rules.has_status, Rules.field_text, Rules.stored.
  destruct item as [| | | | |d]; simpl; try discriminate.
  rewrite dict_get_find. destruct (V2.dict_find d "status"); reflexivity.
Qed.

(** One pass of the loop of [update] on an item that breaks no rule. *)
Lemma validate_cons_ok (item : pyval) (l : list pyval) i validated n :
  Rules.item_violates item = false ->
  V2.validate i (item :: l) validated n =
  V2.validate (S i) l (validated ++ [Rules.stored item])%list
              (if Rules.has_status "in_progress" item then n + 1 else n).
Proof.
  intros Hi. unfold Rules.item_violates in Hi.
  destruct item as [| | | | |d]; try discriminate.
  unfold Rules.has_status, Rules.stored, Rules.blank, Rules.field_text,
    Rules.invalid_status in *.
  cbn [V2.validate Rules.structured negb orb] in *. cbv zeta.
  rewrite !dict_get_find.
  apply orb_false_iff in Hi as [Hi Hs]. apply orb_false_iff in Hi as [Hc Ha].
  destruct (V2.dict_find d "content") as [vc|]; [|discriminate Hc].
  destruct (V2.dict_find d "activeForm") as [va|]; [|discriminate Ha].
  rewrite Hc, Ha.
  destruct (V2.dict_find d "status") as [vs|].
  - rewrite Hs. reflexivity.
  - reflexivity.
Qed.

(** One pass of the loop of [update] on an item that breaks a rule. *)
Lemma validate_cons_bad (item : pyval) (l : list pyval) i validated n :
  Rules.item_violates item = true ->
  exists msg, V2.validate i (item :: l) validated n = Raise (ValueError msg).
Proof.
  intros Hi. unfold Rules.item_violates in Hi.
  destruct item as [| | | | |d]; try (eexists; reflexivity).
  unfold Rules.blank, Rules.field_text, Rules.invalid_status in Hi.
  cbn [V2.validate Rules.structured negb orb] in *. cbv zeta.
  rewrite !dict_get_find.
  destruct (V2.dict_find d "content") as [vc|]; [|eexists; reflexivity].
  destruct (is_empty (Py.strip (str vc))); [eexists; reflexivity|].
  destruct (V2.dict_find d "status") as [vs|].
  - destruct (negb (V2.mem (Py.lower (str vs)) V2.statuses));
      [eexists; reflexivity|].
    destruct (V2.dict_find d "activeForm") as [va|]; [|eexists; reflexivity].
    destruct (is_empty (Py.strip (str va))); [eexists; reflexivity|].
    discriminate Hi.
  - cbn [str]. change (negb (V2.mem (Py.lower "pending") V2.statuses)) with false.
    cbv iota.
    destruct (V2.dict_find d "activeForm") as [va|]; [|eexists; reflexivity].
    destruct (is_empty (Py.strip (str va))); [eexists; reflexivity|].
    discriminate Hi.
Qed.

(** The loop of [update] accepts the lists none of whose items breaks a
    rule, and then holds the stored items and the number of items in
    progress. *)
Lemma validate_accepts (l : list pyval) :
  forall i validated n,
    existsb Rules.item_violates l = false ->
    V2.validate i l validated n =
    Return ((validated ++ map Rules.stored l)%list,
            n + Rules.count_status "in_progress" l).
Proof.
  induction l as [|item l IH]; intros i validated n H.
  - simpl. now rewrite app_nil_r, Nat.add_0_r.
  - simpl in H. apply orb_false_iff in H as [Hi Hl].
    rewrite validate_cons_ok by exact Hi.
    rewrite IH by exact Hl.
    f_equal. f_equal.
    + now rewrite <- app_assoc.
    + unfold Rules.count_status. cbn [filter].
      destruct (Rules.has_status "in_progress" item); cbn [List.length]; lia.
Qed.

(** It raises [ValueError] on every other list. *)
Lemma validate_rejects (l : list pyval) :
  forall i validated n,
    existsb Rules.item_violates l = true ->
    exists msg, V2.validate i l validated n = Raise (ValueError msg).
Proof.
  induction l as [|item l IH]; intros i validated n H; [discriminate|].
  simpl in H.
  destruct (Rules.item_violates item) eqn:Hi.
  - now apply validate_cons_bad.
  - rewrite validate_cons_ok by exact Hi. apply IH. exact H.
Qed.

(** [update] on a list that breaks no rule: the stored items replace the
    list, and its rendering is returned. *)
Lemma update_accepts (l : list pyval) (w : world) :
  Rules.violates (VList l) = false ->
  V2.update (VList l) w =
  (Return (V2.render_items (map Rules.stored l)),
   mk_world (files w) (spawned w) (map Rules.stored l)
            (rounds_without_todo w) (history w)).
Proof.
  rewrite violates_items. intros H.
  apply orb_false_iff in H as [H Hip]. apply orb_false_iff in H as [Hitems Hlen].
  unfold V2.update, bind, lift.
  rewrite validate_accepts by exact Hitems.
  cbn [fst snd app]. rewrite length_map, Hlen. cbn [Nat.add]. rewrite Hip.
  reflexivity.
Qed.

(** [update] on an input that breaks a rule raises [ValueError] and
    leaves the world as it was. *)
Lemma update_rejects (items : pyval) (w : world) :
  Rules.violates items = true ->
  exists msg, V2.update items w = (Raise (ValueError msg), w).
Proof.
  intros H.
  destruct items as [| | | |l|]; try (eexists; reflexivity).
  rewrite violates_items in H.
  unfold V2.update, bind, lift.
  destruct (existsb Rules.item_violates l) eqn:Hitems.
  - destruct (validate_rejects l 0 [] 0 Hitems) as [msg ->].
    now exists msg.
  - rewrite validate_accepts by exact Hitems.
    cbn [fst snd app orb] in *. rewrite length_map. cbn [Nat.add].
    destruct (Nat.ltb 20 (List.length l)); [eexists; reflexivity|].
    cbn [orb] in H. rewrite H. eexists; reflexivity.
Qed.

Lemma count_completed_stored (l : list pyval) :
  existsb Rules.item_violates l = false ->
  V2.count_completed (map Rules.stored l) = Rules.count_status "completed" l.
Proof.
  unfold V2.count_completed, Rules.count_status.
  induction l as [|item l IH]; intros H; [reflexivity|].
  simpl in H. apply orb_false_iff in H as [Hi Hl].
  cbn [map filter]. rewrite (stored_status_completed item Hi).
  destruct (Rules.has_status "completed" item); cbn [List.length];
    now rewrite IH.
Qed.

(** The rendering of a non-empty list: its lines, an empty line, and the
    count. *)
Lemma render_items_count (items : list todo) :
  items <> [] ->
  V2.render_items items =
  Py.join Py.NL (map V2.render_line items) ++ Py.NL ++ Py.NL
    ++ Rules.trailing_count (V2.count_completed items) (List.length items).
Proof.
  intros Hne. destruct items as [|t items]; [congruence|].
  unfold V2.render_items. rewrite join_snoc by discriminate.
  reflexivity.
Qed.

(** C1. An input of [update] that breaks a validation rule (not a list
    of objects, a content or activeForm empty after trimming, an invalid
    status, more than 20 items, more than one item in progress) makes
    [update] raise [ValueError], and the world, the stored list with it,
    is the one before the call: nothing is committed. *)
Theorem update_invalid_raises_and_keeps_list (items : pyval) (w : world) :
  Rules.violates items = true ->
  exists msg,
    V2.update items w = (Raise (ValueError msg), w)
    /\ TODO_items (snd (V2.update items w)) = TODO_items w
    /\ V2.run_todo items w = (Return ("Error: " ++ msg), w).
Proof.
  intros H. destruct (update_rejects items w H) as [msg Hu].
  exists msg. split; [exact Hu|]. split.
  - now rewrite Hu.
  - unfold V2.run_todo, try_except. now rewrite Hu.
Qed.

Lemma update_invalid_raises_and_keeps_list_witness :
  Rules.violates (VList [Sample.item "a" "in_progress" "Doing a";
                         Sample.item "b" "in_progress" "Doing b"]) = true
  /\ exists msg,
      V2.update (VList [Sample.item "a" "in_progress" "Doing a";
                        Sample.item "b" "in_progress" "Doing b"]) Sample.w0
      = (Raise (ValueError msg), Sample.w0).
Proof.
  split; [reflexivity|].
  destruct (update_invalid_raises_and_keeps_list
              (VList [Sample.item "a" "in_progress" "Doing a";
                      Sample.item "b" "in_progress" "Doing b"]) Sample.w0 eq_refl)
    as (msg & Hu & _).
  now exists msg.
Defined.

(** The two rejections the specification lists: 21 valid items, and two
    items in progress. *)
Example update_21_items :
  V2.update (VList (repeat (Sample.item "a" "pending" "Doing a") 21))
            (mk_world (files Sample.w0) [] [mk_todo "old" "pending" "Old"] 0 [])
  = (Raise (ValueError "Max 20 todos allowed"),
     mk_world (files Sample.w0) [] [mk_todo "old" "pending" "Old"] 0 []).
Proof. reflexivity. Qed.

Example update_two_in_progress :
  V2.update (VList [Sample.item "a" "in_progress" "Doing a";
                    Sample.item "b" "in_progress" "Doing b"])
            (mk_world (files Sample.w0) [] [mk_todo "old" "pending" "Old"] 0 [])
  = (Raise (ValueError "Only one task can be in_progress"),
     mk_world (files Sample.w0) [] [mk_todo "old" "pending" "Old"] 0 []).
Proof. reflexivity. Qed.

(** C2, as stated, fails on the empty list: [update] succeeds, and
    [render] returns [No todos.], which has no count at its end. *)
Lemma render_empty_list_has_no_count :
  ~ (forall (l : list pyval) (w : world),
        Rules.violates (VList l) = false ->
        exists out w',
          V2.update (VList l) w = (Return out, w')
          /\ V2.render w' = (Return out, w')
          /\ Rules.endswith
               (Rules.trailing_count (Rules.count_status "completed" l)
                                     (List.length l)) out = true).
Proof.
  intros H.
  destruct (H [] Sample.w0 eq_refl) as (out & w' & Hu & _ & He).
  cbv in Hu. injection Hu as <- _. cbv in He. discriminate.
Qed.

(** C2, amended. For every list that breaks no validation rule, [update]
    succeeds and stores the list; [render] then returns the text [update]
    returned. For a non-empty list that text ends with a line
    [(completed/total completed)], where completed is the number of input
    items whose status is completed and total the length of the input;
    for the empty list it is [No todos.]. *)
Theorem update_valid_renders_count (l : list pyval) (w : world) :
  Rules.violates (VList l) = false ->
  exists out w',
    V2.update (VList l) w = (Return out, w')
    /\ V2.render w' = (Return out, w')
    /\ TODO_items w' = map Rules.stored l
    /\ match l with
       | [] => out = "No todos."
       | _ :: _ =>
           Rules.endswith
             (Py.NL ++ Rules.trailing_count (Rules.count_status "completed" l)
                                            (List.length l)) out = true
       end.
Proof.
  intros H. rewrite (update_accepts l w H).
  eexists. eexists. split; [reflexivity|]. split; [reflexivity|].
  split; [reflexivity|].
  destruct l as [|item l]; [reflexivity|].
  rewrite render_items_count by discriminate.
  rewrite violates_items in H.
  apply orb_false_iff in H as [H _]. apply orb_false_iff in H as [H _].
  rewrite count_completed_stored by exact H.
  rewrite length_map.
  rewrite <- (str_app_assoc _ Py.NL).
  apply endswith_app.
Qed.

Lemma update_valid_renders_count_witness :
  Rules.violates (VList [Sample.item "a" "completed" "Doing a";
                         Sample.item " b " "In_Progress" "Doing b"]) = false
  /\ exists out w',
      V2.update (VList [Sample.item "a" "completed" "Doing a";
                        Sample.item " b " "In_Progress" "Doing b"]) Sample.w0
      = (Return out, w')
      /\ V2.render w' = (Return out, w')
      /\ TODO_items w' = [mk_todo "a" "completed" "Doing a";
                          mk_todo "b" "in_progress" "Doing b"]
      /\ Rules.endswith (Py.NL ++ "(1/2 completed)") out = true.
Proof.
  split; [reflexivity|].
  apply (update_valid_renders_count
           [Sample.item "a" "completed" "Doing a";
            Sample.item " b " "In_Progress" "Doing b"] Sample.w0).
  reflexivity.
Defined.

(** ** The path resolver of the workspace *)

Lemma is_relative_to_prefix (base path : Fs.Path) :
  Fs.is_relative_to path base = true <-> exists rest, path = (base ++ rest)%list.
Proof.
  revert path. induction base as [|b base IH]; intros path.
  - simpl. split; [intros _; now exists path | reflexivity].
  - destruct path as [|c path]; simpl.
    + split; [discriminate | intros [rest H]; discriminate].
    + rewrite andb_true_iff, String.eqb_eq, IH. split.
      * intros [-> [rest ->]]. now exists rest.
      * intros [rest H]. injection H as -> ->. split; [reflexivity | now exists rest].
Qed.

(** Canonical components are kept as they are. *)
Lemma resolve_from_canonical (a rest seen : list string) :
  Fs.canonical a = true ->
  Fs.resolve_from seen (a ++ rest) = Fs.resolve_from (rev a ++ seen) rest.
Proof.
  revert seen. induction a as [|c a IH]; intros seen H; [reflexivity|].
  simpl in H. apply andb_true_iff in H as [Hc Ha].
  apply negb_true_iff in Hc.
  cbn [app Fs.resolve_from]. rewrite Hc, IH by exact Ha.
  cbn [rev]. now rewrite <- app_assoc.
Qed.

(** The resolved path has no [..] left. *)
Lemma resolve_from_is_canonical (rest seen : list string) :
  Fs.canonical seen = true -> Fs.canonical (Fs.resolve_from seen rest) = true.
Proof.
  revert seen. induction rest as [|c rest IH]; intros seen H.
  - simpl. unfold Fs.canonical in *. rewrite forallb_forall in *.
    intros x Hx. apply H. now apply in_rev.
  - cbn [Fs.resolve_from]. destruct (String.eqb c "..") eqn:Ec.
    + apply IH. destruct seen as [|s seen]; [reflexivity|].
      simpl in H. now apply andb_true_iff in H as [_ H].
    + apply IH. simpl. now rewrite Ec, H.
Qed.

Lemma resolve_is_canonical (p : list string) :
  Fs.canonical (Fs.resolve p) = true.
Proof. now apply resolve_from_is_canonical. Qed.

(** What [safe_path] does: the resolved path when it lies in the
    workspace, [ValueError] otherwise; the world is not touched. *)
Lemma safe_path_cases (W : Fs.Path) (p : string) (w : world) :
  V2.safe_path W p w =
  if Fs.has_nul (Fs.joinpath W p)
  then (Raise (ValueError "embedded null byte"), w)
  else if Fs.is_relative_to (Fs.resolve (Fs.joinpath W p)) W
       then (Return (Fs.resolve (Fs.joinpath W p)), w)
       else (Raise (ValueError ("Path escapes workspace: " ++ p)), w).
Proof.
  unfold V2.safe_path, resolve_path, bind.
  destruct (Fs.has_nul (Fs.joinpath W p)); [reflexivity|].
  cbn [ret]. destruct (Fs.is_relative_to (Fs.resolve (Fs.joinpath W p)) W);
    reflexivity.
Qed.

Lemma resolve_parent_sibling (W : Fs.Path) (name : string) :
  Fs.canonical W = true -> String.eqb name ".." = false ->
  Fs.resolve (W ++ [".."; name])%list = (removelast W ++ [name])%list.
Proof.
  intros HW Hn. unfold Fs.resolve.
  rewrite resolve_from_canonical, app_nil_r by exact HW.
  cbn [Fs.resolve_from]. rewrite String.eqb_refl, Hn. cbn [rev].
  f_equal.
  destruct W as [|c W] using rev_ind; [reflexivity|].
  rewrite rev_app_distr, removelast_last. cbn [rev app tl].
  apply rev_involutive.
Qed.

Lemma not_under_root (W : Fs.Path) (name : string) :
  W <> [] -> last W EmptyString <> name ->
  Fs.is_relative_to (removelast W ++ [name])%list W = false.
Proof.
  intros Hne Hlast.
  destruct (Fs.is_relative_to (removelast W ++ [name])%list W) eqn:E; [|reflexivity].
  exfalso. apply is_relative_to_prefix in E as [rest E].
  rewrite (app_removelast_last EmptyString Hne) in E at 2.
  rewrite <- app_assoc in E. apply app_inv_head in E.
  injection E as E _. congruence.
Qed.

(** ** Resolving a path where there are links *)

Lemma path_eqb_eq (p q : Fs.Path) : Links.path_eqb p q = true <-> p = q.
Proof.
  revert q. induction p as [|a p IH]; intros [|b q]; simpl;
    try (split; [discriminate|discriminate]); [tauto|].
  rewrite andb_true_iff, String.eqb_eq, IH.
  split; [intros [-> ->]; reflexivity | intros H; injection H; auto].
Qed.

(** Every link of the tree is in the list of its links. *)
Lemma link_paths_complete (p : Fs.Path) :
  forall (fs : Links.node) (t : string),
    Links.lstat fs p = Some (Links.Link t) -> In p (Links.link_paths fs).
Proof.
  induction p as [|c p IH]; intros fs t H.
  - simpl in H. injection H as ->. simpl. auto.
  - simpl in H. destruct fs as [text|es|target]; try discriminate.
    destruct (Links.lookup c es) as [m|] eqn:El; [|discriminate].
    specialize (IH m t H). cbn [Links.link_paths].
    clear H. induction es as [|[k n] es IHes]; [discriminate|].
    simpl in El. apply in_or_app.
    destruct (String.eqb k c) eqn:Ek.
    + apply String.eqb_eq in Ek. subst k. injection El as ->.
      left. now apply in_map.
    + right. now apply IHes.
Qed.

Lemma readlink_in_links (fs : Links.node) (p : Fs.Path) (t : string) :
  Links.readlink fs p = Some t -> In p (Links.link_paths fs).
Proof.
  unfold Links.readlink. intros H.
  destruct (Links.lstat fs p) as [[text|es|target]|] eqn:E; try discriminate.
  now apply (link_paths_complete p fs target).
Qed.

(** The walk asks [enter] about links only, and about none under way. *)
Lemma walk_ext (enter1 enter2 : list Fs.Path -> Fs.Path -> list string
                                -> outcome (list string * bool))
      (fs : Links.node) (seen : list Fs.Path) :
  (forall newpath path rest,
      Links.readlink fs newpath <> None ->
      existsb (Links.path_eqb newpath) seen = false ->
      enter1 (newpath :: seen) path rest = enter2 (newpath :: seen) path rest) ->
  forall rest path,
    Links.walk enter1 fs seen path rest = Links.walk enter2 fs seen path rest.
Proof.
  intros Hext. induction rest as [|name rest IH]; intros path; [reflexivity|].
  cbn [Links.walk].
  destruct (String.eqb name ".."); [apply IH|].
  destruct (Py.mem_char Py.NUL name); [reflexivity|].
  destruct (Links.readlink fs (path ++ [name])%list) as [target|] eqn:El;
    [|apply IH].
  destruct (existsb _ seen) eqn:Es; [reflexivity|].
  rewrite (Hext (path ++ [name])%list _ _ ltac:(congruence) Es).
  destruct (enter2 _ _ _) as [[path' [|]]|e]; [apply IH | reflexivity | reflexivity].
Qed.

(** The depth [realpath] starts with is never used up: with one more,
    or any number more, the result is the same. *)
Lemma joinrealpath_depth (fs : Links.node) (depth : nat) :
  forall seen path rest,
    NoDup seen ->
    (forall q, In q seen -> Links.readlink fs q <> None) ->
    List.length (Links.link_paths fs) < depth + List.length seen ->
    Links.joinrealpath (S depth) fs seen path rest
    = Links.joinrealpath depth fs seen path rest.
Proof.
  induction depth as [|depth IH]; intros seen path rest Hnd Hl Hlen.
  - exfalso.
    assert (Hincl : incl seen (Links.link_paths fs)).
    { intros q Hq. specialize (Hl q Hq).
      destruct (Links.readlink fs q) as [t|] eqn:E; [|congruence].
      now apply (readlink_in_links fs q t). }
    pose proof (NoDup_incl_length Hnd Hincl). simpl in Hlen. lia.
  - change (Links.walk (Links.joinrealpath (S depth) fs) fs seen path rest
            = Links.walk (Links.joinrealpath depth fs) fs seen path rest).
    apply walk_ext. intros newpath path' rest' Hlink Hseen.
    apply IH.
    + constructor; [|exact Hnd].
      intros Hin. apply Bool.not_true_iff_false in Hseen. apply Hseen.
      apply existsb_exists. exists newpath. split; [exact Hin|].
      now apply path_eqb_eq.
    + intros q [<-|Hq]; [exact Hlink | now apply Hl].
    + simpl. lia.
Qed.

Lemma realpath_depth (fs : Links.node) (p : list string) (more : nat) :
  Links.joinrealpath (S (List.length (Links.link_paths fs)) + more) fs [] [] p
  = Links.realpath fs p.
Proof.
  unfold Links.realpath. induction more as [|more IH].
  - now rewrite Nat.add_0_r.
  - rewrite Nat.add_succ_r, <- IH.
    apply joinrealpath_depth; [constructor | intros q [] | simpl; lia].
Qed.

(** *** What the resolved part is like *)

Lemma resolved_nil (fs : Links.node) : Links.resolved fs [].
Proof. repeat split. intros k Hk. simpl in Hk. lia. Qed.

Lemma resolved_snoc (fs : Links.node) (path : Fs.Path) (name : string) :
  Links.resolved fs path ->
  String.eqb name ".." = false ->
  Py.mem_char Py.NUL name = false ->
  Links.readlink fs (path ++ [name])%list = None ->
  Links.resolved fs (path ++ [name])%list.
Proof.
  intros (Hc & Hn & Hl) Hname Hnul Hlink. split; [|split].
  - unfold Fs.canonical in *. rewrite forallb_app, Hc. simpl. now rewrite Hname.
  - unfold Fs.has_nul in *. rewrite existsb_app, Hn. simpl. now rewrite Hnul.
  - intros k Hk. rewrite length_app in Hk. simpl in Hk.
    destruct (Nat.eq_dec k (List.length path)) as [->|Hne].
    + rewrite firstn_all2 by (rewrite length_app; simpl; lia). exact Hlink.
    + rewrite firstn_app.
      replace (S k - List.length path) with 0 by lia.
      rewrite firstn_O, app_nil_r. apply Hl. lia.
Qed.

Lemma resolved_front (fs : Links.node) (path rest : Fs.Path) :
  Links.resolved fs (path ++ rest)%list -> Links.resolved fs path.
Proof.
  intros (Hc & Hn & Hl). split; [|split].
  - unfold Fs.canonical in *. rewrite forallb_app in Hc.
    now apply andb_true_iff in Hc as [Hc _].
  - unfold Fs.has_nul in *. rewrite existsb_app in Hn.
    now apply orb_false_iff in Hn as [Hn _].
  - intros k Hk. specialize (Hl k). rewrite length_app in Hl.
    rewrite firstn_app in Hl.
    replace (S k - List.length path) with 0 in Hl by lia.
    rewrite firstn_O, app_nil_r in Hl. apply Hl. lia.
Qed.

Lemma resolved_removelast (fs : Links.node) (path : Fs.Path) :
  Links.resolved fs path -> Links.resolved fs (removelast path).
Proof.
  destruct path as [|a path] using rev_ind; [auto|].
  rewrite removelast_last. apply resolved_front.
Qed.

(** The step of the walk inside a resolved path. *)
Lemma resolved_step (fs : Links.node) (path rest : Fs.Path) (name : string) :
  Links.resolved fs (path ++ name :: rest)%list ->
  String.eqb name ".." = false
  /\ Py.mem_char Py.NUL name = false
  /\ Links.readlink fs (path ++ [name])%list = None.
Proof.
  intros (Hc & Hn & Hl). split; [|split].
  - unfold Fs.canonical in Hc. rewrite forallb_app in Hc.
    apply andb_true_iff in Hc as [_ Hc]. simpl in Hc.
    apply andb_true_iff in Hc as [Hc _]. now apply negb_true_iff in Hc.
  - unfold Fs.has_nul in Hn. rewrite existsb_app in Hn.
    apply orb_false_iff in Hn as [_ Hn]. simpl in Hn.
    now apply orb_false_iff in Hn as [Hn _].
  - specialize (Hl (List.length path)). rewrite length_app in Hl.
    rewrite firstn_app in Hl.
    replace (S (List.length path) - List.length path) with 1 in Hl by lia.
    rewrite firstn_all2 in Hl by lia. apply Hl. simpl. lia.
Qed.

Lemma walk_resolved (enter : list Fs.Path -> Fs.Path -> list string
                             -> outcome (list string * bool))
      (fs : Links.node) (seen : list Fs.Path) :
  (forall s p r q, enter s p r = Return (q, true) ->
                   Links.resolved fs p -> Links.resolved fs q) ->
  forall rest path q,
    Links.walk enter fs seen path rest = Return (q, true) ->
    Links.resolved fs path -> Links.resolved fs q.
Proof.
  intros Henter. induction rest as [|name rest IH]; intros path q H Hp.
  - simpl in H. now injection H as <-.
  - cbn [Links.walk] in H.
    destruct (String.eqb name "..") eqn:En.
    { apply (IH _ _ H). now apply resolved_removelast. }
    destruct (Py.mem_char Py.NUL name) eqn:Ez; [discriminate|].
    destruct (Links.readlink fs (path ++ [name])%list) as [target|] eqn:El.
    + destruct (existsb _ seen); [discriminate|].
      destruct (enter _ _ _) as [[path' [|]]|e] eqn:Ee; try discriminate.
      apply (IH _ _ H). apply (Henter _ _ _ _ Ee).
      destruct (Fs.is_absolute target); [apply resolved_nil | exact Hp].
    + apply (IH _ _ H). now apply resolved_snoc.
Qed.

Lemma joinrealpath_resolved (fs : Links.node) (depth : nat) :
  forall seen path rest q,
    Links.joinrealpath depth fs seen path rest = Return (q, true) ->
    Links.resolved fs path -> Links.resolved fs q.
Proof.
  induction depth as [|depth IH]; intros seen path rest q H Hp; [discriminate|].
  cbn [Links.joinrealpath] in H.
  apply (walk_resolved (Links.joinrealpath depth fs) fs seen
           (fun s p r q => IH s p r q) rest path q H Hp).
Qed.

Lemma resolved_is_real (fs : Links.node) (q : Fs.Path) :
  Links.resolved fs q -> Links.real fs q = true.
Proof.
  intros (Hc & _ & Hl). unfold Links.real. rewrite Hc. cbn [andb].
  apply forallb_forall. intros k Hk. apply in_seq in Hk.
  rewrite Hl by lia. reflexivity.
Qed.

Lemma real_is_resolved (fs : Links.node) (q : Fs.Path) :
  Links.real fs q = true -> Fs.has_nul q = false -> Links.resolved fs q.
Proof.
  unfold Links.real. intros H Hn. apply andb_true_iff in H as [Hc Hl].
  split; [exact Hc|]. split; [exact Hn|].
  intros k Hk. rewrite forallb_forall in Hl.
  specialize (Hl k ltac:(apply in_seq; lia)).
  now destruct (Links.readlink fs (firstn (S k) q)).
Qed.

Lemma resolve_canonical (q : Fs.Path) : Fs.canonical q = true -> Fs.resolve q = q.
Proof.
  intros H. unfold Fs.resolve.
  rewrite <- (app_nil_r q) at 1. rewrite resolve_from_canonical by exact H.
  simpl. now rewrite app_nil_r, rev_involutive.
Qed.

(** On a resolved path the kernel follows no link. *)
Lemma kernel_walk_resolved (follow : Fs.Path -> list string -> option nat)
      (fs : Links.node) :
  forall rest cur,
    Links.resolved fs (cur ++ rest)%list ->
    Links.kernel_walk follow fs cur rest <> Some Links.ELOOP.
Proof.
  induction rest as [|name rest IH]; intros cur H; [discriminate|].
  destruct (resolved_step fs cur rest name H) as (Hn & _ & Hl).
  cbn [Links.kernel_walk]. rewrite Hn.
  unfold Links.readlink in Hl.
  destruct (Links.lstat fs (cur ++ [name])%list) as [[text|es|target]|];
    try discriminate.
  - destruct rest; discriminate.
  - apply IH. now rewrite <- app_assoc.
Qed.

Lemma stat_error_resolved (fs : Links.node) (q : Fs.Path) :
  Links.resolved fs q -> Links.stat_error fs q <> Some Links.ELOOP.
Proof.
  intros H. unfold Links.stat_error, Links.MAXSYMLINKS.
  cbn [Links.kernel_stat]. now apply kernel_walk_resolved.
Qed.

(** A walk that ends without meeting a loop gives what [resolve]
    returns, a real path. *)
Lemma resolve_done (fs : Links.node) (p : list string) (q : Fs.Path) :
  Links.realpath fs p = Return (q, true) ->
  Links.resolved fs q /\ Links.resolve fs p = Return q.
Proof.
  intros H.
  assert (Hq : Links.resolved fs q)
    by (apply (joinrealpath_resolved fs _ _ _ _ _ H), resolved_nil).
  split; [exact Hq|].
  unfold Links.resolve. rewrite H.
  destruct Hq as (Hc & Hn & Hl).
  rewrite (resolve_canonical q Hc). cbv zeta. rewrite Hn.
  pose proof (stat_error_resolved fs q (conj Hc (conj Hn Hl))) as He.
  destruct (Links.stat_error fs q) as [errno|]; [|reflexivity].
  destruct (Nat.eqb errno Links.ELOOP) eqn:E; [|reflexivity].
  apply Nat.eqb_eq in E. congruence.
Qed.

(** A walk goes through a resolved stretch name by name. *)
Lemma walk_through (enter : list Fs.Path -> Fs.Path -> list string
                            -> outcome (list string * bool))
      (fs : Links.node) (seen : list Fs.Path) (rest : list string) :
  forall pre path,
    Links.resolved fs (path ++ pre)%list ->
    Links.walk enter fs seen path (pre ++ rest)%list
    = Links.walk enter fs seen (path ++ pre)%list rest.
Proof.
  induction pre as [|name pre IH]; intros path H.
  - now rewrite app_nil_r.
  - destruct (resolved_step fs path pre name H) as (Hn & Hz & Hl).
    cbn [app Links.walk]. rewrite Hn, Hz, Hl.
    rewrite IH by now rewrite <- app_assoc.
    now rewrite <- app_assoc.
Qed.

Lemma realpath_through (fs : Links.node) (pre rest : list string) :
  Links.resolved fs pre ->
  Links.realpath fs (pre ++ rest)%list
  = Links.walk (Links.joinrealpath (List.length (Links.link_paths fs)) fs)
               fs [] pre rest.
Proof.
  intros H. unfold Links.realpath. cbn [Links.joinrealpath].
  now rewrite (walk_through _ fs [] rest pre []).
Qed.

(** *** Where there is no link *)

Lemma link_free_readlink (fs : Links.node) :
  Links.link_free fs = true -> forall p, Links.readlink fs p = None.
Proof.
  unfold Links.link_free. intros H p.
  destruct (Links.readlink fs p) as [t|] eqn:E; [|reflexivity].
  apply readlink_in_links in E.
  destruct (Links.link_paths fs); [destruct E | discriminate].
Qed.

Lemma rev_removelast (l : list string) : rev (removelast l) = tl (rev l).
Proof.
  destruct l as [|a l] using rev_ind; [reflexivity|].
  now rewrite removelast_last, rev_unit.
Qed.

Lemma walk_link_free (enter : list Fs.Path -> Fs.Path -> list string
                              -> outcome (list string * bool))
      (fs : Links.node) (seen : list Fs.Path) :
  (forall p, Links.readlink fs p = None) ->
  forall rest path,
    Links.walk enter fs seen path rest
    = if Fs.has_nul rest then Raise (ValueError "embedded null byte")
      else Return (Fs.resolve_from (rev path) rest, true).
Proof.
  intros Hfree. induction rest as [|name rest IH]; intros path.
  - simpl. now rewrite rev_involutive.
  - cbn [Links.walk Fs.resolve_from]. unfold Fs.has_nul. cbn [existsb].
    destruct (String.eqb name "..") eqn:En.
    + apply String.eqb_eq in En. subst name.
      change (Py.mem_char Py.NUL "..") with false. cbn [orb].
      rewrite IH, rev_removelast. reflexivity.
    + destruct (Py.mem_char Py.NUL name); [reflexivity|]. cbn [orb].
      rewrite Hfree, IH, rev_unit. reflexivity.
Qed.

(** Without links [safe_path] is the one the tools are modelled with. *)
Lemma link_free_safe_path (W : Fs.Path) (p : string) (fs : Links.node)
      (w : world) :
  Links.link_free fs = true ->
  V2.safe_path W p w = (Links.safe_path W p fs, w).
Proof.
  intros Hfree. pose proof (link_free_readlink fs Hfree) as Hl.
  rewrite safe_path_cases. unfold Links.safe_path.
  assert (Hreal : Links.realpath fs (Fs.joinpath W p)
                  = if Fs.has_nul (Fs.joinpath W p)
                    then Raise (ValueError "embedded null byte")
                    else Return (Fs.resolve (Fs.joinpath W p), true)).
  { unfold Links.realpath. cbn [Links.joinrealpath].
    now rewrite (walk_link_free _ fs [] Hl). }
  destruct (Fs.has_nul (Fs.joinpath W p)) eqn:En.
  - unfold Links.resolve. now rewrite Hreal.
  - destruct (resolve_done fs _ _ Hreal) as [_ ->].
    now destruct (Fs.is_relative_to (Fs.resolve (Fs.joinpath W p)) W).
Qed.

(** *** The two paths of the claim, and a link that leads out *)

Lemma parent_sibling_refused (W : Fs.Path) (fs : Links.node) :
  Links.resolved fs W ->
  W <> [] -> last W EmptyString <> "outside.txt" ->
  Links.readlink fs (removelast W ++ ["outside.txt"])%list = None ->
  Links.safe_path W "../outside.txt" fs
  = Raise (ValueError "Path escapes workspace: ../outside.txt").
Proof.
  intros HW Hne Hlast Hl. unfold Links.safe_path.
  change (Fs.joinpath W "../outside.txt") with (W ++ [".."; "outside.txt"])%list.
  assert (Hreal : Links.realpath fs (W ++ [".."; "outside.txt"])%list
                  = Return ((removelast W ++ ["outside.txt"])%list, true)).
  { rewrite (realpath_through fs W _ HW). cbn [Links.walk].
    change (String.eqb ".." "..") with true. cbv iota.
    change (String.eqb "outside.txt" "..") with false.
    change (Py.mem_char Py.NUL "outside.txt") with false. cbv iota.
    now rewrite Hl. }
  destruct (resolve_done fs _ _ Hreal) as [_ ->].
  now rewrite not_under_root.
Qed.

Lemma inner_parent_accepted (W : Fs.Path) (fs : Links.node) :
  Links.resolved fs W ->
  Links.readlink fs (W ++ ["a"])%list = None ->
  Links.readlink fs (W ++ ["a"; "b"])%list = None ->
  Links.readlink fs (W ++ ["a"; "c.txt"])%list = None ->
  Links.safe_path W "a/b/../c.txt" fs = Return (W ++ ["a"; "c.txt"])%list.
Proof.
  intros HW Ha Hb Hc. unfold Links.safe_path.
  change (Fs.joinpath W "a/b/../c.txt") with (W ++ ["a"; "b"; ".."; "c.txt"])%list.
  assert (Hreal : Links.realpath fs (W ++ ["a"; "b"; ".."; "c.txt"])%list
                  = Return ((W ++ ["a"; "c.txt"])%list, true)).
  { rewrite (realpath_through fs W _ HW). cbn [Links.walk].
    change (String.eqb "a" "..") with false.
    change (String.eqb "b" "..") with false.
    change (String.eqb ".." "..") with true.
    change (String.eqb "c.txt" "..") with false.
    change (Py.mem_char Py.NUL "a") with false.
    change (Py.mem_char Py.NUL "b") with false.
    change (Py.mem_char Py.NUL "c.txt") with false. cbv iota.
    rewrite Ha. rewrite <- app_assoc. cbn [app]. rewrite Hb.
    replace (removelast (W ++ ["a"; "b"])%list) with (W ++ ["a"])%list
      by (change (W ++ ["a"; "b"])%list with (W ++ (["a"] ++ ["b"]))%list;
          now rewrite app_assoc, removelast_last).
    rewrite <- app_assoc. cbn [app]. now rewrite Hc. }
  destruct (resolve_done fs _ _ Hreal) as [_ ->].
  assert (E : Fs.is_relative_to (W ++ ["a"; "c.txt"])%list W = true)
    by (apply is_relative_to_prefix; now eexists).
  now rewrite E.
Qed.

(** A name in the workspace that is a link to a real place outside it is
    refused. *)
Lemma link_out_refused (W : Fs.Path) (fs : Links.node) (name target : string) :
  Links.resolved fs W ->
  Fs.joinpath W name = (W ++ [name])%list ->
  String.eqb name ".." = false ->
  Py.mem_char Py.NUL name = false ->
  Links.readlink fs (W ++ [name])%list = Some target ->
  Fs.is_absolute target = true ->
  Links.resolved fs (Fs.components target) ->
  Fs.is_relative_to (Fs.components target) W = false ->
  Links.safe_path W name fs
  = Raise (ValueError ("Path escapes workspace: " ++ name)).
Proof.
  intros HW Hj Hn Hz Hl Habs Ht Hout. unfold Links.safe_path. rewrite Hj.
  assert (Hreal : Links.realpath fs (W ++ [name])%list
                  = Return (Fs.components target, true)).
  { rewrite (realpath_through fs W _ HW).
    pose proof (readlink_in_links fs _ _ Hl) as Hin.
    destruct (Links.link_paths fs) as [|l0 ls] eqn:El; [destruct Hin|].
    cbn [List.length Links.joinrealpath Links.walk].
    rewrite Hn, Hz, Hl. cbn [existsb]. rewrite Habs.
    rewrite <- (app_nil_r (Fs.components target)) at 1.
    rewrite (walk_through _ fs _ [] (Fs.components target) []) by exact Ht.
    reflexivity. }
  destruct (resolve_done fs _ _ Hreal) as [_ ->].
  now rewrite Hout.
Qed.

(** What [realpath] raises is the [ValueError] of a name with a NUL
    character. *)
Lemma walk_raises (enter : list Fs.Path -> Fs.Path -> list string
                           -> outcome (list string * bool))
      (fs : Links.node) (seen : list Fs.Path) :
  (forall s p r e, enter s p r = Raise e -> e = ValueError "embedded null byte") ->
  forall rest path e,
    Links.walk enter fs seen path rest = Raise e ->
    e = ValueError "embedded null byte".
Proof.
  intros Henter. induction rest as [|name rest IH]; intros path e H;
    [discriminate|].
  cbn [Links.walk] in H.
  destruct (String.eqb name ".."); [now apply (IH _ _ H)|].
  destruct (Py.mem_char Py.NUL name); [now injection H as <-|].
  destruct (Links.readlink fs (path ++ [name])%list); [|now apply (IH _ _ H)].
  destruct (existsb _ seen); [discriminate|].
  destruct (enter _ _ _) as [[path' [|]]|e'] eqn:Ee.
  - now apply (IH _ _ H).
  - discriminate.
  - injection H as <-. now apply (Henter _ _ _ _ Ee).
Qed.

Lemma joinrealpath_raises (fs : Links.node) (depth : nat) :
  forall seen path rest e,
    Links.joinrealpath depth fs seen path rest = Raise e ->
    e = ValueError "embedded null byte".
Proof.
  induction depth as [|depth IH]; intros seen path rest e H; [discriminate|].
  cbn [Links.joinrealpath] in H.
  apply (walk_raises (Links.joinrealpath depth fs) fs seen
           (fun s p r e => IH s p r e) rest path e H).
Qed.

(** What [safe_path] returns is the workspace root or below it, as
    [is_relative_to] reads the path. *)
Lemma safe_path_returns_below (W : Fs.Path) (p : string) (fs : Links.node)
      (q : Fs.Path) :
  Links.safe_path W p fs = Return q -> exists rest, q = (W ++ rest)%list.
Proof.
  unfold Links.safe_path. intros H.
  destruct (Links.resolve fs (Fs.joinpath W p)) as [path|e]; [|discriminate].
  destruct (Fs.is_relative_to path W) eqn:E; [|discriminate].
  injection H as <-. now apply is_relative_to_prefix.
Qed.

(** C3, as stated, fails, and in more than one way.
    - [../outside.txt] is accepted when the workspace root is [/], where
      [..] leads nowhere, and when the root is itself named
      [outside.txt], where the path names the root.
    - Where [a/b] is a link that leads out of the workspace,
      [a/b/../c.txt] does not come to [a/c.txt]: it resolves outside and
      is refused.
    - A path with a NUL character is refused by the resolution itself,
      with a [ValueError] that is no path-escape error.
    - Where the walk meets a loop of links, [resolve] gives the path up
      unresolved from there on; when its [..] then step over the loop,
      no error is raised and [safe_path] returns a path that is below
      the root by its names and leads out of it by a link.
    - Where the root itself is reached through a link (which the
      directory [Path.cwd()] gives never is), every path is refused,
      [a/b/../c.txt] with them. *)
Lemma path_claim_fails_at_root_links_nul_and_loops :
  let out_of_b :=
    Links.Dir [("w", Links.Dir [("a", Links.Dir [("b", Links.Link "/out")])]);
               ("out", Links.Dir [])] in
  let looping :=
    Links.Dir [("w", Links.Dir [("loop", Links.Link "loop");
                                ("lout", Links.Link "/out")]);
               ("out", Links.Dir [("secret", Links.File "s")])] in
  let linked_root :=
    Links.Dir [("w", Links.Link "/real"); ("real", Links.Dir [])] in
  ~ (forall (W : Fs.Path) (fs : Links.node),
        exists msg,
          Links.safe_path W "../outside.txt" fs = Raise (ValueError msg))
  /\ Links.safe_path [] "../outside.txt" (Links.Dir []) = Return ["outside.txt"]
  /\ Links.safe_path ["tmp"; "outside.txt"] "../outside.txt" (Links.Dir [])
     = Return ["tmp"; "outside.txt"]
  /\ V2.safe_path [] "../outside.txt" Sample.w0
     = (Return ["outside.txt"], Sample.w0)
  /\ Links.readlink out_of_b ["w"; "a"; "c.txt"] = None
  /\ Links.safe_path ["w"] "a/b/../c.txt" out_of_b
     = Raise (ValueError "Path escapes workspace: a/b/../c.txt")
  /\ Links.safe_path ["w"] (String "a" (String Py.NUL EmptyString)) out_of_b
     = Raise (ValueError "embedded null byte")
  /\ Links.safe_path ["w"] "loop/../lout/secret" looping
     = Return ["w"; "lout"; "secret"]
  /\ Links.readlink looping ["w"; "lout"] = Some "/out"
  /\ Links.real looping ["w"; "lout"; "secret"] = false
  /\ Links.safe_path ["w"] "lout/secret" looping
     = Raise (ValueError "Path escapes workspace: lout/secret")
  /\ Links.safe_path ["w"] "a/b/../c.txt" linked_root
     = Raise (ValueError "Path escapes workspace: a/b/../c.txt").
Proof.
  cbv zeta. split; [|repeat split; vm_compute; reflexivity].
  intros H. destruct (H [] (Links.Dir [])) as [msg Hm].
  vm_compute in Hm. discriminate.
Qed.

(** C3, amended. [safe_path] joins the candidate path to the workspace
    root and resolves it, [..] and links. Where the resolution comes to
    an end without meeting a loop of links, its result is a real path
    (no [..] in it and no link on it), [safe_path] returns it when it is
    the root or below the root, and raises
    [ValueError "Path escapes workspace: ..."] otherwise. Whatever
    [safe_path] returns is the root or below it by its names. The
    resolution itself raises for a name with a NUL character only, and
    [safe_path] hands that [ValueError] on. The depth the model gives
    the resolution is never used up. In a file system without links
    [safe_path] is the one the tools are modelled with, in v1 as in v2.
    For a workspace root that is a real path: [../outside.txt] is
    refused when the root is not [/] and not itself named
    [outside.txt] and [outside.txt] beside the root is no link;
    [a/b/../c.txt] comes to [a/c.txt] below the root and is accepted
    when [a], [a/b] and [a/c.txt] are no links; and a name in the
    workspace that is a link to a real place outside it is refused. *)
Theorem safe_path_stays_in_root (W : Fs.Path) (p : string) (fs : Links.node) :
  (forall q,
      Links.realpath fs (Fs.joinpath W p) = Return (q, true) ->
      Links.real fs q = true
      /\ Links.resolve fs (Fs.joinpath W p) = Return q
      /\ ((exists rest,
              q = (W ++ rest)%list /\ Links.safe_path W p fs = Return q)
          \/ ((forall rest, q <> (W ++ rest)%list)
              /\ Links.safe_path W p fs
                 = Raise (ValueError ("Path escapes workspace: " ++ p)))))
  /\ (forall q, Links.safe_path W p fs = Return q ->
                exists rest, q = (W ++ rest)%list)
  /\ (forall e,
         Links.realpath fs (Fs.joinpath W p) = Raise e ->
         e = ValueError "embedded null byte"
         /\ Links.safe_path W p fs = Raise e)
  /\ (forall more,
         Links.joinrealpath (S (List.length (Links.link_paths fs)) + more)
                            fs [] [] (Fs.joinpath W p)
         = Links.realpath fs (Fs.joinpath W p))
  /\ (Links.link_free fs = true ->
      forall w,
        V2.safe_path W p w = (Links.safe_path W p fs, w)
        /\ V1.safe_path W p w = V2.safe_path W p w)
  /\ (Links.real fs W = true -> Fs.has_nul W = false ->
      W <> [] -> last W EmptyString <> "outside.txt" ->
      Links.readlink fs (removelast W ++ ["outside.txt"])%list = None ->
      Links.safe_path W "../outside.txt" fs
      = Raise (ValueError "Path escapes workspace: ../outside.txt"))
  /\ (Links.real fs W = true -> Fs.has_nul W = false ->
      Links.readlink fs (W ++ ["a"])%list = None ->
      Links.readlink fs (W ++ ["a"; "b"])%list = None ->
      Links.readlink fs (W ++ ["a"; "c.txt"])%list = None ->
      Links.safe_path W "a/b/../c.txt" fs = Return (W ++ ["a"; "c.txt"])%list)
  /\ (forall name target,
         Links.real fs W = true -> Fs.has_nul W = false ->
         Fs.joinpath W name = (W ++ [name])%list ->
         String.eqb name ".." = false ->
         Py.mem_char Py.NUL name = false ->
         Links.readlink fs (W ++ [name])%list = Some target ->
         Fs.is_absolute target = true ->
         Links.real fs (Fs.components target) = true ->
         Fs.has_nul (Fs.components target) = false ->
         Fs.is_relative_to (Fs.components target) W = false ->
         Links.safe_path W name fs
         = Raise (ValueError ("Path escapes workspace: " ++ name))).
Proof.
  split; [|split; [|split; [|split; [|split; [|split; [|split]]]]]].
  - intros q H. destruct (resolve_done fs _ _ H) as [Hq Hr].
    split; [now apply resolved_is_real|]. split; [exact Hr|].
    unfold Links.safe_path. rewrite Hr.
    destruct (Fs.is_relative_to q W) eqn:E.
    + left. apply is_relative_to_prefix in E as [rest E]. now exists rest.
    + right. split; [|reflexivity]. intros rest Hrest.
      assert (Fs.is_relative_to q W = true)
        by (apply is_relative_to_prefix; now exists rest).
      congruence.
  - apply safe_path_returns_below.
  - intros e H.
    split; [now apply (joinrealpath_raises fs _ _ _ _ _ H)|].
    unfold Links.safe_path, Links.resolve. now rewrite H.
  - apply realpath_depth.
  - intros Hfree w. split; [now apply link_free_safe_path | reflexivity].
  - intros HW Hn. apply parent_sibling_refused. now apply real_is_resolved.
  - intros HW Hn. apply inner_parent_accepted. now apply real_is_resolved.
  - intros name target HW Hn Hj Hname Hz Hl Habs Ht Htn Hout.
    apply (link_out_refused W fs name target); try assumption;
      now apply real_is_resolved.
Qed.

Lemma safe_path_stays_in_root_witness :
  let fs :=
    Links.Dir [("w", Links.Dir [("a", Links.Dir []); ("la", Links.Link "a");
                                ("lout", Links.Link "/out")]);
               ("out", Links.Dir [])] in
  Links.realpath fs (Fs.joinpath ["w"] "la/x") = Return (["w"; "a"; "x"], true)
  /\ Links.real fs ["w"; "a"; "x"] = true
  /\ Links.safe_path ["w"] "la/x" fs = Return ["w"; "a"; "x"]
  /\ Links.safe_path ["w"] "lout" fs
     = Raise (ValueError "Path escapes workspace: lout")
  /\ Links.safe_path ["w"] "../outside.txt" fs
     = Raise (ValueError "Path escapes workspace: ../outside.txt")
  /\ Links.safe_path ["w"] "a/b/../c.txt" fs = Return ["w"; "a"; "c.txt"].
Proof.
  cbv zeta.
  pose proof (safe_path_stays_in_root ["w"] "la/x"
                (Links.Dir [("w", Links.Dir [("a", Links.Dir []);
                                             ("la", Links.Link "a");
                                             ("lout", Links.Link "/out")]);
                            ("out", Links.Dir [])]))
    as (Hdone & _ & _ & _ & _ & Hout & Hin & Hlink).
  split; [reflexivity|].
  destruct (Hdone ["w"; "a"; "x"] eq_refl) as (Hreal & _ & Hcases).
  split; [exact Hreal|]. split.
  - destruct Hcases as [(rest & _ & Hs)|(Hno & _)]; [exact Hs|].
    exfalso. now apply (Hno ["a"; "x"]).
  - split; [|split].
    + apply (Hlink "lout" "/out"); reflexivity.
    + apply Hout; try reflexivity; discriminate.
    + apply Hin; reflexivity.
Defined.


(** ** Editing a file *)

Lemma startswith_split (p s : string) :
  Py.startswith p s = true -> s = p ++ Py.drop (length p) s.
Proof.
  revert s. induction p as [|a p IH]; intros s H; [reflexivity|].
  destruct s as [|b s]; [discriminate|].
  simpl in H. apply andb_true_iff in H as [Hab H].
  apply Ascii.eqb_eq in Hab. subst b. simpl. f_equal. now apply IH.
Qed.

(** [replace1] rewrites the first occurrence, and only it. *)
Lemma replace1_first (old new s : string) :
  Py.contains old s = true ->
  exists pre post,
    s = pre ++ old ++ post
    /\ (forall k, k < length pre -> Py.startswith old (Py.drop k s) = false)
    /\ Py.replace1 old new s = pre ++ new ++ post.
Proof.
  induction s as [|c s IH]; intros H.
  - simpl in H. rewrite orb_false_r in H.
    exists EmptyString, (Py.drop (length old) EmptyString).
    simpl. rewrite H. split; [|split].
    + now apply startswith_split.
    + intros k Hk. lia.
    + reflexivity.
  - cbn [Py.contains Py.replace1] in *.
    destruct (Py.startswith old (String c s)) eqn:E.
    + exists EmptyString, (Py.drop (length old) (String c s)).
      split; [|split].
      * now apply startswith_split.
      * intros k Hk. simpl in Hk. lia.
      * reflexivity.
    + simpl in H. destruct (IH H) as (pre & post & Hs & Hfirst & Hr).
      exists (String c pre), post. split; [|split].
      * simpl. now rewrite <- Hs.
      * intros [|k] Hk; [exact E|]. simpl. apply Hfirst. simpl in Hk. lia.
      * simpl. now rewrite Hr.
Qed.

Lemma replace1_absent (old new s : string) :
  Py.contains old s = false -> Py.replace1 old new s = s.
Proof.
  induction s as [|c s IH]; cbn [Py.contains Py.replace1]; intros H;
    apply orb_false_iff in H as [H1 H2]; rewrite H1; [reflexivity|].
  now rewrite IH.
Qed.

Lemma lookup_set_entry (name : string) (n : Fs.node) (es : list (string * Fs.node)) :
  Fs.lookup name (Fs.set_entry name n es) = Some n.
Proof.
  induction es as [|[k m] es IH]; simpl.
  - now rewrite String.eqb_refl.
  - destruct (String.eqb k name) eqn:E; simpl; rewrite E; [reflexivity | exact IH].
Qed.

(** A file that can be read can be rewritten, and then holds the new
    text. *)
Lemma write_file_over (p : Fs.Path) :
  forall (n : Fs.node) (old new : string),
    Fs.read_file n p = inr old ->
    exists n', Fs.write_file n p new = inr n' /\ Fs.read_file n' p = inr new.
Proof.
  unfold Fs.read_file.
  induction p as [|c p IH]; intros n old new H.
  - simpl in *. destruct n; [|discriminate]. eexists. split; reflexivity.
  - simpl in *. destruct n as [|es]; [discriminate|].
    destruct (Fs.lookup c es) as [m|] eqn:El; [|discriminate].
    destruct (IH m old new H) as (m' & Hw & Hr).
    rewrite Hw. eexists. split; [reflexivity|].
    simpl. now rewrite lookup_set_entry.
Qed.

(** A text without carriage return is read as it is. *)
Lemma universal_newlines_without_cr (s : string) :
  Py.mem_char Py.CR s = false -> Py.universal_newlines s = s.
Proof.
  induction s as [|c s IH]; intros H; [reflexivity|].
  cbn [Py.mem_char] in H. apply orb_false_iff in H as [Hc Hs].
  cbn [Py.universal_newlines]. rewrite Hc. now rewrite IH.
Qed.

(** What [run_edit] does on a readable file inside the workspace. *)
Lemma run_edit_cases (W : Fs.Path) (path old_text new_text : string)
      (w : world) (fp : Fs.Path) (text : string) :
  V2.safe_path W path w = (Return fp, w) ->
  Fs.read_file (files w) fp = inr text ->
  V2.run_edit W path old_text new_text w =
  if Py.contains old_text (Py.universal_newlines text)
  then match Fs.write_file (files w) fp
               (Py.replace1 old_text new_text (Py.universal_newlines text)) with
       | inr fs => (Return ("Edited " ++ path), set_files fs w)
       | inl errno =>
           (Return ("Error: " ++ str_exn (OSError errno (Fs.str_of_path fp))), w)
       end
  else (Return ("Error: Text not found in " ++ path), w).
Proof.
  intros Hp Hr. unfold V2.run_edit, try_except, bind.
  rewrite Hp. unfold read_text. rewrite Hr.
  destruct (Py.contains old_text (Py.universal_newlines text)); cbn [negb].
  - unfold write_text.
    destruct (Fs.write_file (files w) fp _); reflexivity.
  - reflexivity.
Qed.

(** C4 at the failing input, a file with the text [a CR LF b]. The
    tool that replaces an exact text reads the file in text mode, which
    hands the text over with every line end as LF, and writes back what
    it read: editing [a] to [x] leaves [x LF b], so the rest of the file
    after the replaced occurrence is not what it was; and the text
    [CR LF], which is in the file, is reported as not found. v1 does the
    same. *)
Theorem edit_changes_line_ends :
  let crlf := String Py.CR (String Py.LF EmptyString) in
  let w := mk_world (Fs.Dir [("w", Fs.Dir [("f", Fs.File ("a" ++ crlf ++ "b"))])])
                    [] [] 0 [] in
  Py.contains "a" ("a" ++ crlf ++ "b") = true
  /\ (exists w',
         V2.run_edit ["w"] "f" "a" "x" w = (Return "Edited f", w')
         /\ Fs.read_file (files w') ["w"; "f"] = inr ("x" ++ Py.NL ++ "b")
         /\ "x" ++ Py.NL ++ "b" <> "x" ++ crlf ++ "b")
  /\ Py.contains crlf ("a" ++ crlf ++ "b") = true
  /\ V2.run_edit ["w"] "f" crlf "x" w = (Return "Error: Text not found in f", w)
  /\ V1.run_edit ["w"] "f" "a" "x" w = V2.run_edit ["w"] "f" "a" "x" w
  /\ V1.run_edit ["w"] "f" crlf "x" w = V2.run_edit ["w"] "f" crlf "x" w.
Proof.
  cbv zeta. split; [reflexivity|].
  split; [|split; [|split; [|split]]; reflexivity].
  eexists. split; [reflexivity|]. split; [reflexivity|]. discriminate.
Qed.

(** Where the claim holds: on the content of a file as text mode reads
    it, CR LF and CR read as LF (the file's own text when it has no
    carriage return). When [old_text] occurs in that content, [run_edit]
    rewrites the file as the content before the first occurrence, then
    [new_text], then the unchanged rest of the content, however often
    [old_text] occurs. When it does not occur, [run_edit] returns the
    not-found error and the world is unchanged. v1 does the same. *)
Theorem edit_replaces_first_occurrence
        (W : Fs.Path) (path old_text new_text : string) (w : world)
        (fp : Fs.Path) (text : string) :
  V2.safe_path W path w = (Return fp, w) ->
  Fs.read_file (files w) fp = inr text ->
  (Py.contains old_text (Py.universal_newlines text) = true ->
   exists pre post fs,
     Py.universal_newlines text = pre ++ old_text ++ post
     /\ (forall k, k < length pre ->
                   Py.startswith old_text
                     (Py.drop k (Py.universal_newlines text)) = false)
     /\ V2.run_edit W path old_text new_text w
        = (Return ("Edited " ++ path), set_files fs w)
     /\ Fs.read_file fs fp = inr (pre ++ new_text ++ post))
  /\ (Py.contains old_text (Py.universal_newlines text) = false ->
      V2.run_edit W path old_text new_text w
      = (Return ("Error: Text not found in " ++ path), w))
  /\ (Py.mem_char Py.CR text = false -> Py.universal_newlines text = text)
  /\ V1.run_edit W path old_text new_text w
     = V2.run_edit W path old_text new_text w.
Proof.
  intros Hp Hr.
  split; [|split; [|split; [apply universal_newlines_without_cr | reflexivity]]].
  - intros Hc.
    destruct (replace1_first old_text new_text _ Hc) as (pre & post & Hs & Hk & Hrep).
    destruct (write_file_over fp (files w) text (pre ++ new_text ++ post) Hr)
      as (fs & Hw & Hread).
    exists pre, post, fs. repeat split; try assumption.
    rewrite (run_edit_cases W path old_text new_text w fp text Hp Hr).
    now rewrite Hc, Hrep, Hw.
  - intros Hc.
    rewrite (run_edit_cases W path old_text new_text w fp text Hp Hr).
    now rewrite Hc.
Qed.

Lemma edit_replaces_first_occurrence_witness :
  let w := mk_world (Fs.Dir [("w", Fs.Dir [("f", Fs.File "to be or not to be")])])
                    [] [] 0 [] in
  V2.safe_path ["w"] "f" w = (Return ["w"; "f"], w)
  /\ Fs.read_file (files w) ["w"; "f"] = inr "to be or not to be"
  /\ Py.contains "be" "to be or not to be" = true
  /\ exists pre post fs,
      "to be or not to be" = pre ++ "be" ++ post
      /\ V2.run_edit ["w"] "f" "be" "sing" w = (Return "Edited f", set_files fs w)
      /\ Fs.read_file fs ["w"; "f"] = inr (pre ++ "sing" ++ post).
Proof.
  cbv zeta. split; [reflexivity|]. split; [reflexivity|]. split; [reflexivity|].
  destruct (edit_replaces_first_occurrence
              ["w"] "f" "be" "sing"
              (mk_world (Fs.Dir [("w", Fs.Dir [("f", Fs.File "to be or not to be")])])
                        [] [] 0 [])
              ["w"; "f"] "to be or not to be" eq_refl eq_refl)
    as (Hfound & _).
  destruct (Hfound eq_refl) as (pre & post & fs & Hs & _ & Hrun & Hread).
  exists pre, post, fs. auto.
Defined.

(** ** The tools never raise *)

Lemma try_except_returns {A} (body : M A) (handler : exn -> M A) :
  (forall e, returns (handler e)) -> returns (try_except body handler).
Proof.
  intros H w. unfold try_except.
  destruct (body w) as [[a|e] w']; [now exists a, w' | apply H].
Qed.

Lemma error_handler_returns (e : exn) :
  returns (fun w => ret ("Error: " ++ str_exn e) w).
Proof. intros w. now eexists; eexists. Qed.

Lemma run_bash_returns (sh : shell) (cmd : string) : returns (V2.run_bash sh cmd).
Proof.
  unfold V2.run_bash. destruct (existsb _ V2.dangerous).
  - intros w. now eexists; eexists.
  - apply try_except_returns. intros e w. destruct e; now eexists; eexists.
Qed.

Lemma run_read_returns (W : Fs.Path) (path : string) (limit : option Z) :
  returns (V2.run_read W path limit).
Proof. apply try_except_returns, error_handler_returns. Qed.

Lemma run_write_returns (W : Fs.Path) (path content : string) :
  returns (V2.run_write W path content).
Proof. apply try_except_returns, error_handler_returns. Qed.

Lemma run_edit_returns (W : Fs.Path) (path old_text new_text : string) :
  returns (V2.run_edit W path old_text new_text).
Proof. apply try_except_returns, error_handler_returns. Qed.

Lemma run_todo_returns (items : pyval) : returns (V2.run_todo items).
Proof. apply try_except_returns, error_handler_returns. Qed.


Lemma bind_getitem {A B} (v : A) (key : string) (k : A -> M B) :
  bind (getitem (Some v) key) k = k v.
Proof. reflexivity. Qed.


(** With the required keys of its schema, a call of [execute_tool]
    returns. *)
Lemma execute_tool_returns (W : Fs.Path) (sh : shell) (name : string)
      (input : tool_input) :
  V2.required_present name input = true ->
  returns (V2.execute_tool W sh name input).
Proof.
  unfold V2.required_present, V2.execute_tool. intros H.
  destruct (String.eqb name "bash").
  { destruct (arg_command input); [|discriminate].
    rewrite bind_getitem. apply run_bash_returns. }
  destruct (String.eqb name "read_file").
  { destruct (arg_path input); [|discriminate].
    rewrite bind_getitem. apply run_read_returns. }
  destruct (String.eqb name "write_file").
  { destruct (arg_path input); [|discriminate].
    destruct (arg_content input); [|discriminate].
    rewrite !bind_getitem. apply run_write_returns. }
  destruct (String.eqb name "edit_file").
  { destruct (arg_path input); [|discriminate].
    destruct (arg_old_text input); [|discriminate].
    destruct (arg_new_text input); [|discriminate].
    rewrite !bind_getitem. apply run_edit_returns. }
  destruct (String.eqb name "TodoWrite").
  { destruct (arg_items input); [|discriminate].
    rewrite bind_getitem. apply run_todo_returns. }
  intros w. now eexists; eexists.
Qed.


(** Without a required key the lookup raises, outside every [try]: the
    schema is what keeps the exception from the caller. *)
Example execute_tool_missing_key :
  V2.execute_tool Sample.WORKDIR Sample.echo "TodoWrite" Sample.no_input Sample.w0
  = (Raise (KeyError "items"), Sample.w0).
Proof. reflexivity. Qed.



(** A file that cannot be read becomes an error text. *)
Lemma missing_file_is_error_text (W : Fs.Path) (path : string) (w : world)
      (fp : Fs.Path) (errno : nat) (limit : option Z) :
  V2.safe_path W path w = (Return fp, w) ->
  Fs.read_file (files w) fp = inl errno ->
  V2.run_read W path limit w
  = (Return ("Error: " ++ str_exn (OSError errno (Fs.str_of_path fp))), w).
Proof.
  intros Hp Hr. unfold V2.run_read, try_except, bind.
  rewrite Hp. unfold read_text. now rewrite Hr.
Qed.

(** A command that runs out of time becomes an error text. *)
Lemma timeout_is_error_text (sh : shell) (cmd c : string) (w : world) (fs : Fs.node) :
  existsb (fun d => Py.contains d cmd) V2.dangerous = false ->
  sh cmd (files w) = (Raise (TimeoutExpired c), fs) ->
  fst (V2.run_bash sh cmd w) = Return "Error: Timeout".
Proof.
  intros Hd Hs. unfold V2.run_bash. rewrite Hd.
  unfold try_except, bind, subprocess_run. now rewrite Hs.
Qed.






(** ** The shell *)

(** A command with a substring of the list of v1 is refused there: the
    world, the list of processes with it, is unchanged. *)
Lemma v1_run_bash_blocks (sh : shell) (cmd d : string) (w : world) :
  In d V1.dangerous -> Py.contains d cmd = true ->
  V1.run_bash sh cmd w = (Return "Error: Dangerous command blocked", w).
Proof.
  intros Hin Hc. unfold V1.run_bash.
  assert (E : existsb (fun d => Py.contains d cmd) V1.dangerous = true)
    by (apply existsb_exists; now exists d).
  now rewrite E.
Qed.

(** So is, in v2, a command with a substring of the list of v2. *)
Lemma v2_run_bash_blocks (sh : shell) (cmd d : string) (w : world) :
  In d V2.dangerous -> Py.contains d cmd = true ->
  V2.run_bash sh cmd w = (Return "Error: Dangerous command blocked", w).
Proof.
  intros Hin Hc. unfold V2.run_bash.
  assert (E : existsb (fun d => Py.contains d cmd) V2.dangerous = true)
    by (apply existsb_exists; now exists d).
  now rewrite E.
Qed.

(** Every command with [sudo] in it is refused before anything runs, in
    both agents. *)
Lemma sudo_is_blocked (sh : shell) (cmd : string) (w : world) :
  Py.contains "sudo" cmd = true ->
  V1.run_bash sh cmd w = (Return "Error: Dangerous command blocked", w)
  /\ V2.run_bash sh cmd w = (Return "Error: Dangerous command blocked", w).
Proof.
  intros H. split.
  - apply (v1_run_bash_blocks sh cmd "sudo"); [simpl; auto | exact H].
  - apply (v2_run_bash_blocks sh cmd "sudo"); [simpl; auto | exact H].
Qed.

(** A command that v2 does not refuse is handed to the shell, whatever
    the shell then does. *)
Lemma v2_run_bash_spawns (sh : shell) (cmd : string) (w : world) :
  existsb (fun d => Py.contains d cmd) V2.dangerous = false ->
  spawned (snd (V2.run_bash sh cmd w)) = (spawned w ++ [cmd])%list.
Proof.
  intros H. unfold V2.run_bash. rewrite H.
  unfold try_except, bind, subprocess_run.
  destruct (sh cmd (files w)) as [[r|e] fs]; [reflexivity|].
  destruct e; reflexivity.
Qed.

(** C6 at the failing input. The list of v2 has lost the entry [> /dev/]
    of v1: a redirection to a raw device is refused by v1 and started as
    a process by v2, whatever the shell. *)
Theorem v2_run_bash_runs_device_redirection (sh : shell) (w : world) :
  Py.contains "> /dev/" "echo x > /dev/sda" = true
  /\ In "> /dev/" V1.dangerous
  /\ V1.run_bash sh "echo x > /dev/sda" w
     = (Return "Error: Dangerous command blocked", w)
  /\ spawned (snd (V2.run_bash sh "echo x > /dev/sda" w))
     = (spawned w ++ ["echo x > /dev/sda"])%list
  /\ (forall cmd,
         Py.contains "> /dev/" cmd = true ->
         existsb (fun d => Py.contains d cmd) V2.dangerous = false ->
         V1.run_bash sh cmd w = (Return "Error: Dangerous command blocked", w)
         /\ spawned (snd (V2.run_bash sh cmd w)) = (spawned w ++ [cmd])%list).
Proof.
  split; [reflexivity|]. split; [simpl; auto 6|]. split; [|split].
  - apply (v1_run_bash_blocks sh _ "> /dev/"); [simpl; auto 6 | reflexivity].
  - now apply v2_run_bash_spawns.
  - intros cmd Hdev Hnone. split.
    + apply (v1_run_bash_blocks sh cmd "> /dev/"); [simpl; auto 6 | exact Hdev].
    + now apply v2_run_bash_spawns.
Qed.

(** ** Reading a file *)

Lemma returned_eq {A} (a b : A) (w w' : world) :
  (Return a, w) = (Return b, w') -> a = b /\ w = w'.
Proof. intros H. injection H as -> ->. now split. Qed.

Lemma take_length_le (n : nat) (s : string) : length (Py.take n s) <= n.
Proof.
  revert s. induction n as [|n IH]; intros s; [simpl; lia|].
  destruct s as [|c s]; simpl; [lia|]. specialize (IH s). lia.
Qed.

Lemma take_all (n : nat) (s : string) : length s <= n -> Py.take n s = s.
Proof.
  revert s. induction n as [|n IH]; intros s H.
  - destruct s; [reflexivity | simpl in H; lia].
  - destruct s as [|c s]; [reflexivity|]. simpl in *. f_equal. apply IH. lia.
Qed.

(** What [run_read] of v2 returns on a readable file inside the
    workspace. *)
Lemma run_read_cases (W : Fs.Path) (path : string) (limit : option Z)
      (w : world) (fp : Fs.Path) (text : string) :
  V2.safe_path W path w = (Return fp, w) ->
  Fs.read_file (files w) fp = inr text ->
  V2.run_read W path limit w =
  (Return
     (Py.take 50000
        (Py.join Py.NL
           (let lines := Py.splitlines (Py.universal_newlines text) in
            match limit with
            | Some limit =>
                if negb (limit =? 0)%Z && (limit <? Z.of_nat (List.length lines))%Z
                then (Py.slice_to lines limit
                      ++ [("... ("
                           ++ Py.str_of_Z (Z.of_nat (List.length lines) - limit)
                           ++ " more)")%string])%list
                else lines
            | None => lines
            end))), w).
Proof.
  intros Hp Hr. unfold V2.run_read, try_except, bind.
  rewrite Hp. unfold read_text. now rewrite Hr.
Qed.

Lemma v1_run_read_cases (W : Fs.Path) (path : string) (limit : option Z)
      (w : world) (fp : Fs.Path) (text : string) :
  V2.safe_path W path w = (Return fp, w) ->
  Fs.read_file (files w) fp = inr text ->
  V1.run_read W path limit w =
  (Return
     (Py.take 50000
        (Py.join Py.NL
           (let lines := Py.splitlines (Py.universal_newlines text) in
            match limit with
            | Some limit =>
                if negb (limit =? 0)%Z && (limit <? Z.of_nat (List.length lines))%Z
                then (Py.slice_to lines limit
                      ++ [("... ("
                           ++ Py.str_of_Z (Z.of_nat (List.length lines) - limit)
                           ++ " more lines)")%string])%list
                else lines
            | None => lines
            end))), w).
Proof.
  intros Hp Hr. unfold V1.run_read, try_except, bind.
  change (V1.safe_path W path w) with (V2.safe_path W path w).
  rewrite Hp. unfold read_text. now rewrite Hr.
Qed.

(** For a limit from 1 to below the number of lines, the branch taken
    builds the first lines and the marker. *)
Lemma limited_lines (lines : list string) (limit : Z) (more : string) :
  (0 < limit < Z.of_nat (List.length lines))%Z ->
  Py.join Py.NL
    (if negb (limit =? 0)%Z && (limit <? Z.of_nat (List.length lines))%Z
     then (Py.slice_to lines limit
           ++ [("... (" ++ Py.str_of_Z (Z.of_nat (List.length lines) - limit)
                ++ more)%string])%list
     else lines)
  = Rules.first_lines_with_marker lines (Z.to_nat limit) more.
Proof.
  intros [Hpos Hlt].
  assert (E0 : (limit =? 0)%Z = false) by (apply Z.eqb_neq; lia).
  assert (E1 : (limit <? Z.of_nat (List.length lines))%Z = true)
    by (apply Z.ltb_lt; lia).
  rewrite E0, E1. cbn [negb andb].
  unfold Rules.first_lines_with_marker, Py.slice_to, Py.str_of_nat.
  assert (E2 : (limit <? 0)%Z = false) by (apply Z.ltb_ge; lia).
  rewrite E2. repeat f_equal. lia.
Qed.

(** C7, as stated, fails at limit 0, which [run_read] takes for no limit:
    on a file of three lines it returns the three lines and no marker. *)
Lemma read_limit_zero_is_no_limit :
  ~ (forall (limit : Z) (W : Fs.Path) (path : string) (w : world)
            (fp : Fs.Path) (text : string),
        V2.safe_path W path w = (Return fp, w) ->
        Fs.read_file (files w) fp = inr text ->
        (0 <= limit < Z.of_nat (List.length
                                  (Py.splitlines (Py.universal_newlines text))))%Z ->
        V2.run_read W path (Some limit) w
        = (Return (Py.take 50000
                     (Rules.first_lines_with_marker
                        (Py.splitlines (Py.universal_newlines text))
                        (Z.to_nat limit) " more)")), w))
  /\ V2.run_read Sample.WORKDIR "f" (Some 0%Z) Sample.w0
     = (Return ("l1" ++ Py.NL ++ "l2" ++ Py.NL ++ "l3"), Sample.w0).
Proof.
  split; [|reflexivity].
  intros H.
  specialize (H 0%Z Sample.WORKDIR "f" Sample.w0 ["w"; "f"] Sample.three_lines
                eq_refl eq_refl).
  assert (Hl : (0 <= 0 < Z.of_nat (List.length
                 (Py.splitlines (Py.universal_newlines Sample.three_lines))))%Z)
    by (vm_compute; split; [discriminate | reflexivity]).
  specialize (H Hl). vm_compute in H. discriminate.
Qed.

(** C7, amended. For every readable file inside the workspace and every
    limit from 1 to below the number of lines of its text, [run_read]
    returns the first [limit] lines followed by one marker line with the
    number of lines left out, the whole cut to 50,000 characters without
    a marker for the cut: all of it when it is no longer than that. The
    marker reads [(n more)] in v2 and [(n more lines)] in v1. A limit of
    0 is no limit: the whole text is returned, cut the same way. *)
Theorem read_limit_truncates (W : Fs.Path) (path : string) (limit : Z)
        (w : world) (fp : Fs.Path) (text : string) :
  V2.safe_path W path w = (Return fp, w) ->
  Fs.read_file (files w) fp = inr text ->
  (0 < limit < Z.of_nat (List.length
                           (Py.splitlines (Py.universal_newlines text))))%Z ->
  V2.run_read W path (Some limit) w
  = (Return (Py.take 50000
               (Rules.first_lines_with_marker
                  (Py.splitlines (Py.universal_newlines text))
                  (Z.to_nat limit) " more)")), w)
  /\ V1.run_read W path (Some limit) w
     = (Return (Py.take 50000
                  (Rules.first_lines_with_marker
                     (Py.splitlines (Py.universal_newlines text))
                     (Z.to_nat limit) " more lines)")), w)
  /\ (forall out w', V2.run_read W path (Some limit) w = (Return out, w') ->
                     length out <= 50000)
  /\ (length (Rules.first_lines_with_marker
                (Py.splitlines (Py.universal_newlines text))
                (Z.to_nat limit) " more)") <= 50000 ->
      V2.run_read W path (Some limit) w
      = (Return (Rules.first_lines_with_marker
                   (Py.splitlines (Py.universal_newlines text))
                   (Z.to_nat limit) " more)"), w))
  /\ V2.run_read W path (Some 0%Z) w
     = (Return (Py.take 50000
                  (Py.join Py.NL (Py.splitlines (Py.universal_newlines text)))), w).
Proof.
  intros Hp Hr Hl.
  assert (E2 : V2.run_read W path (Some limit) w
               = (Return (Py.take 50000
                            (Rules.first_lines_with_marker
                               (Py.splitlines (Py.universal_newlines text))
                               (Z.to_nat limit) " more)")), w)).
  { rewrite (run_read_cases W path (Some limit) w fp text Hp Hr).
    cbv zeta. now rewrite limited_lines. }
  split; [exact E2|]. split.
  { rewrite (v1_run_read_cases W path (Some limit) w fp text Hp Hr).
    cbv zeta. now rewrite limited_lines. }
  split.
  { intros out w' H. rewrite E2 in H. apply returned_eq in H as [<- _].
    apply take_length_le. }
  split.
  { intros Hlen. rewrite E2. now rewrite take_all. }
  rewrite (run_read_cases W path (Some 0%Z) w fp text Hp Hr). reflexivity.
Qed.

Lemma read_limit_truncates_witness :
  V2.safe_path Sample.WORKDIR "f" Sample.w0 = (Return ["w"; "f"], Sample.w0)
  /\ Fs.read_file (files Sample.w0) ["w"; "f"] = inr Sample.three_lines
  /\ (0 < 2 < Z.of_nat (List.length
                          (Py.splitlines
                             (Py.universal_newlines Sample.three_lines))))%Z
  /\ V2.run_read Sample.WORKDIR "f" (Some 2%Z) Sample.w0
     = (Return (Py.take 50000
                  (Rules.first_lines_with_marker
                     (Py.splitlines (Py.universal_newlines Sample.three_lines))
                     (Z.to_nat 2) " more)")), Sample.w0).
Proof.
  split; [reflexivity|]. split; [reflexivity|].
  split; [vm_compute; split; reflexivity|].
  refine (proj1 (read_limit_truncates Sample.WORKDIR "f" 2%Z Sample.w0 ["w"; "f"]
                   Sample.three_lines eq_refl eq_refl _)).
  vm_compute; split; reflexivity.
Defined.

(** The text the sample read returns. *)
Example read_two_of_three_lines :
  fst (V2.run_read Sample.WORKDIR "f" (Some 2%Z) Sample.w0)
  = Return ("l1" ++ Py.NL ++ "l2" ++ Py.NL ++ "... (1 more)").
Proof. vm_compute. reflexivity. Qed.

(** ** Writing a file *)

Lemma write_file_read (p : Fs.Path) :
  forall (n n' : Fs.node) (text : string),
    Fs.write_file n p text = inr n' -> Fs.read_file n' p = inr text.
Proof.
  unfold Fs.read_file.
  induction p as [|c p IH]; intros n n' text H.
  - simpl in H. destruct n; [|discriminate]. now injection H as <-.
  - simpl in H. destruct n as [|es]; [discriminate|].
    destruct (Fs.lookup c es) as [m|] eqn:El.
    + destruct (Fs.write_file m p text) as [e|m'] eqn:Ew; [discriminate|].
      injection H as <-. simpl. rewrite lookup_set_entry.
      now apply (IH m).
    + destruct p; [|discriminate]. injection H as <-.
      simpl. now rewrite lookup_set_entry.
Qed.

(** After [mkdir] the path is a directory. *)
Lemma mkdir_parents_is_dir (p : Fs.Path) :
  forall (n n' : Fs.node),
    Fs.mkdir_parents n p = inr n' -> exists es, Fs.stat n' p = inr (Fs.Dir es).
Proof.
  induction p as [|c p IH]; intros n n' H.
  - simpl in H. destruct n as [|es]; [discriminate|].
    injection H as <-. now exists es.
  - simpl in H. destruct n as [|es]; [discriminate|].
    destruct (Fs.mkdir_parents _ p) as [e|m'] eqn:Em; [discriminate|].
    injection H as <-. simpl. rewrite lookup_set_entry.
    now apply IH in Em.
Qed.

(** In an existing directory, a name that is not a directory can be
    written. *)
Lemma write_file_in_dir (q : Fs.Path) :
  forall (n : Fs.node) (es : list (string * Fs.node)) (c text : string),
    Fs.stat n q = inr (Fs.Dir es) ->
    (forall es', Fs.lookup c es <> Some (Fs.Dir es')) ->
    exists n', Fs.write_file n (q ++ [c])%list text = inr n'.
Proof.
  induction q as [|d q IH]; intros n es c text Hs Hc.
  - simpl in Hs. injection Hs as ->. simpl.
    destruct (Fs.lookup c es) as [[t|es']|] eqn:El.
    + eexists. reflexivity.
    + now destruct (Hc es').
    + eexists. reflexivity.
  - simpl in Hs. destruct n as [|es0]; [discriminate|].
    destruct (Fs.lookup d es0) as [m|] eqn:El; [|discriminate].
    destruct (IH m es c text Hs Hc) as [m' Hw].
    cbn [app Fs.write_file]. rewrite El, Hw. eexists. reflexivity.
Qed.

(** What [run_write] does on a path inside the workspace. *)
Lemma run_write_cases (W : Fs.Path) (path content : string) (w : world)
      (fp : Fs.Path) :
  V2.safe_path W path w = (Return fp, w) ->
  V2.run_write W path content w =
  match Fs.mkdir_parents (files w) (Fs.parent fp) with
  | inl errno =>
      (Return ("Error: " ++ str_exn (OSError errno (Fs.str_of_path (Fs.parent fp)))), w)
  | inr fs1 =>
      match Fs.write_file fs1 fp content with
      | inl errno =>
          (Return ("Error: " ++ str_exn (OSError errno (Fs.str_of_path fp))),
           set_files fs1 w)
      | inr fs2 =>
          (Return ("Wrote " ++ Py.str_of_nat (length content) ++ " bytes to " ++ path),
           set_files fs2 w)
      end
  end.
Proof.
  intros Hp. unfold V2.run_write, try_except, bind. rewrite Hp.
  unfold mkdir. destruct (Fs.mkdir_parents (files w) (Fs.parent fp)) as [e|fs1];
    [reflexivity|].
  unfold write_text. cbn [files set_files].
  destruct (Fs.write_file fs1 fp content) as [e|fs2]; reflexivity.
Qed.

(** On a path inside the workspace, with no regular file in the way of
    its directories and no directory at the path itself, [run_write]
    makes the directories, writes exactly the content in place of what
    the file held, and reports the number of characters of the
    content. *)
Lemma run_write_overwrites (W : Fs.Path) (path content : string) (w : world)
      (dir : Fs.Path) (name : string) (fs1 : Fs.node) :
  V2.safe_path W path w = (Return (dir ++ [name])%list, w) ->
  Fs.mkdir_parents (files w) dir = inr fs1 ->
  (forall es, Fs.stat fs1 (dir ++ [name])%list <> inr (Fs.Dir es)) ->
  exists fs2,
    V2.run_write W path content w
    = (Return ("Wrote " ++ Py.str_of_nat (length content) ++ " bytes to " ++ path),
       set_files fs2 w)
    /\ Fs.read_file fs2 (dir ++ [name])%list = inr content
    /\ V1.run_write W path content w = V2.run_write W path content w.
Proof.
  intros Hp Hm Hnd.
  destruct (mkdir_parents_is_dir dir (files w) fs1 Hm) as [es Hes].
  assert (Hc : forall es', Fs.lookup name es <> Some (Fs.Dir es')).
  { intros es' Hl. apply (Hnd es'). clear - Hes Hl.
    revert fs1 Hes. induction dir as [|d dir IH]; intros fs1 Hes.
    - simpl in *. injection Hes as ->. simpl. now rewrite Hl.
    - simpl in *. destruct fs1 as [|es0]; [discriminate|].
      destruct (Fs.lookup d es0); [now apply IH | discriminate]. }
  destruct (write_file_in_dir dir fs1 es name content Hes Hc) as [fs2 Hw].
  exists fs2. split; [|split; [|reflexivity]].
  - rewrite (run_write_cases W path content w _ Hp).
    unfold Fs.parent. rewrite removelast_last, Hm, Hw. reflexivity.
  - now apply (write_file_read _ fs1).
Qed.

Lemma utf8_length_ascii (s : string) :
  Rules.is_ascii s = true -> List.length (Fs.utf8_encode s) = length s.
Proof.
  unfold Rules.is_ascii.
  induction s as [|c s IH]; intros H; [reflexivity|].
  simpl in H. apply andb_true_iff in H as [Hc Hs].
  cbn [Fs.utf8_encode]. rewrite Hc. simpl. now rewrite IH.
Qed.

Lemma utf8_length_ge (s : string) : length s <= List.length (Fs.utf8_encode s).
Proof.
  induction s as [|c s IH]; [reflexivity|].
  cbn [Fs.utf8_encode]. destruct (Py.ord c <? 128)%N; simpl; lia.
Qed.

Lemma utf8_length_non_ascii (s : string) :
  Rules.is_ascii s = false -> length s < List.length (Fs.utf8_encode s).
Proof.
  unfold Rules.is_ascii.
  induction s as [|c s IH]; intros H; [discriminate|].
  cbn [list_ascii_of_string forallb] in H. cbn [Fs.utf8_encode].
  pose proof (utf8_length_ge s) as Hge.
  destruct (Py.ord c <? 128)%N; simpl in *.
  - specialize (IH H). lia.
  - lia.
Qed.

(** The exchange of the specification: [hi] written to [a.txt]. *)
Example write_hi :
  exists w',
    V2.run_write Sample.WORKDIR "a.txt" "hi" Sample.w0
    = (Return "Wrote 2 bytes to a.txt", w')
    /\ Fs.read_file (files w') ["w"; "a.txt"] = inr "hi".
Proof. eexists. split; reflexivity. Qed.

(** C8 at the failing input. [run_write] reports [len(content)], the
    number of characters: for the one character U+00E9 it says
    [Wrote 1 bytes], in v2 and in v1, and the file then holds that
    character, which is two bytes on disk. *)
Theorem run_write_counts_characters :
  exists w',
    V2.run_write Sample.WORKDIR "a.txt" Sample.e_acute Sample.w0
    = (Return "Wrote 1 bytes to a.txt", w')
    /\ V1.run_write Sample.WORKDIR "a.txt" Sample.e_acute Sample.w0
       = (Return "Wrote 1 bytes to a.txt", w')
    /\ Fs.read_file (files w') ["w"; "a.txt"] = inr Sample.e_acute
    /\ Fs.utf8_encode Sample.e_acute = [195%N; 169%N]
    /\ List.length (Fs.utf8_encode Sample.e_acute) = 2.
Proof. eexists. repeat split; reflexivity. Qed.

(** ** The agent loop and the reminders *)

Lemma preserves_ret {A X} (f : world -> X) (a : A) : preserves f (ret a).
Proof. intros w. reflexivity. Qed.

Lemma preserves_raise {A X} (f : world -> X) (e : exn) : preserves f (@raise A e).
Proof. intros w. reflexivity. Qed.

Lemma preserves_bind {A B X} (f : world -> X) (m : M A) (k : A -> M B) :
  preserves f m -> (forall a, preserves f (k a)) -> preserves f (bind m k).
Proof.
  intros Hm Hk w. unfold bind. specialize (Hm w).
  destruct (m w) as [[a|e] w']; simpl in *; [|exact Hm].
  now rewrite Hk.
Qed.

Lemma preserves_try {A X} (f : world -> X) (body : M A) (handler : exn -> M A) :
  preserves f body -> (forall e, preserves f (handler e)) ->
  preserves f (try_except body handler).
Proof.
  intros Hb Hh w. unfold try_except. specialize (Hb w).
  destruct (body w) as [[a|e] w']; simpl in *; [exact Hb|].
  now rewrite Hh.
Qed.

Lemma preserves_getitem {A X} (f : world -> X) (v : option A) (key : string) :
  preserves f (getitem v key).
Proof. destruct v; intros w; reflexivity. Qed.

Lemma preserves_safe_path {X} (f : world -> X) (W : Fs.Path) (p : string) :
  preserves f (V2.safe_path W p).
Proof.
  intros w. rewrite safe_path_cases.
  destruct (Fs.has_nul _); [reflexivity|]. now destruct (Fs.is_relative_to _ _).
Qed.

Lemma preserves_read_text (fp : Fs.Path) : preserves loop_state (read_text fp).
Proof. intros w. unfold read_text. now destruct (Fs.read_file _ _). Qed.

Lemma preserves_write_text (fp : Fs.Path) (text : string) :
  preserves loop_state (write_text fp text).
Proof. intros w. unfold write_text. now destruct (Fs.write_file _ _ _). Qed.

Lemma preserves_mkdir (fp : Fs.Path) : preserves loop_state (mkdir fp).
Proof. intros w. unfold mkdir. now destruct (Fs.mkdir_parents _ _). Qed.

Lemma preserves_subprocess_run (sh : shell) (cmd : string) :
  preserves loop_state (subprocess_run sh cmd).
Proof. intros w. unfold subprocess_run. now destruct (sh cmd (files w)). Qed.

Lemma preserves_update (items : pyval) : preserves loop_state (V2.update items).
Proof.
  intros w. destruct items; try reflexivity.
  unfold V2.update, bind, lift.
  destruct (V2.validate 0 l [] 0) as [[validated n]|e]; [|reflexivity].
  cbn [fst snd]. destruct (Nat.ltb 20 _); [reflexivity|].
  destruct (Nat.ltb 1 n); reflexivity.
Qed.

Ltac frame :=
  repeat first
    [ apply preserves_safe_path
    | apply preserves_bind; [|intros ?]
    | apply preserves_try; [|intros ?]
    | apply preserves_ret
    | apply preserves_raise
    | apply preserves_getitem
    | apply preserves_safe_path
    | apply preserves_read_text
    | apply preserves_write_text
    | apply preserves_mkdir
    | apply preserves_subprocess_run
    | apply preserves_update
    | match goal with
      | |- preserves _ (if ?b then _ else _) => destruct b
      | |- preserves _ (match ?e with _ => _ end) => destruct e
      end ].

(** No tool touches the counter or the conversation. *)
Lemma execute_tool_preserves (W : Fs.Path) (sh : shell) (name : string)
      (input : tool_input) :
  preserves loop_state (V2.execute_tool W sh name input).
Proof.
  unfold V2.execute_tool, V2.run_bash, V2.run_read, V2.run_write, V2.run_edit,
    V2.run_todo.
  frame.
Qed.

(** The loop over the tool calls of a batch: with conforming inputs it
    returns one result for each call, in order; [used_todo] is set as
    soon as a call is named TodoWrite; counter and conversation are not
    touched. *)
Lemma run_tools_returns (W : Fs.Path) (sh : shell)
      (calls : list (string * string * tool_input)) :
  forallb call_valid calls = true ->
  forall results used_todo w,
  exists outputs w',
    V2.run_tools W sh calls results used_todo w
    = (Return ((results ++ combine (map (fun tc => fst (fst tc)) calls) outputs)%list,
               used_todo || existsb is_todo_call calls), w')
    /\ List.length outputs = List.length calls
    /\ loop_state w' = loop_state w.
Proof.
  induction calls as [|[[id name] input] calls IH]; intros Hv results used_todo w.
  - exists [], w. simpl. now rewrite app_nil_r, orb_false_r.
  - simpl in Hv. apply andb_true_iff in Hv as [Hv1 Hv].
    unfold call_valid in Hv1. cbn [fst snd] in Hv1.
    destruct (execute_tool_returns W sh name input Hv1 w) as (output & w1 & He).
    pose proof (execute_tool_preserves W sh name input w) as Hf.
    rewrite He in Hf. cbn [snd] in Hf.
    cbn [V2.run_tools]. unfold bind at 1. rewrite He.
    destruct (IH Hv (results ++ [(id, output)])%list
                 (if String.eqb name "TodoWrite" then true else used_todo) w1)
      as (outputs & w' & Hr & Hlen & Hs).
    exists (output :: outputs), w'. rewrite Hr. split; [|split].
    + f_equal. f_equal. f_equal.
      * rewrite <- app_assoc. reflexivity.
      * cbn [existsb].
        change (is_todo_call (id, name, input)) with (String.eqb name "TodoWrite").
        destruct (String.eqb name "TodoWrite"), used_todo; reflexivity.
    + simpl. now rewrite Hlen.
    + now rewrite Hs.
Qed.



Lemma run_tools_preserves (W : Fs.Path) (sh : shell)
      (calls : list (string * string * tool_input)) :
  forall results used_todo,
    preserves loop_state (V2.run_tools W sh calls results used_todo).
Proof.
  induction calls as [|[[id name] input] calls IH]; intros results used_todo.
  - apply preserves_ret.
  - cbn [V2.run_tools]. apply preserves_bind.
    + apply execute_tool_preserves.
    + intros output. apply IH.
Qed.

(** The conversation only grows in a round of the loop, whatever the
    response and however the round ends. *)
Lemma agent_round_appends (W : Fs.Path) (sh : shell) (response : response)
      (w : world) :
  exists tail,
    history (snd (V2.agent_round W sh response w)) = (history w ++ tail)%list.
Proof.
  unfold V2.agent_round.
  destruct (negb (String.eqb (stop_reason response) "tool_use")).
  - eexists. reflexivity.
  - unfold bind at 1.
    pose proof (run_tools_preserves W sh
                  (V2.tool_calls_of (resp_content response)) [] false w) as Hf.
    destruct (V2.run_tools W sh _ [] false w) as [[r|e] w1]; cbn [snd] in Hf;
      unfold loop_state in Hf; injection Hf as _ Hh.
    + destruct (snd r); cbn; rewrite Hh, <- app_assoc; eexists; reflexivity.
    + exists []. cbn. now rewrite Hh, app_nil_r.
Qed.

Lemma agent_loop_appends (W : Fs.Path) (sh : shell)
      (gateway : list (outcome response)) :
  forall w,
  exists tail,
    history (snd (V2.agent_loop W sh gateway w)) = (history w ++ tail)%list.
Proof.
  induction gateway as [|answer gateway IH]; intros w.
  - exists []. simpl. now rewrite app_nil_r.
  - cbn [V2.agent_loop]. unfold bind at 1, lift.
    destruct answer as [response|e]; [|exists []; simpl; now rewrite app_nil_r].
    unfold bind at 1.
    destruct (agent_round_appends W sh response w) as [t1 H1].
    destruct (V2.agent_round W sh response w) as [[returned|e] w1]; cbn [snd] in H1.
    + destruct returned.
      * exists t1. exact H1.
      * destruct (IH w1) as [t2 H2]. exists (t1 ++ t2)%list.
        now rewrite H2, H1, app_assoc.
    + exists t1. exact H1.
Qed.

(** One turn of [main] on a line that does not end the session: the user
    turn is appended with the reminder the flag and the counter call
    for, the loop runs, and [first_message] is false afterwards. *)
Lemma main_turn_appends (W : Fs.Path) (sh : shell) (first_message : bool)
      (line : string) (gateway : list (outcome response)) (w : world) :
  goes_on line = true ->
  exists tail r w',
    V2.main_turn W sh first_message line gateway w = (Return r, w')
    /\ history w'
       = (history w
          ++ user_turn ((if first_message then [V2.INITIAL_REMINDER]
                         else if Nat.ltb 10 (rounds_without_todo w)
                              then [V2.NAG_REMINDER] else [])
                        ++ [Py.strip line])
          :: tail)%list
    /\ r <> Some true.
Proof.
  intros Hgo. unfold goes_on in Hgo. apply negb_true_iff in Hgo.
  unfold V2.main_turn. rewrite Hgo.
  unfold bind at 1. cbn [V2.get_rounds].
  unfold bind at 1. cbn [V2.append_message].
  set (msg := mk_message "user" _).
  set (w1 := mk_world _ _ _ _ _).
  destruct (agent_loop_appends W sh gateway w1) as [tail Ht].
  unfold bind, try_except.
  destruct (V2.agent_loop W sh gateway w1) as [[status|e] w2]; cbn [snd] in Ht.
  - exists tail. destruct status; eexists; eexists;
      (split; [reflexivity|]); (split; [|destruct first_message; discriminate]);
      rewrite Ht; subst w1 msg; cbn [history]; rewrite <- app_assoc;
      destruct first_message; [reflexivity| |reflexivity|];
      destruct (Nat.ltb 10 (rounds_without_todo w)); reflexivity.
  - exists tail. eexists; eexists.
    split; [reflexivity|]. split; [|destruct first_message; discriminate].
    rewrite Ht; subst w1 msg; cbn [history]; rewrite <- app_assoc.
    destruct first_message; [reflexivity|].
    destruct (Nat.ltb 10 (rounds_without_todo w)); reflexivity.
Qed.

(** *** A session, turn by turn *)












Lemma failing_calls_are_valid (calls : list (string * string * tool_input)) :
  forallb failing_todo_call calls = true -> forallb call_valid calls = true.
Proof.
  intros H. rewrite forallb_forall in *. intros [[id name] input] Hin.
  specialize (H _ Hin). unfold failing_todo_call, is_todo_call, call_valid in *.
  cbn [fst snd] in *. apply andb_true_iff in H as [Hn Hi].
  apply String.eqb_eq in Hn. subst name.
  unfold V2.required_present. cbn [String.eqb Ascii.eqb Bool.eqb].
  now destruct (arg_items input).
Qed.










(** The round of the sample: the invalid status is reported, the old
    list stays, the counter goes from 7 to 0. *)
Example failing_todo_round :
  V2.agent_round Sample.WORKDIR Sample.echo
    (mk_response
       [ToolUse "t1" "TodoWrite"
          (mk_input None None None None None None
             (Some (VList [Sample.item "a" "doing" "Doing a"])))]
       "tool_use")
    (mk_world (files Sample.w0) [] [mk_todo "old" "pending" "Old"] 7 [])
  = (Return false,
     mk_world (files Sample.w0) [] [mk_todo "old" "pending" "Old"] 0
       [mk_message "assistant"
          (Blocks [ToolUse "t1" "TodoWrite"
                     (mk_input None None None None None None
                        (Some (VList [Sample.item "a" "doing" "Doing a"])))]);
        mk_message "user"
          (ToolResults [("t1", "Error: Item 0: invalid status 'doing'")])]).
Proof. reflexivity. Qed.

(* ================================================================== *)
(** * Further properties of the agents *)
(* ================================================================== *)

(** ** Trimming *)

Lemma rstrip_idempotent (s : string) : Py.rstrip (Py.rstrip s) = Py.rstrip s.
Proof.
  induction s as [|c s IH]; [reflexivity|].
  cbn [Py.rstrip]. destruct (Py.rstrip s) as [|a r] eqn:E.
  - destruct (Py.is_space c) eqn:Ec; [reflexivity|].
    cbn [Py.rstrip]. now rewrite Ec.
  - simpl in *. now rewrite IH.
Qed.

(** Trimming on the right keeps a first character that is no space. *)
Lemma lstrip_rstrip (s : string) :
  Py.lstrip s = s -> Py.lstrip (Py.rstrip s) = Py.rstrip s.
Proof.
  destruct s as [|c s]; [reflexivity|].
  cbn [Py.lstrip Py.rstrip]. destruct (Py.is_space c) eqn:Ec.
  - intros H. exfalso.
    assert (Hlen : length (Py.lstrip s) <= length s).
    { clear. induction s as [|a s IH]; [simpl; lia|].
      cbn [Py.lstrip]. destruct (Py.is_space a); simpl in *; lia. }
    rewrite H in Hlen. simpl in Hlen. lia.
  - intros _. destruct (Py.rstrip s); cbn [Py.lstrip]; now rewrite Ec.
Qed.

Lemma lstrip_idempotent (s : string) : Py.lstrip (Py.lstrip s) = Py.lstrip s.
Proof.
  induction s as [|c s IH]; [reflexivity|].
  cbn [Py.lstrip]. destruct (Py.is_space c) eqn:Ec; [exact IH|].
  cbn [Py.lstrip]. now rewrite Ec.
Qed.

Lemma strip_idempotent (s : string) : Py.strip (Py.strip s) = Py.strip s.
Proof.
  unfold Py.strip.
  rewrite (lstrip_rstrip (Py.lstrip s)) by apply lstrip_idempotent.
  apply rstrip_idempotent.
Qed.

(** ** The stored list *)

Lemma stored_task_ok (item : pyval) :
  Rules.item_violates item = false -> Stored.task_ok (Rules.stored item) = true.
Proof.
  intros H. unfold Rules.item_violates in H.
  apply orb_false_iff in H as [H Hs]. apply orb_false_iff in H as [H Ha].
  apply orb_false_iff in H as [Hd Hc].
  destruct item as [| | | | |d]; try discriminate.
  unfold Stored.task_ok, Rules.stored. cbn [t_status t_content t_activeForm].
  unfold Rules.blank in Hc, Ha. rewrite Hc, Ha, !strip_idempotent, !String.eqb_refl.
  cbn [negb]. rewrite !andb_true_r.
  unfold Rules.invalid_status in Hs. rewrite dict_get_find.
  destruct (V2.dict_find d "status") as [v|].
  - now apply negb_false_iff in Hs.
  - reflexivity.
Qed.

Lemma stored_in_progress_count (l : list pyval) :
  existsb Rules.item_violates l = false ->
  List.length (filter Stored.in_progress (map Rules.stored l))
  = Rules.count_status "in_progress" l.
Proof.
  unfold Rules.count_status.
  induction l as [|item l IH]; intros H; [reflexivity|].
  simpl in H. apply orb_false_iff in H as [Hi Hl].
  cbn [map filter]. unfold Stored.in_progress at 1.
  rewrite (stored_status_in_progress item Hi).
  destruct (Rules.has_status "in_progress" item); cbn [List.length];
    now rewrite IH.
Qed.

(** What [update] stores for a list that breaks no rule is a stored list
    as the data model has it. *)
Lemma stored_list_ok (l : list pyval) :
  Rules.violates (VList l) = false -> Stored.list_ok (map Rules.stored l) = true.
Proof.
  rewrite violates_items. intros H.
  apply orb_false_iff in H as [H Hip]. apply orb_false_iff in H as [Hitems Hlen].
  unfold Stored.list_ok. rewrite length_map, stored_in_progress_count by exact Hitems.
  apply Nat.ltb_ge in Hlen, Hip.
  apply Nat.leb_le in Hlen, Hip. rewrite Hlen, Hip, !andb_true_r.
  clear - Hitems. induction l as [|item l IH]; [reflexivity|].
  simpl in Hitems. apply orb_false_iff in Hitems as [Hi Hl].
  cbn [map forallb]. now rewrite stored_task_ok, IH.
Qed.

(** [update] either raises and changes nothing, or takes a list that
    breaks no rule and stores it. *)
Lemma update_outcome (items : pyval) (w : world) :
  (exists msg, V2.update items w = (Raise (ValueError msg), w))
  \/ (exists l,
         items = VList l
         /\ Rules.violates (VList l) = false
         /\ V2.update items w
            = (Return (V2.render_items (map Rules.stored l)),
               mk_world (files w) (spawned w) (map Rules.stored l)
                        (rounds_without_todo w) (history w))).
Proof.
  destruct (Rules.violates items) eqn:Hv.
  - left. now apply update_rejects.
  - right. destruct items as [| | | |l|]; try discriminate.
    exists l. split; [reflexivity|]. split; [exact Hv|]. now apply update_accepts.
Qed.

(** X1. Whatever the input, a call of [update] that returns leaves a
    stored list of at most 20 tasks, at most one of them in progress,
    each with one of the three statuses in lower case and with content
    and activeForm that are not empty and carry no white space around
    them. *)
Theorem update_stores_well_formed_list (items : pyval) (w w' : world)
        (out : string) :
  V2.update items w = (Return out, w') ->
  Stored.list_ok (TODO_items w') = true.
Proof.
  intros H.
  destruct (update_outcome items w) as [[msg Hr]|(l & _ & Hv & Hu)].
  - rewrite Hr in H. discriminate.
  - rewrite Hu in H. apply returned_eq in H as [_ <-].
    cbn [TODO_items]. now apply stored_list_ok.
Qed.

Lemma update_stores_well_formed_list_witness :
  V2.update (VList [Sample.item " a " "COMPLETED" "Doing a"]) Sample.w0
  = (Return (V2.render_items [mk_todo "a" "completed" "Doing a"]),
     mk_world (files Sample.w0) [] [mk_todo "a" "completed" "Doing a"] 0 [])
  /\ Stored.list_ok [mk_todo "a" "completed" "Doing a"] = true.
Proof.
  split; [reflexivity|].
  exact (update_stores_well_formed_list
           (VList [Sample.item " a " "COMPLETED" "Doing a"]) Sample.w0
           (mk_world (files Sample.w0) [] [mk_todo "a" "completed" "Doing a"] 0 [])
           (V2.render_items [mk_todo "a" "completed" "Doing a"]) eq_refl).
Defined.

(** The pass of the loop on an item that breaks a rule raises with the
    index of the item at the head of the message. *)
Lemma validate_cons_bad_index (item : pyval) (l : list pyval) i validated n :
  Rules.item_violates item = true ->
  exists detail,
    V2.validate i (item :: l) validated n
    = Raise (ValueError ("Item " ++ Py.str_of_nat i ++ detail)).
Proof.
  intros Hi. unfold Rules.item_violates in Hi.
  destruct item as [| | | | |d]; try (eexists; reflexivity).
  unfold Rules.blank, Rules.field_text, Rules.invalid_status in Hi.
  cbn [V2.validate Rules.structured negb orb] in *. cbv zeta.
  rewrite !dict_get_find.
  destruct (V2.dict_find d "content") as [vc|]; [|eexists; reflexivity].
  destruct (is_empty (Py.strip (str vc))); [eexists; reflexivity|].
  destruct (V2.dict_find d "status") as [vs|].
  - destruct (negb (V2.mem (Py.lower (str vs)) V2.statuses));
      [eexists; reflexivity|].
    destruct (V2.dict_find d "activeForm") as [va|]; [|eexists; reflexivity].
    destruct (is_empty (Py.strip (str va))); [eexists; reflexivity|].
    discriminate Hi.
  - cbn [str]. change (negb (V2.mem (Py.lower "pending") V2.statuses)) with false.
    cbv iota.
    destruct (V2.dict_find d "activeForm") as [va|]; [|eexists; reflexivity].
    destruct (is_empty (Py.strip (str va))); [eexists; reflexivity|].
    discriminate Hi.
Qed.

(** The loop runs through items that break no rule. *)
Lemma validate_prefix (pre rest : list pyval) :
  forall i validated n,
    existsb Rules.item_violates pre = false ->
    V2.validate i (pre ++ rest) validated n
    = V2.validate (i + List.length pre) rest
        (validated ++ map Rules.stored pre)%list
        (n + Rules.count_status "in_progress" pre).
Proof.
  induction pre as [|item pre IH]; intros i validated n H.
  - simpl. now rewrite app_nil_r, !Nat.add_0_r.
  - simpl in H. apply orb_false_iff in H as [Hi Hl].
    cbn [app]. rewrite validate_cons_ok by exact Hi.
    rewrite IH by exact Hl.
    f_equal.
    + simpl. lia.
    + now rewrite <- app_assoc.
    + unfold Rules.count_status. cbn [filter].
      destruct (Rules.has_status "in_progress" item); cbn [List.length]; lia.
Qed.

(** X3. [update] reports the first item that breaks a rule, by its index:
    when the items before it break none, the [ValueError] reads
    [Item i...] with [i] the number of items before it, whatever comes
    after and however long the list is; the world is unchanged. *)
Theorem update_reports_first_bad_item (pre post : list pyval) (bad : pyval)
        (w : world) :
  existsb Rules.item_violates pre = false ->
  Rules.item_violates bad = true ->
  exists detail,
    V2.update (VList (pre ++ bad :: post)) w
    = (Raise (ValueError ("Item " ++ Py.str_of_nat (List.length pre) ++ detail)), w).
Proof.
  intros Hpre Hbad. unfold V2.update, bind, lift.
  rewrite validate_prefix by exact Hpre. cbn [Nat.add].
  destruct (validate_cons_bad_index bad post (List.length pre)
              ([] ++ map Rules.stored pre)%list
              (Rules.count_status "in_progress" pre) Hbad) as [detail Hd].
  rewrite Hd. now exists detail.
Qed.

Lemma update_reports_first_bad_item_witness :
  existsb Rules.item_violates [Sample.item "a" "pending" "Doing a"] = false
  /\ Rules.item_violates (Sample.item "b" "started" "Doing b") = true
  /\ exists detail,
      V2.update (VList ([Sample.item "a" "pending" "Doing a"]
                        ++ Sample.item "b" "started" "Doing b"
                        :: [VInt 3]))
                Sample.w0
      = (Raise (ValueError ("Item " ++ Py.str_of_nat 1 ++ detail)), Sample.w0).
Proof.
  split; [reflexivity|]. split; [reflexivity|].
  exact (update_reports_first_bad_item
           [Sample.item "a" "pending" "Doing a"] [VInt 3]
           (Sample.item "b" "started" "Doing b") Sample.w0 eq_refl eq_refl).
Defined.

(** A status of the three is in lower case already. *)
Lemma status_is_lower (s : string) :
  V2.mem s V2.statuses = true -> Py.lower s = s.
Proof.
  unfold V2.mem, V2.statuses. cbn [existsb]. intros H.
  repeat (apply orb_true_iff in H as [H|H]); try discriminate;
    apply String.eqb_eq in H; subst s; reflexivity.
Qed.

Lemma stored_as_item (t : todo) :
  Stored.task_ok t = true ->
  Rules.item_violates (Stored.as_item t) = false
  /\ Rules.stored (Stored.as_item t) = t
  /\ Rules.has_status "in_progress" (Stored.as_item t) = Stored.in_progress t.
Proof.
  unfold Stored.task_ok. intros H.
  repeat (apply andb_true_iff in H as [H ?]).
  match goal with Hx : String.eqb (Py.strip (t_content t)) _ = true |- _ =>
    apply String.eqb_eq in Hx; rename Hx into Hc end.
  match goal with Hx : String.eqb (Py.strip (t_activeForm t)) _ = true |- _ =>
    apply String.eqb_eq in Hx; rename Hx into Ha end.
  pose proof (status_is_lower _ H) as Hl.
  destruct t as [c s a]. cbn [t_content t_status t_activeForm] in *.
  unfold Rules.item_violates, Rules.stored, Rules.has_status, Rules.blank,
    Rules.invalid_status, Rules.field_text, Stored.as_item, Stored.in_progress.
  cbn [Rules.structured V2.dict_find dict_get String.eqb Ascii.eqb Bool.eqb
       str negb orb t_status t_content t_activeForm].
  rewrite Hc, Ha, Hl, H.
  repeat match goal with
         | Hx : negb (is_empty ?x) = true |- _ =>
             apply negb_true_iff in Hx; rewrite Hx
         end.
  repeat split; reflexivity.
Qed.

(** X4. A stored list handed back to [update] as it is (each task as an
    item with its three fields) breaks no rule and is stored again
    unchanged: [update] returns its rendering and the stored list is the
    list given. *)
Theorem update_accepts_its_stored_list (l : list todo) (w : world) :
  Stored.list_ok l = true ->
  V2.update (VList (map Stored.as_item l)) w
  = (Return (V2.render_items l),
     mk_world (files w) (spawned w) l (rounds_without_todo w) (history w)).
Proof.
  unfold Stored.list_ok. intros H.
  apply andb_true_iff in H as [H Hip]. apply andb_true_iff in H as [Hall Hlen].
  assert (Hmap : existsb Rules.item_violates (map Stored.as_item l) = false
                 /\ map Rules.stored (map Stored.as_item l) = l
                 /\ Rules.count_status "in_progress" (map Stored.as_item l)
                    = List.length (filter Stored.in_progress l)).
  { clear - Hall. unfold Rules.count_status.
    induction l as [|t l IH]; [repeat split; reflexivity|].
    cbn [forallb] in Hall. apply andb_true_iff in Hall as [Ht Hl].
    destruct (stored_as_item t Ht) as (H1 & H2 & H3).
    destruct (IH Hl) as (I1 & I2 & I3).
    cbn [map existsb filter]. rewrite H1, H2, H3, I1, I2.
    repeat split; try reflexivity.
    destruct (Stored.in_progress t); cbn [List.length]; now rewrite I3. }
  destruct Hmap as (H1 & H2 & H3).
  assert (Hv : Rules.violates (VList (map Stored.as_item l)) = false).
  { rewrite violates_items, H1, H3, length_map. cbn [orb].
    apply Nat.leb_le in Hlen, Hip.
    apply orb_false_iff. split; apply Nat.ltb_ge; assumption. }
  rewrite (update_accepts _ w Hv). now rewrite H2.
Qed.

Lemma update_accepts_its_stored_list_witness :
  Stored.list_ok [mk_todo "a" "completed" "Doing a";
                  mk_todo "b" "in_progress" "Doing b"] = true
  /\ TODO_items
       (snd (V2.update
               (VList (map Stored.as_item
                           [mk_todo "a" "completed" "Doing a";
                            mk_todo "b" "in_progress" "Doing b"])) Sample.w0))
     = [mk_todo "a" "completed" "Doing a"; mk_todo "b" "in_progress" "Doing b"].
Proof.
  split; [reflexivity|].
  rewrite (update_accepts_its_stored_list
             [mk_todo "a" "completed" "Doing a";
              mk_todo "b" "in_progress" "Doing b"] Sample.w0 eq_refl).
  reflexivity.
Defined.

(** ** What each tool touches *)

Lemma preserves_lift {A X} (f : world -> X) (o : outcome A) : preserves f (lift o).
Proof. intros w. reflexivity. Qed.

Lemma preserves_reading {X} (f : world -> X) (fp : Fs.Path) :
  preserves f (read_text fp).
Proof. intros w. unfold read_text. now destruct (Fs.read_file _ _). Qed.

Lemma preserves_writing {X} (f : world -> X) (fp : Fs.Path) (text : string) :
  (forall fs w, f (set_files fs w) = f w) -> preserves f (write_text fp text).
Proof.
  intros Hf w. unfold write_text.
  destruct (Fs.write_file _ _ _); [reflexivity | apply Hf].
Qed.

Lemma preserves_making_dirs {X} (f : world -> X) (fp : Fs.Path) :
  (forall fs w, f (set_files fs w) = f w) -> preserves f (mkdir fp).
Proof.
  intros Hf w. unfold mkdir.
  destruct (Fs.mkdir_parents _ _); [reflexivity | apply Hf].
Qed.

Lemma preserves_running {X} (f : world -> X) (sh : shell) (cmd : string) :
  (forall fs sp w,
      f (mk_world fs sp (TODO_items w) (rounds_without_todo w) (history w)) = f w) ->
  preserves f (subprocess_run sh cmd).
Proof.
  intros Hf w. unfold subprocess_run.
  destruct (sh cmd (files w)) as [r fs]. apply Hf.
Qed.

Lemma preserves_updating {X} (f : world -> X) (items : pyval) :
  (forall td w,
      f (mk_world (files w) (spawned w) td (rounds_without_todo w) (history w)) = f w) ->
  preserves f (V2.update items).
Proof.
  intros Hf w.
  destruct (update_outcome items w) as [[msg Hr]|(l & _ & _ & Hu)].
  - now rewrite Hr.
  - rewrite Hu. apply Hf.
Qed.

Ltac untouched :=
  repeat first
    [ apply preserves_safe_path
    | apply preserves_bind; [|intros ?]
    | apply preserves_try; [|intros ?]
    | apply preserves_ret
    | apply preserves_raise
    | apply preserves_lift
    | apply preserves_getitem
    | apply preserves_safe_path
    | apply preserves_reading
    | apply preserves_writing; intros; reflexivity
    | apply preserves_making_dirs; intros; reflexivity
    | apply preserves_running; intros; reflexivity
    | apply preserves_updating; intros; reflexivity
    | match goal with
      | |- preserves _ (if ?b then _ else _) => destruct b
      | |- preserves _ (match ?e with _ => _ end) => destruct e
      end ].

Lemma run_read_changes_nothing {X} (f : world -> X) (W : Fs.Path)
      (path : string) (limit : option Z) :
  preserves f (V2.run_read W path limit).
Proof. unfold V2.run_read. untouched. Qed.

Lemma file_tools_keep {X} (f : world -> X) (W : Fs.Path) :
  (forall fs w, f (set_files fs w) = f w) ->
  (forall path content, preserves f (V2.run_write W path content))
  /\ (forall path old_text new_text, preserves f (V2.run_edit W path old_text new_text)).
Proof.
  intros Hf. split; intros; unfold V2.run_write, V2.run_edit;
    repeat first
      [ apply preserves_safe_path
      | apply preserves_bind; [|intros ?]
      | apply preserves_try; [|intros ?]
      | apply preserves_ret
      | apply preserves_reading
      | apply preserves_writing; exact Hf
      | apply preserves_making_dirs; exact Hf
      | match goal with
        | |- preserves _ (if ?b then _ else _) => destruct b
        end ].
Qed.

Lemma run_bash_keeps {X} (f : world -> X) (sh : shell) (cmd : string) :
  (forall fs sp w,
      f (mk_world fs sp (TODO_items w) (rounds_without_todo w) (history w)) = f w) ->
  preserves f (V2.run_bash sh cmd).
Proof.
  intros Hf. unfold V2.run_bash.
  destruct (existsb _ V2.dangerous); [apply preserves_ret|].
  apply preserves_try.
  - apply preserves_bind; [now apply preserves_running | intros; apply preserves_ret].
  - intros e. destruct e; apply preserves_ret.
Qed.

Lemma run_todo_keeps {X} (f : world -> X) (items : pyval) :
  (forall td w,
      f (mk_world (files w) (spawned w) td (rounds_without_todo w) (history w)) = f w) ->
  preserves f (V2.run_todo items).
Proof.
  intros Hf. unfold V2.run_todo. apply preserves_try.
  - now apply preserves_updating.
  - intros e. apply preserves_ret.
Qed.

Lemma execute_tool_frames (W : Fs.Path) (sh : shell) (name : string)
      (input : tool_input) (w : world) :
  loop_state (snd (V2.execute_tool W sh name input w)) = loop_state w
  /\ (name <> "bash" ->
      spawned (snd (V2.execute_tool W sh name input w)) = spawned w)
  /\ (name <> "TodoWrite" ->
      TODO_items (snd (V2.execute_tool W sh name input w)) = TODO_items w)
  /\ (name <> "bash" -> name <> "write_file" -> name <> "edit_file" ->
      files (snd (V2.execute_tool W sh name input w)) = files w).
Proof.
  split; [apply execute_tool_preserves|].
  unfold V2.execute_tool.
  destruct (String.eqb_spec name "bash") as [->|Hb].
  { split; [congruence|]. split; [|congruence].
    intros _. revert w.
    change (preserves TODO_items
              (command <- getitem (arg_command input) "command" ;;
               V2.run_bash sh command)).
    apply preserves_bind; [apply preserves_getitem|].
    intros cmd. apply run_bash_keeps. reflexivity. }
  destruct (String.eqb_spec name "read_file") as [->|Hr].
  { repeat split; intros; revert w;
      match goal with
      | |- forall w, ?f (snd (?m w)) = ?f w => change (preserves f m)
      end;
      (apply preserves_bind; [apply preserves_getitem|]);
      intros p; apply run_read_changes_nothing. }
  destruct (String.eqb_spec name "write_file") as [->|Hw].
  { split; [|split; [|congruence]]; intros _; revert w;
      match goal with
      | |- forall w, ?f (snd (?m w)) = ?f w => change (preserves f m)
      end;
      (apply preserves_bind; [apply preserves_getitem|]); intros p;
      (apply preserves_bind; [apply preserves_getitem|]); intros c;
      apply file_tools_keep; reflexivity. }
  destruct (String.eqb_spec name "edit_file") as [->|He].
  { split; [|split; [|congruence]]; intros _; revert w;
      match goal with
      | |- forall w, ?f (snd (?m w)) = ?f w => change (preserves f m)
      end;
      (apply preserves_bind; [apply preserves_getitem|]); intros p;
      (apply preserves_bind; [apply preserves_getitem|]); intros o;
      (apply preserves_bind; [apply preserves_getitem|]); intros n;
      apply file_tools_keep; reflexivity. }
  destruct (String.eqb_spec name "TodoWrite") as [->|Ht].
  { split; [|split; [congruence|]]; intros; revert w;
      match goal with
      | |- forall w, ?f (snd (?m w)) = ?f w => change (preserves f m)
      end;
      (apply preserves_bind; [apply preserves_getitem|]); intros items;
      apply run_todo_keeps; reflexivity. }
  repeat split; reflexivity.
Qed.

(** X5. Each tool of v2 touches its own part of the state and no other,
    whether it succeeds, returns an error text or raises: no tool changes
    the round counter or the conversation; only [bash] starts a process;
    only [TodoWrite] changes the stored task list; and [read_file],
    [TodoWrite] and an unknown tool leave the file system as it was. *)
Theorem tools_touch_their_own_state (W : Fs.Path) (sh : shell) (name : string)
        (input : tool_input) (w : world) :
  loop_state (snd (V2.execute_tool W sh name input w)) = loop_state w
  /\ (name <> "bash" ->
      spawned (snd (V2.execute_tool W sh name input w)) = spawned w)
  /\ (name <> "TodoWrite" ->
      TODO_items (snd (V2.execute_tool W sh name input w)) = TODO_items w)
  /\ (name <> "bash" -> name <> "write_file" -> name <> "edit_file" ->
      files (snd (V2.execute_tool W sh name input w)) = files w).
Proof. exact (execute_tool_frames W sh name input w). Qed.

(** ** The stored list through a session *)

Lemma keeps_ret {A} (P : world -> Prop) (a : A) : keeps P (ret a).
Proof. intros w H. exact H. Qed.

Lemma keeps_bind {A B} (P : world -> Prop) (m : M A) (k : A -> M B) :
  keeps P m -> (forall a, keeps P (k a)) -> keeps P (bind m k).
Proof.
  intros Hm Hk w H. unfold bind. specialize (Hm w H).
  destruct (m w) as [[a|e] w']; simpl in *; [|exact Hm].
  now apply Hk.
Qed.

Lemma keeps_try {A} (P : world -> Prop) (body : M A) (handler : exn -> M A) :
  keeps P body -> (forall e, keeps P (handler e)) -> keeps P (try_except body handler).
Proof.
  intros Hb Hh w H. unfold try_except. specialize (Hb w H).
  destruct (body w) as [[a|e] w']; simpl in *; [exact Hb|].
  now apply Hh.
Qed.

Lemma keeps_of_preserves {A X} (f : world -> X) (Q : X -> Prop) (m : M A) :
  preserves f m -> keeps (fun w => Q (f w)) m.
Proof. intros Hp w H. now rewrite Hp. Qed.

(** The stored list is well formed. *)
Lemma execute_tool_keeps_list (W : Fs.Path) (sh : shell) (name : string)
      (input : tool_input) :
  keeps (fun w => Stored.list_ok (TODO_items w) = true)
        (V2.execute_tool W sh name input).
Proof.
  intros w H.
  destruct (String.eqb_spec name "TodoWrite") as [->|Hn].
  - unfold V2.execute_tool. cbn [String.eqb Ascii.eqb Bool.eqb].
    destruct (arg_items input) as [items|]; [|exact H].
    rewrite bind_getitem. unfold V2.run_todo, try_except.
    destruct (update_outcome items w) as [[msg Hr]|(l & _ & Hv & Hu)].
    + rewrite Hr. exact H.
    + rewrite Hu. cbn [snd TODO_items]. now apply stored_list_ok.
  - destruct (execute_tool_frames W sh name input w) as (_ & _ & Ht & _).
    now rewrite (Ht Hn).
Qed.

Lemma run_tools_keeps_list (W : Fs.Path) (sh : shell)
      (calls : list (string * string * tool_input)) :
  forall results used_todo,
    keeps (fun w => Stored.list_ok (TODO_items w) = true)
          (V2.run_tools W sh calls results used_todo).
Proof.
  induction calls as [|[[id name] input] calls IH]; intros results used_todo.
  - apply keeps_ret.
  - cbn [V2.run_tools]. apply keeps_bind.
    + apply execute_tool_keeps_list.
    + intros output. apply IH.
Qed.

Lemma agent_round_keeps_list (W : Fs.Path) (sh : shell) (response : response) :
  keeps (fun w => Stored.list_ok (TODO_items w) = true)
        (V2.agent_round W sh response).
Proof.
  unfold V2.agent_round.
  destruct (negb (String.eqb (stop_reason response) "tool_use")).
  - intros w H. exact H.
  - apply keeps_bind; [apply run_tools_keeps_list|].
    intros r w H. destruct (snd r); exact H.
Qed.

Lemma agent_loop_keeps_list (W : Fs.Path) (sh : shell)
      (gateway : list (outcome response)) :
  keeps (fun w => Stored.list_ok (TODO_items w) = true) (V2.agent_loop W sh gateway).
Proof.
  induction gateway as [|answer gateway IH]; [apply keeps_ret|].
  cbn [V2.agent_loop]. apply keeps_bind.
  - intros w H. exact H.
  - intros response. apply keeps_bind; [apply agent_round_keeps_list|].
    intros returned. destruct returned; [apply keeps_ret | exact IH].
Qed.

Lemma main_turn_keeps_list (W : Fs.Path) (sh : shell) (first_message : bool)
      (line : string) (gateway : list (outcome response)) :
  keeps (fun w => Stored.list_ok (TODO_items w) = true)
        (V2.main_turn W sh first_message line gateway).
Proof.
  unfold V2.main_turn.
  destruct (is_empty (Py.strip line) || _); [apply keeps_ret|].
  apply keeps_bind; [intros w H; exact H|]. intros rounds.
  apply keeps_bind; [intros w H; exact H|]. intros _.
  apply keeps_bind.
  - apply keeps_try; [apply agent_loop_keeps_list | intros e; apply keeps_ret].
  - intros status. destruct status; apply keeps_ret.
Qed.

(** X2. The stored task list is well formed all through a session of v2
    that starts with a well-formed one (the empty list of start-up is):
    at most 20 tasks, at most one in progress, statuses of the three,
    content and activeForm trimmed and not empty. This holds after every
    tool call and at the end of [main], whatever the gateway answers,
    whatever the tool inputs are and whether calls fail or raise. *)
Theorem stored_list_stays_well_formed (W : Fs.Path) (sh : shell)
        (first_message : bool)
        (inputs : list (string * list (outcome response))) (w : world) :
  Stored.list_ok (TODO_items w) = true ->
  Stored.list_ok (TODO_items (snd (V2.main_loop W sh first_message inputs w))) = true
  /\ (forall name input,
         Stored.list_ok (TODO_items (snd (V2.execute_tool W sh name input w))) = true)
  /\ Stored.list_ok [] = true.
Proof.
  intros H. split; [|split; [|reflexivity]].
  - revert first_message w H.
    induction inputs as [|[line gateway] inputs IH]; intros fm w H; [exact H|].
    cbn [V2.main_loop]. unfold bind.
    pose proof (main_turn_keeps_list W sh fm line gateway w H) as Ht.
    destruct (V2.main_turn W sh fm line gateway w) as [[r|e] w1]; cbn [snd] in *;
      [|exact Ht].
    destruct r as [fm'|]; [now apply IH | exact Ht].
  - intros name input. now apply execute_tool_keeps_list.
Qed.

Lemma stored_list_stays_well_formed_witness :
  Stored.list_ok (TODO_items Sample.w0) = true
  /\ Stored.list_ok
       (TODO_items
          (snd (V2.main_loop Sample.WORKDIR Sample.echo true
                  [("plan it",
                    [Return (mk_response
                               [ToolUse "t1" "TodoWrite"
                                  (mk_input None None None None None None
                                     (Some (VList [Sample.item "a" "pending" "Doing a"])))]
                               "tool_use")])]
                  Sample.w0))) = true.
Proof.
  split; [reflexivity|].
  exact (proj1 (stored_list_stays_well_formed Sample.WORKDIR Sample.echo true
                  [("plan it",
                    [Return (mk_response
                               [ToolUse "t1" "TodoWrite"
                                  (mk_input None None None None None None
                                     (Some (VList [Sample.item "a" "pending" "Doing a"])))]
                               "tool_use")])]
                  Sample.w0 eq_refl)).
Defined.

(** ** The files the tools leave alone *)

Lemma lookup_set_entry_other (name other : string) (n : Fs.node)
      (es : list (string * Fs.node)) :
  other <> name ->
  Fs.lookup other (Fs.set_entry name n es) = Fs.lookup other es.
Proof.
  intros Hne. induction es as [|[k m] es IH]; simpl.
  - destruct (String.eqb_spec name other); [congruence | reflexivity].
  - destruct (String.eqb_spec k name) as [->|Hk]; simpl.
    + destruct (String.eqb_spec name other); [congruence | reflexivity].
    + destruct (String.eqb k other); [reflexivity | exact IH].
Qed.

(** Below a directory, the text at a path is the text at the rest of
    the path below the entry of its first component. *)
Lemma text_at_cons (es : list (string * Fs.node)) (c : string) (q : Fs.Path) :
  text_at (Fs.Dir es) (c :: q)
  = match Fs.lookup c es with
    | Some m => text_at m q
    | None => None
    end.
Proof.
  unfold text_at, Fs.read_file. cbn [Fs.stat].
  now destruct (Fs.lookup c es).
Qed.

(** Writing a file changes the text at no other path: no other file is
    changed, made or lost. *)
Lemma write_file_elsewhere (p : Fs.Path) :
  forall (n n' : Fs.node) (text : string) (q : Fs.Path),
    Fs.write_file n p text = inr n' -> q <> p -> text_at n' q = text_at n q.
Proof.
  induction p as [|c p IH]; intros n n' text q Hw Hq.
  - simpl in Hw. destruct n as [t|es]; [|discriminate]. injection Hw as <-.
    destruct q as [|d q]; [congruence | reflexivity].
  - simpl in Hw. destruct n as [t|es]; [discriminate|].
    destruct q as [|d q]; [destruct (Fs.lookup c es) as [m|];
                           [destruct (Fs.write_file m p text); [discriminate|]
                           |destruct p; [|discriminate]];
                           injection Hw as <-; reflexivity|].
    destruct (Fs.lookup c es) as [m|] eqn:El.
    + destruct (Fs.write_file m p text) as [e|m'] eqn:Ew; [discriminate|].
      injection Hw as <-. rewrite !text_at_cons.
      destruct (String.eqb_spec d c) as [->|Hd].
      * rewrite lookup_set_entry, El. apply (IH m m' text q Ew). congruence.
      * now rewrite lookup_set_entry_other.
    + destruct p as [|x p]; [|discriminate]. injection Hw as <-.
      rewrite !text_at_cons.
      destruct (String.eqb_spec d c) as [->|Hd].
      * rewrite lookup_set_entry, El.
        destruct q as [|y q]; [congruence | reflexivity].
      * now rewrite lookup_set_entry_other.
Qed.

(** Making directories changes the text at no path. *)
Lemma mkdir_parents_elsewhere (p : Fs.Path) :
  forall (n n' : Fs.node) (q : Fs.Path),
    Fs.mkdir_parents n p = inr n' -> text_at n' q = text_at n q.
Proof.
  induction p as [|c p IH]; intros n n' q Hm.
  - simpl in Hm. destruct n; [discriminate|]. now injection Hm as <-.
  - simpl in Hm. destruct n as [t|es]; [discriminate|].
    destruct (Fs.mkdir_parents _ p) as [e|m'] eqn:Em; [discriminate|].
    injection Hm as <-.
    destruct q as [|d q]; [reflexivity|].
    rewrite !text_at_cons.
    destruct (String.eqb_spec d c) as [->|Hd].
    + rewrite lookup_set_entry. rewrite (IH _ m' q Em).
      destruct (Fs.lookup c es); [reflexivity|].
      destruct q; reflexivity.
    + now rewrite lookup_set_entry_other.
Qed.

(** What [run_write] and [run_edit] leave of the files: the text at
    every path but the one resolved is as before. *)
Lemma run_write_elsewhere (W : Fs.Path) (path content : string) (w : world)
      (fp q : Fs.Path) :
  V2.safe_path W path w = (Return fp, w) -> q <> fp ->
  text_at (files (snd (V2.run_write W path content w))) q = text_at (files w) q.
Proof.
  intros Hp Hq. rewrite (run_write_cases W path content w fp Hp).
  destruct (Fs.mkdir_parents (files w) (Fs.parent fp)) as [e|fs1] eqn:Em;
    [reflexivity|].
  pose proof (mkdir_parents_elsewhere _ _ _ q Em) as H1.
  destruct (Fs.write_file fs1 fp content) as [e|fs2] eqn:Ew; cbn [snd files set_files].
  - exact H1.
  - now rewrite (write_file_elsewhere fp fs1 fs2 content q Ew Hq).
Qed.

Lemma run_edit_elsewhere (W : Fs.Path) (path old_text new_text : string)
      (w : world) (fp q : Fs.Path) :
  V2.safe_path W path w = (Return fp, w) -> q <> fp ->
  text_at (files (snd (V2.run_edit W path old_text new_text w))) q
  = text_at (files w) q.
Proof.
  intros Hp Hq. unfold V2.run_edit, try_except, bind. rewrite Hp.
  unfold read_text. destruct (Fs.read_file (files w) fp) as [e|text]; [reflexivity|].
  destruct (negb (Py.contains old_text (Py.universal_newlines text)));
    [reflexivity|].
  unfold write_text.
  destruct (Fs.write_file (files w) fp _) as [e|fs] eqn:Ew; [reflexivity|].
  cbn [snd files set_files].
  now apply (write_file_elsewhere fp (files w) fs _ q Ew).
Qed.

(** X6. [run_write] and [run_edit] change one file at most, the one their
    path resolves to: the text at every other path is as before, so no
    other file is changed, made or lost, whether the call succeeds or
    ends in an error text. v1 does the same. *)
Theorem file_tools_change_one_file (W : Fs.Path) (path : string) (w : world)
        (fp q : Fs.Path) :
  V2.safe_path W path w = (Return fp, w) ->
  q <> fp ->
  (forall content,
      text_at (files (snd (V2.run_write W path content w))) q = text_at (files w) q
      /\ V1.run_write W path content w = V2.run_write W path content w)
  /\ (forall old_text new_text,
         text_at (files (snd (V2.run_edit W path old_text new_text w))) q
         = text_at (files w) q
         /\ V1.run_edit W path old_text new_text w
            = V2.run_edit W path old_text new_text w).
Proof.
  intros Hp Hq. split; [intros c | intros o n]; (split; [|reflexivity]).
  - now apply (run_write_elsewhere W path c w fp q).
  - now apply (run_edit_elsewhere W path o n w fp q).
Qed.

Lemma file_tools_change_one_file_witness :
  V2.safe_path Sample.WORKDIR "g" Sample.w0 = (Return ["w"; "g"], Sample.w0)
  /\ ["w"; "f"] <> ["w"; "g"]
  /\ text_at (files (snd (V2.run_write Sample.WORKDIR "g" "new" Sample.w0))) ["w"; "f"]
     = Some Sample.three_lines.
Proof.
  split; [reflexivity|]. split; [discriminate|].
  destruct (file_tools_change_one_file Sample.WORKDIR "g" Sample.w0
              ["w"; "g"] ["w"; "f"] eq_refl ltac:(discriminate)) as [Hw _].
  destruct (Hw "new") as [H _]. rewrite H. reflexivity.
Defined.

(** X7. The file tools stay inside the workspace: after [run_read],
    [run_write] or [run_edit], whatever their arguments, the text at
    every path that is not the workspace root or below it is as before:
    no regular file outside the workspace is changed, made or lost. *)
Theorem file_tools_stay_in_workspace (W : Fs.Path) (path : string) (w : world)
        (q : Fs.Path) :
  Fs.is_relative_to q W = false ->
  (forall limit, snd (V2.run_read W path limit w) = w)
  /\ (forall content,
         text_at (files (snd (V2.run_write W path content w))) q
         = text_at (files w) q)
  /\ (forall old_text new_text,
         text_at (files (snd (V2.run_edit W path old_text new_text w))) q
         = text_at (files w) q).
Proof.
  intros Hq.
  split; [intros limit; apply (run_read_changes_nothing (fun w => w))|].
  pose proof (safe_path_cases W path w) as Hp.
  destruct (Fs.has_nul (Fs.joinpath W path)).
  { split; [intros c | intros o n];
      unfold V2.run_write, V2.run_edit, try_except, bind;
      rewrite Hp; reflexivity. }
  destruct (Fs.is_relative_to (Fs.resolve (Fs.joinpath W path)) W) eqn:E.
  - assert (Hne : q <> Fs.resolve (Fs.joinpath W path)) by (intros ->; congruence).
    split; [intros c | intros o n].
    + now apply (run_write_elsewhere W path c w _ q Hp).
    + now apply (run_edit_elsewhere W path o n w _ q Hp).
  - split; [intros c | intros o n];
      unfold V2.run_write, V2.run_edit, try_except, bind;
      rewrite Hp; reflexivity.
Qed.

Lemma file_tools_stay_in_workspace_witness :
  Fs.is_relative_to ["etc"; "passwd"] Sample.WORKDIR = false
  /\ text_at (files (snd (V2.run_write Sample.WORKDIR "../etc/passwd" "x" Sample.w0)))
             ["etc"; "passwd"]
     = text_at (files Sample.w0) ["etc"; "passwd"].
Proof.
  split; [reflexivity|].
  destruct (file_tools_stay_in_workspace Sample.WORKDIR "../etc/passwd" Sample.w0
              ["etc"; "passwd"] eq_refl) as (_ & Hw & _).
  apply Hw.
Defined.

(** ** Writing, then reading *)

Lemma splitlines_from_nonempty (cur : string) (c : ascii) (s : string) :
  Py.splitlines_from cur (String c s) <> [].
Proof.
  revert cur c. induction s as [|d s IH]; intros cur c.
  - cbn [Py.splitlines_from]. destruct (Py.is_linebreak c); [discriminate|].
    cbn [Py.splitlines_from]. destruct cur; discriminate.
  - cbn [Py.splitlines_from]. destruct (Py.is_linebreak c).
    + destruct (Ascii.eqb c Py.CR && Ascii.eqb d Py.LF); discriminate.
    + apply IH.
Qed.

Lemma join_cons (sep x : string) (l : list string) :
  l <> [] -> Py.join sep (x :: l) = x ++ sep ++ Py.join sep l.
Proof. destruct l; [congruence | reflexivity]. Qed.

Lemma lf_is_not_cr : Ascii.eqb Py.LF Py.CR = false.
Proof. reflexivity. Qed.

(** The lines of a plain text, joined again, are the text. *)
Lemma join_splitlines_from (s : string) :
  forall cur,
    plain_lines s = true ->
    Py.join Py.NL (Py.splitlines_from cur s) = cur ++ s.
Proof.
  induction s as [|c s IH]; intros cur H.
  - simpl. destruct cur; [reflexivity|]. unfold Py.join. simpl.
    now rewrite str_app_nil_r.
  - cbn [plain_lines] in H. cbn [Py.splitlines_from].
    destruct (Py.is_linebreak c).
    + apply andb_true_iff in H as [H Hs]. apply andb_true_iff in H as [Hc He].
      apply Ascii.eqb_eq in Hc. subst c.
      destruct s as [|d s]; [discriminate|].
      rewrite lf_is_not_cr. cbn [andb].
      rewrite join_cons by apply splitlines_from_nonempty.
      now rewrite (IH EmptyString Hs).
    + rewrite (IH _ H). now rewrite str_app_assoc.
Qed.

(** So are the lines of a plain text followed by one line end: the last
    line end is lost. *)
Lemma join_splitlines_from_newline (s : string) :
  forall cur,
    plain_lines s = true ->
    Py.join Py.NL (Py.splitlines_from cur (s ++ Py.NL)) = cur ++ s.
Proof.
  induction s as [|c s IH]; intros cur H.
  - simpl. now rewrite str_app_nil_r.
  - cbn [plain_lines] in H.
    change (String c s ++ Py.NL) with (String c (s ++ Py.NL)).
    cbn [Py.splitlines_from].
    destruct (Py.is_linebreak c).
    + apply andb_true_iff in H as [H Hs]. apply andb_true_iff in H as [Hc He].
      apply Ascii.eqb_eq in Hc. subst c.
      destruct s as [|d s]; [discriminate|].
      change (String d s ++ Py.NL) with (String d (s ++ Py.NL)) in *.
      rewrite lf_is_not_cr. cbn [andb].
      rewrite join_cons by apply splitlines_from_nonempty.
      now rewrite (IH EmptyString Hs).
    + rewrite (IH _ H). now rewrite str_app_assoc.
Qed.

Lemma plain_lines_without_cr (s : string) :
  plain_lines s = true -> Py.mem_char Py.CR s = false.
Proof.
  induction s as [|c s IH]; intros H; [reflexivity|].
  cbn [plain_lines Py.mem_char] in *.
  destruct (Ascii.eqb_spec c Py.CR) as [->|Hc].
  - change (Py.is_linebreak Py.CR) with true in H. cbv iota in H.
    rewrite Ascii.eqb_sym, lf_is_not_cr in H. discriminate.
  - cbn [orb]. apply IH.
    destruct (Py.is_linebreak c); [|exact H].
    apply andb_true_iff in H as [_ H]. exact H.
Qed.

Lemma plain_lines_newline (s : string) :
  plain_lines s = true -> Py.mem_char Py.CR (s ++ Py.NL) = false.
Proof.
  intros H. apply plain_lines_without_cr in H.
  induction s as [|c s IH]; [reflexivity|].
  cbn [Py.mem_char] in *. apply orb_false_iff in H as [Hc Hs].
  change (String c s ++ Py.NL) with (String c (s ++ Py.NL)).
  cbn [Py.mem_char]. rewrite Hc. now apply IH.
Qed.

(** A text that begins [Wrote ] is none of the error texts. *)
Lemma wrote_is_no_error (a b : string) : "Error: " ++ a <> "Wrote " ++ b.
Proof. discriminate. Qed.

(** The result [Wrote ...] tells that the file was written. *)
Lemma run_write_wrote (W : Fs.Path) (path content : string) (w w' : world)
      (n : string) :
  V2.run_write W path content w = (Return ("Wrote " ++ n), w') ->
  exists fp,
    V2.safe_path W path w' = (Return fp, w')
    /\ Fs.read_file (files w') fp = inr content.
Proof.
  intros H. pose proof (safe_path_cases W path w) as Hp.
  destruct (Fs.has_nul (Fs.joinpath W path)) eqn:En.
  { unfold V2.run_write, try_except, bind in H. rewrite Hp in H.
    apply returned_eq in H as [H _]. now apply wrote_is_no_error in H. }
  destruct (Fs.is_relative_to (Fs.resolve (Fs.joinpath W path)) W) eqn:E.
  - rewrite (run_write_cases W path content w _ Hp) in H.
    destruct (Fs.mkdir_parents _ _) as [e|fs1];
      [apply returned_eq in H as [H _]; now apply wrote_is_no_error in H|].
    destruct (Fs.write_file fs1 _ content) as [e|fs2] eqn:Ew;
      [apply returned_eq in H as [H _]; now apply wrote_is_no_error in H|].
    apply returned_eq in H as [_ <-].
    exists (Fs.resolve (Fs.joinpath W path)). split.
    + rewrite safe_path_cases. now rewrite En, E.
    + cbn [files set_files]. now apply (write_file_read _ fs1).
  - unfold V2.run_write, try_except, bind in H. rewrite Hp in H.
    apply returned_eq in H as [H _]. now apply wrote_is_no_error in H.
Qed.

(** X9. Writing, then reading. After a [run_write] that answered
    [Wrote ...], a [run_read] of the same path without limit returns the
    lines of the content joined by LF, cut to 50,000 characters. For a
    content of at most 50,000 characters whose only line boundary is LF
    and which does not end with one, that is the content itself; with
    one more LF at its end the content is read back without it. *)
Theorem read_after_write (W : Fs.Path) (path content : string) (w w' : world)
        (n : string) :
  V2.run_write W path content w = (Return ("Wrote " ++ n), w') ->
  V2.run_read W path None w'
  = (Return (Py.take 50000
               (Py.join Py.NL (Py.splitlines (Py.universal_newlines content)))), w')
  /\ (plain_lines content = true -> length content <= 50000 ->
      V2.run_read W path None w' = (Return content, w'))
  /\ (forall s,
         content = s ++ Py.NL -> plain_lines s = true -> length s <= 50000 ->
         V2.run_read W path None w' = (Return s, w')).
Proof.
  intros H. destruct (run_write_wrote W path content w w' n H) as (fp & Hp & Hr).
  pose proof (run_read_cases W path None w' fp content Hp Hr) as Hread.
  cbv zeta in Hread. split; [exact Hread|]. split.
  - intros Hplain Hlen. rewrite Hread.
    rewrite universal_newlines_without_cr by now apply plain_lines_without_cr.
    unfold Py.splitlines. rewrite join_splitlines_from by exact Hplain.
    cbn [append]. now rewrite take_all.
  - intros s -> Hplain Hlen. rewrite Hread.
    rewrite universal_newlines_without_cr by now apply plain_lines_newline.
    unfold Py.splitlines. rewrite join_splitlines_from_newline by exact Hplain.
    cbn [append]. now rewrite take_all.
Qed.

Lemma read_after_write_witness :
  V2.run_write Sample.WORKDIR "a.txt" ("x" ++ Py.NL ++ "y") Sample.w0
  = (Return ("Wrote " ++ "3 bytes to a.txt"),
     snd (V2.run_write Sample.WORKDIR "a.txt" ("x" ++ Py.NL ++ "y") Sample.w0))
  /\ fst (V2.run_read Sample.WORKDIR "a.txt" None
            (snd (V2.run_write Sample.WORKDIR "a.txt" ("x" ++ Py.NL ++ "y")
                    Sample.w0)))
     = Return ("x" ++ Py.NL ++ "y").
Proof.
  split; [reflexivity|].
  destruct (read_after_write Sample.WORKDIR "a.txt" ("x" ++ Py.NL ++ "y")
              Sample.w0
              (snd (V2.run_write Sample.WORKDIR "a.txt" ("x" ++ Py.NL ++ "y")
                      Sample.w0))
              "3 bytes to a.txt" eq_refl) as (_ & H & _).
  rewrite H; [reflexivity | reflexivity | apply Nat.leb_le; vm_compute; reflexivity].
Defined.

(** ** Edge cases of editing *)



Lemma replace1_same (old s : string) : Py.replace1 old old s = s.
Proof.
  destruct (Py.contains old s) eqn:E.
  - destruct (replace1_first old old s E) as (pre & post & Hs & _ & Hr).
    now rewrite Hr.
  - now apply replace1_absent.
Qed.



(** X11. Replacing a text by itself is no plain no-op: when the text
    occurs, [run_edit] writes the file again, with the content as text
    mode read it, so that CR LF and CR in the file have become LF; the
    file is left as it was exactly when it has no carriage return. *)
Theorem edit_by_the_same_text (W : Fs.Path) (path old_text : string)
        (w : world) (fp : Fs.Path) (text : string) :
  V2.safe_path W path w = (Return fp, w) ->
  Fs.read_file (files w) fp = inr text ->
  Py.contains old_text (Py.universal_newlines text) = true ->
  exists fs,
    V2.run_edit W path old_text old_text w
    = (Return ("Edited " ++ path), set_files fs w)
    /\ Fs.read_file fs fp = inr (Py.universal_newlines text)
    /\ (Py.mem_char Py.CR text = false -> Fs.read_file fs fp = inr text).
Proof.
  intros Hp Hr Hc.
  destruct (write_file_over fp (files w) text (Py.universal_newlines text) Hr)
    as (fs & Hw & Hread).
  exists fs. split; [|split; [exact Hread|]].
  - rewrite (run_edit_cases W path old_text old_text w fp text Hp Hr).
    now rewrite Hc, replace1_same, Hw.
  - intros Hcr. now rewrite Hread, universal_newlines_without_cr.
Qed.

Lemma edit_by_the_same_text_witness :
  let crlf := String Py.CR (String Py.LF EmptyString) in
  let w := mk_world (Fs.Dir [("w", Fs.Dir [("f", Fs.File ("a" ++ crlf ++ "b"))])])
                    [] [] 0 [] in
  V2.safe_path ["w"] "f" w = (Return ["w"; "f"], w)
  /\ Fs.read_file (files w) ["w"; "f"] = inr ("a" ++ crlf ++ "b")
  /\ Py.contains "a" (Py.universal_newlines ("a" ++ crlf ++ "b")) = true
  /\ exists fs,
      V2.run_edit ["w"] "f" "a" "a" w = (Return "Edited f", set_files fs w)
      /\ Fs.read_file fs ["w"; "f"] = inr ("a" ++ Py.NL ++ "b").
Proof.
  cbv zeta. split; [reflexivity|]. split; [reflexivity|]. split; [reflexivity|].
  destruct (edit_by_the_same_text ["w"] "f" "a"
              (mk_world
                 (Fs.Dir [("w", Fs.Dir [("f", Fs.File
                    ("a" ++ String Py.CR (String Py.LF EmptyString) ++ "b"))])])
                 [] [] 0 [])
              ["w"; "f"] ("a" ++ String Py.CR (String Py.LF EmptyString) ++ "b")
              eq_refl eq_refl eq_refl) as (fs & H1 & H2 & _).
  exists fs. split; [exact H1 | exact H2].
Defined.

(** ** The shell tool *)

Lemma take_not_empty (n : nat) (s : string) :
  n <> 0 -> is_empty s = false -> is_empty (Py.take n s) = false.
Proof. destruct n; [congruence|]. destruct s; [discriminate | reflexivity]. Qed.

Lemma cap_is_positive : 50000 <> 0.
Proof. apply Nat.eqb_neq. vm_compute. reflexivity. Qed.

Lemma short_texts_fit :
  length "(no output)" <= 50000.
Proof. apply Nat.leb_le. vm_compute. reflexivity. Qed.

(** X12. [run_bash] always answers with a text that is not empty, in v2
    and in v1. When the command is let through and the process ends,
    the text is [(no output)] if the output, standard output and error
    together and trimmed, is empty, and otherwise that output cut to
    50,000 characters: at most 50,000 characters either way. *)
Theorem run_bash_answer (sh : shell) (cmd : string) (w : world) :
  (exists out w',
      V2.run_bash sh cmd w = (Return out, w') /\ is_empty out = false)
  /\ (exists out w',
         V1.run_bash sh cmd w = (Return out, w') /\ is_empty out = false)
  /\ (forall stdout stderr fs,
         existsb (fun d => Py.contains d cmd) V2.dangerous = false ->
         sh cmd (files w) = (Return (stdout, stderr), fs) ->
         exists out,
           fst (V2.run_bash sh cmd w) = Return out
           /\ length out <= 50000
           /\ out = (if is_empty (Py.strip (stdout ++ stderr))
                     then "(no output)"
                     else Py.take 50000 (Py.strip (stdout ++ stderr)))).
Proof.
  split; [|split].
  - unfold V2.run_bash. destruct (existsb _ V2.dangerous).
    { eexists. eexists. split; reflexivity. }
    unfold try_except, bind, subprocess_run.
    destruct (sh cmd (files w)) as [[[o e]|ex] fs].
    + cbn [fst snd]. eexists. eexists. split; [reflexivity|].
      destruct (is_empty (Py.strip (o ++ e))) eqn:E; [reflexivity|].
      apply take_not_empty; [apply cap_is_positive | exact E].
    + destruct ex; eexists; eexists; (split; reflexivity).
  - unfold V1.run_bash. destruct (existsb _ V1.dangerous).
    { eexists. eexists. split; reflexivity. }
    unfold try_except, bind, subprocess_run.
    destruct (sh cmd (files w)) as [[[o e]|ex] fs].
    + cbn [fst snd]. eexists. eexists. split; [reflexivity|].
      destruct (is_empty (Py.strip (o ++ e))) eqn:E; [reflexivity|].
      apply take_not_empty; [apply cap_is_positive | exact E].
    + destruct ex; eexists; eexists; (split; reflexivity).
  - intros o e fs Hd Hs. unfold V2.run_bash. rewrite Hd.
    unfold try_except, bind, subprocess_run. rewrite Hs. cbn [fst snd].
    eexists. split; [reflexivity|]. split; [|reflexivity].
    destruct (is_empty (Py.strip (o ++ e)));
      [apply short_texts_fit | apply take_length_le].
Qed.

(** X13. [run_bash] of v2 calls [subprocess.run] once at most, with the
    command as given. It makes no call exactly when the command has one
    of the four substrings of the list, and then the world is unchanged;
    otherwise it makes the call once, whether the call then gives the
    output of a process, runs out of time or raises (before a process is
    made or after), the file system is the one the call leaves, and the
    stored task list, the counter and the conversation are untouched.
    The same holds in v1 with its five substrings. *)
Theorem run_bash_calls_subprocess_once (sh : shell) (cmd : string) (w : world) :
  (existsb (fun d => Py.contains d cmd) V2.dangerous = true ->
   V2.run_bash sh cmd w = (Return "Error: Dangerous command blocked", w))
  /\ (existsb (fun d => Py.contains d cmd) V2.dangerous = false ->
      spawned (snd (V2.run_bash sh cmd w)) = (spawned w ++ [cmd])%list
      /\ files (snd (V2.run_bash sh cmd w)) = snd (sh cmd (files w))
      /\ TODO_items (snd (V2.run_bash sh cmd w)) = TODO_items w
      /\ loop_state (snd (V2.run_bash sh cmd w)) = loop_state w)
  /\ (spawned (snd (V2.run_bash sh cmd w)) = spawned w <->
      existsb (fun d => Py.contains d cmd) V2.dangerous = true)
  /\ (existsb (fun d => Py.contains d cmd) V1.dangerous = true ->
      V1.run_bash sh cmd w = (Return "Error: Dangerous command blocked", w))
  /\ (existsb (fun d => Py.contains d cmd) V1.dangerous = false ->
      spawned (snd (V1.run_bash sh cmd w)) = (spawned w ++ [cmd])%list).
Proof.
  assert (H2 : existsb (fun d => Py.contains d cmd) V2.dangerous = false ->
               spawned (snd (V2.run_bash sh cmd w)) = (spawned w ++ [cmd])%list
               /\ files (snd (V2.run_bash sh cmd w)) = snd (sh cmd (files w))
               /\ TODO_items (snd (V2.run_bash sh cmd w)) = TODO_items w
               /\ loop_state (snd (V2.run_bash sh cmd w)) = loop_state w).
  { intros Hd. unfold V2.run_bash. rewrite Hd.
    unfold try_except, bind, subprocess_run.
    destruct (sh cmd (files w)) as [[r|e] fs]; [repeat split|].
    destruct e; repeat split. }
  split; [|split; [exact H2|split; [|split]]].
  - intros Hd. unfold V2.run_bash. now rewrite Hd.
  - split.
    + intros Hs. destruct (existsb _ V2.dangerous) eqn:Hd; [reflexivity|].
      destruct (H2 eq_refl) as [Hsp _]. rewrite Hsp in Hs.
      apply (f_equal (@List.length string)) in Hs.
      rewrite length_app in Hs. simpl in Hs. lia.
    + intros Hd. unfold V2.run_bash. now rewrite Hd.
  - intros Hd. unfold V1.run_bash. now rewrite Hd.
  - intros Hd. unfold V1.run_bash. rewrite Hd.
    unfold try_except, bind, subprocess_run.
    destruct (sh cmd (files w)) as [[r|e] fs]; [reflexivity|].
    destruct e; reflexivity.
Qed.

(** ** The loops *)



(** The same with a tool call that raises in the first round. *)
Example main_survives_a_bad_call :
  exists w',
    V2.main Sample.WORKDIR Sample.echo
      [("go", [Return (mk_response [ToolUse "t1" "bash" Sample.no_input] "tool_use")]);
       ("on", [Raise (OtherError "connection lost")])]
      Sample.w0
    = (Return tt, w')
    /\ map role (history w') = ["user"; "user"].
Proof. eexists. split; reflexivity. Qed.

(** X15. A line that is empty after trimming, or is [exit], [quit] or
    [q] in any case with white space around it, ends the session: the
    world is left as it is, nothing is appended for that line, and the
    lines after it are never read. *)
Theorem session_ends_at_exit_line (W : Fs.Path) (sh : shell)
        (first_message : bool) (line : string)
        (gateway : list (outcome response))
        (before after : list (string * list (outcome response))) (w : world) :
  goes_on line = false ->
  V2.main_turn W sh first_message line gateway w = (Return None, w)
  /\ V2.main_loop W sh first_message (before ++ (line, gateway) :: after) w
     = V2.main_loop W sh first_message before w.
Proof.
  intros Hgo. unfold goes_on in Hgo. apply negb_false_iff in Hgo.
  assert (Hturn : forall fm w0, V2.main_turn W sh fm line gateway w0 = (Return None, w0)).
  { intros fm w0. unfold V2.main_turn. now rewrite Hgo. }
  split; [apply Hturn|].
  revert first_message w.
  induction before as [|[l g] before IH]; intros fm w.
  - cbn [app V2.main_loop]. unfold bind. now rewrite Hturn.
  - cbn [app V2.main_loop]. unfold bind.
    destruct (V2.main_turn W sh fm l g w) as [[r|e] w1]; [|reflexivity].
    destruct r as [fm'|]; [apply IH | reflexivity].
Qed.

Lemma session_ends_at_exit_line_witness :
  goes_on "  Quit " = false
  /\ V2.main_loop Sample.WORKDIR Sample.echo true
       ([] ++ ("  Quit ", []) :: [("more", [])]) Sample.w0
     = (Return tt, Sample.w0).
Proof.
  split; [reflexivity|].
  rewrite (proj2 (session_ends_at_exit_line Sample.WORKDIR Sample.echo true
                    "  Quit " [] [] [("more", [])] Sample.w0 eq_refl)).
  reflexivity.
Defined.

(** X16. When the first call of the gateway in a turn fails, the turn
    ends there and the session goes on: the user turn just appended
    stays in the conversation and nothing else has changed. The next
    user turn then follows it directly, two user turns in a row. *)
Theorem failed_gateway_call_keeps_user_turn (W : Fs.Path) (sh : shell)
        (first_message : bool) (line : string) (e : exn)
        (rest : list (outcome response)) (w : world) :
  goes_on line = true ->
  exists texts,
    texts = ((if first_message then [V2.INITIAL_REMINDER]
              else if Nat.ltb 10 (rounds_without_todo w)
                   then [V2.NAG_REMINDER] else [])
             ++ [Py.strip line])%list
    /\ V2.main_turn W sh first_message line (Raise e :: rest) w
       = (Return (Some false),
          mk_world (files w) (spawned w) (TODO_items w) (rounds_without_todo w)
                   (history w ++ [user_turn texts])%list)
    /\ forall line' gateway',
        goes_on line' = true ->
        exists texts' tail r w',
          V2.main_turn W sh false line' gateway'
            (mk_world (files w) (spawned w) (TODO_items w) (rounds_without_todo w)
                      (history w ++ [user_turn texts])%list)
          = (Return r, w')
          /\ history w'
             = (history w ++ user_turn texts :: user_turn texts' :: tail)%list.
Proof.
  intros Hgo. pose proof Hgo as Hgo'. unfold goes_on in Hgo'.
  apply negb_true_iff in Hgo'.
  eexists. split; [reflexivity|]. split.
  - unfold V2.main_turn. rewrite Hgo'.
    unfold bind, try_except. cbn [V2.get_rounds V2.append_message V2.agent_loop lift].
    destruct first_message; [reflexivity|].
    destruct (Nat.ltb 10 (rounds_without_todo w)); reflexivity.
  - intros line' gateway' Hgo2.
    match goal with
    | |- exists _ _ _ _, V2.main_turn _ _ _ _ _ ?w1 = _ /\ _ =>
        destruct (main_turn_appends W sh false line' gateway' w1 Hgo2)
          as (tail & r & w' & H1 & H2 & _)
    end.
    eexists. exists tail, r, w'. split; [exact H1|].
    rewrite H2. cbn [history]. rewrite <- app_assoc. reflexivity.
Qed.

Lemma failed_gateway_call_keeps_user_turn_witness :
  goes_on "hello" = true
  /\ V2.main_turn Sample.WORKDIR Sample.echo true "hello"
       [Raise (OtherError "connection lost")] Sample.w0
     = (Return (Some false),
        mk_world (files Sample.w0) [] [] 0
                 [user_turn [V2.INITIAL_REMINDER; "hello"]]).
Proof.
  split; [reflexivity|].
  destruct (failed_gateway_call_keeps_user_turn Sample.WORKDIR Sample.echo true
              "hello" (OtherError "connection lost") [] Sample.w0 eq_refl)
    as (texts & -> & H & _).
  exact H.
Defined.

(** Without a key its tool requires, a call raises [KeyError] and
    changes nothing. *)
Lemma execute_tool_missing_key_raises (W : Fs.Path) (sh : shell) (name : string)
      (input : tool_input) (w : world) :
  V2.required_present name input = false ->
  exists key, V2.execute_tool W sh name input w = (Raise (KeyError key), w).
Proof.
  unfold V2.required_present, V2.execute_tool. intros H.
  destruct (String.eqb name "bash").
  { destruct (arg_command input); [discriminate | now eexists]. }
  destruct (String.eqb name "read_file").
  { destruct (arg_path input); [discriminate | now eexists]. }
  destruct (String.eqb name "write_file").
  { destruct (arg_path input); [|now eexists].
    destruct (arg_content input); [discriminate | now eexists]. }
  destruct (String.eqb name "edit_file").
  { destruct (arg_path input); [|now eexists].
    destruct (arg_old_text input); [|now eexists].
    destruct (arg_new_text input); [discriminate | now eexists]. }
  destruct (String.eqb name "TodoWrite").
  { destruct (arg_items input); [discriminate | now eexists]. }
  discriminate.
Qed.

(** The loop over the calls, call after call. *)
Lemma run_tools_app (W : Fs.Path) (sh : shell)
      (a b : list (string * string * tool_input)) :
  forall results used_todo w,
    V2.run_tools W sh (a ++ b) results used_todo w
    = bind (V2.run_tools W sh a results used_todo)
           (fun r => V2.run_tools W sh b (fst r) (snd r)) w.
Proof.
  induction a as [|[[id name] input] a IH]; intros results used_todo w;
    [reflexivity|].
  cbn [app V2.run_tools]. unfold bind in *.
  destruct (V2.execute_tool W sh name input w) as [[output|e] w1]; [|reflexivity].
  now rewrite IH.
Qed.

(** X17. A tool call without a key its tool requires breaks off the
    round: [agent_loop] raises [KeyError] there. The calls before it in
    the batch have run and what they did stays, but none of their
    results is kept: no turn is appended, for the assistant or for the
    results, the round counter is not changed, and the calls after it
    do not run. *)
Theorem call_without_required_key_breaks_round (W : Fs.Path) (sh : shell)
        (gateway : list (outcome response)) (asked : response)
        (before after : list (string * string * tool_input))
        (id name : string) (input : tool_input) (w : world) :
  stop_reason asked = "tool_use" ->
  V2.tool_calls_of (resp_content asked) = (before ++ (id, name, input) :: after)%list ->
  forallb call_valid before = true ->
  V2.required_present name input = false ->
  exists key w',
    V2.agent_loop W sh (Return asked :: gateway) w = (Raise (KeyError key), w')
    /\ w' = snd (V2.run_tools W sh before [] false w)
    /\ loop_state w' = loop_state w.
Proof.
  intros Hs Hcalls Hv Hmiss.
  destruct (run_tools_returns W sh before Hv [] false w)
    as (outputs & w1 & Hr & _ & Hf).
  destruct (execute_tool_missing_key_raises W sh name input w1 Hmiss) as [key Hk].
  exists key, w1. split; [|split].
  - cbn [V2.agent_loop]. unfold bind at 1, lift. unfold bind at 1.
    unfold V2.agent_round. rewrite Hs, String.eqb_refl. cbn [negb].
    rewrite Hcalls. unfold bind at 1. rewrite run_tools_app.
    unfold bind at 1. rewrite Hr. cbn [fst snd V2.run_tools].
    unfold bind at 1. now rewrite Hk.
  - now rewrite Hr.
  - exact Hf.
Qed.

Lemma call_without_required_key_breaks_round_witness :
  let write := mk_input None (Some "g") None (Some "x") None None None in
  let response :=
    mk_response [ToolUse "t1" "write_file" write;
                 ToolUse "t2" "read_file" Sample.no_input;
                 ToolUse "t3" "bash" Sample.no_input] "tool_use" in
  stop_reason response = "tool_use"
  /\ V2.tool_calls_of (resp_content response)
     = ([("t1", "write_file", write)]
        ++ ("t2", "read_file", Sample.no_input) :: [("t3", "bash", Sample.no_input)])%list
  /\ forallb call_valid [("t1", "write_file", write)] = true
  /\ V2.required_present "read_file" Sample.no_input = false
  /\ exists key w',
      V2.agent_loop Sample.WORKDIR Sample.echo [Return response] Sample.w0
      = (Raise (KeyError key), w')
      /\ loop_state w' = loop_state Sample.w0.
Proof.
  cbv zeta. split; [reflexivity|]. split; [reflexivity|]. split; [reflexivity|].
  split; [reflexivity|].
  destruct (call_without_required_key_breaks_round Sample.WORKDIR Sample.echo
              []
              (mk_response
                 [ToolUse "t1" "write_file"
                    (mk_input None (Some "g") None (Some "x") None None None);
                  ToolUse "t2" "read_file" Sample.no_input;
                  ToolUse "t3" "bash" Sample.no_input] "tool_use")
              [("t1", "write_file",
                mk_input None (Some "g") None (Some "x") None None None)]
              [("t3", "bash", Sample.no_input)]
              "t2" "read_file" Sample.no_input Sample.w0
              eq_refl eq_refl eq_refl eq_refl) as (key & w' & H1 & _ & H3).
  now exists key, w'.
Defined.






(** ** Calls of one batch run in order *)

(** X20. The calls of a batch run one after the other, each in the world
    the one before left: when a batch writes a file and then reads the
    same path, and the write answers [Wrote ...], the result of the read
    holds the lines of the content just written (the content itself when
    it is plain and within 50,000 characters). Both results are appended
    in that order under the identifiers of their calls. *)
Theorem read_sees_write_of_same_batch (W : Fs.Path) (sh : shell)
        (id1 id2 path text n : string) (in1 in2 : tool_input) (w w1 : world) :
  arg_path in1 = Some path -> arg_content in1 = Some text ->
  arg_path in2 = Some path -> arg_limit in2 = None ->
  V2.run_write W path text w = (Return ("Wrote " ++ n), w1) ->
  exists seen,
    seen = Py.take 50000
             (Py.join Py.NL (Py.splitlines (Py.universal_newlines text)))
    /\ V2.agent_round W sh
         (mk_response [ToolUse id1 "write_file" in1; ToolUse id2 "read_file" in2]
                      "tool_use") w
       = (Return false,
          mk_world (files w1) (spawned w1) (TODO_items w1)
            (rounds_without_todo w1 + 1)
            (history w1
             ++ [mk_message "assistant"
                   (Blocks [ToolUse id1 "write_file" in1;
                            ToolUse id2 "read_file" in2]);
                 mk_message "user"
                   (ToolResults [(id1, ("Wrote " ++ n)%string); (id2, seen)])])%list)
    /\ (plain_lines text = true -> length text <= 50000 -> seen = text).
Proof.
  intros Hp1 Hc1 Hp2 Hl2 Hw.
  destruct (run_write_wrote W path text w w1 n Hw) as (fp & Hp & Hr).
  pose proof (run_read_cases W path None w1 fp text Hp Hr) as Hread.
  cbv zeta in Hread.
  eexists. split; [reflexivity|]. split.
  - unfold V2.agent_round. cbn [stop_reason resp_content V2.tool_calls_of flat_map app].
    rewrite String.eqb_refl. cbn [negb V2.run_tools].
    unfold V2.execute_tool at 1. cbn [String.eqb Ascii.eqb Bool.eqb].
    rewrite Hp1, Hc1, !bind_getitem.
    unfold bind at 1. unfold bind at 1. rewrite Hw.
    unfold V2.execute_tool at 1. cbn [String.eqb Ascii.eqb Bool.eqb].
    rewrite Hp2, Hl2, bind_getitem.
    unfold bind at 1. rewrite Hread.
    match goal with
    | |- context [Py.take ?k ?s] => generalize (Py.take k s)
    end.
    intros seen. cbn. rewrite <- app_assoc. reflexivity.
  - intros Hplain Hlen.
    rewrite universal_newlines_without_cr by now apply plain_lines_without_cr.
    unfold Py.splitlines. rewrite join_splitlines_from by exact Hplain.
    cbn [append]. now apply take_all.
Qed.

Lemma read_sees_write_of_same_batch_witness :
  let in1 := mk_input None (Some "a.txt") None (Some "hi") None None None in
  let in2 := mk_input None (Some "a.txt") None None None None None in
  V2.run_write Sample.WORKDIR "a.txt" "hi" Sample.w0
  = (Return ("Wrote " ++ "2 bytes to a.txt"),
     snd (V2.run_write Sample.WORKDIR "a.txt" "hi" Sample.w0))
  /\ exists w',
      V2.agent_round Sample.WORKDIR Sample.echo
        (mk_response [ToolUse "t1" "write_file" in1; ToolUse "t2" "read_file" in2]
                     "tool_use") Sample.w0
      = (Return false, w')
      /\ last (history w') (user_turn [])
         = mk_message "user"
             (ToolResults [("t1", "Wrote 2 bytes to a.txt"); ("t2", "hi")]).
Proof.
  cbv zeta. split; [reflexivity|].
  destruct (read_sees_write_of_same_batch Sample.WORKDIR Sample.echo
              "t1" "t2" "a.txt" "hi" "2 bytes to a.txt"
              (mk_input None (Some "a.txt") None (Some "hi") None None None)
              (mk_input None (Some "a.txt") None None None None None)
              Sample.w0 (snd (V2.run_write Sample.WORKDIR "a.txt" "hi" Sample.w0))
              eq_refl eq_refl eq_refl eq_refl eq_refl) as (seen & -> & H & _).
  eexists. split; [exact H|]. reflexivity.
Defined.

(** ** Items and limits at the edges *)

(** X21. [update] takes an item without a [status] for a pending one,
    and takes any value for [content] and [activeForm] through [str]:
    an item whose two texts are not blank and that gives no status is
    accepted and stored with its texts trimmed and the status
    [pending]. *)
Theorem item_without_status_is_pending (d : list (string * pyval))
        (vc va : pyval) (w : world) :
  V2.dict_find d "status" = None ->
  V2.dict_find d "content" = Some vc ->
  V2.dict_find d "activeForm" = Some va ->
  Rules.blank (str vc) = false ->
  Rules.blank (str va) = false ->
  V2.update (VList [VDict d]) w
  = (Return ("[ ] " ++ Py.strip (str vc) ++ Py.NL ++ Py.NL ++ "(0/1 completed)"),
     mk_world (files w) (spawned w)
              [mk_todo (Py.strip (str vc)) "pending" (Py.strip (str va))]
              (rounds_without_todo w) (history w)).
Proof.
  intros Hs Hc Ha Hbc Hba.
  assert (Hok : Rules.item_violates (VDict d) = false).
  { unfold Rules.item_violates, Rules.invalid_status, Rules.field_text.
    cbn [Rules.structured negb orb]. now rewrite Hs, Hc, Ha, Hbc, Hba. }
  assert (Hst : Rules.stored (VDict d)
                = mk_todo (Py.strip (str vc)) "pending" (Py.strip (str va))).
  { unfold Rules.stored, Rules.field_text. rewrite dict_get_find, Hs, Hc, Ha.
    reflexivity. }
  assert (Hv : Rules.violates (VList [VDict d]) = false).
  { rewrite violates_items. cbn [existsb]. rewrite Hok.
    unfold Rules.count_status. cbn [filter].
    unfold Rules.has_status, Rules.field_text. rewrite Hs. reflexivity. }
  rewrite (update_accepts [VDict d] w Hv). cbn [map]. rewrite Hst. reflexivity.
Qed.

Lemma item_without_status_is_pending_witness :
  V2.update (VList [VDict [("content", VNone); ("activeForm", VStr " Thinking ")]])
            Sample.w0
  = (Return ("[ ] None" ++ Py.NL ++ Py.NL ++ "(0/1 completed)"),
     mk_world (files Sample.w0) [] [mk_todo "None" "pending" "Thinking"] 0 []).
Proof.
  exact (item_without_status_is_pending
           [("content", VNone); ("activeForm", VStr " Thinking ")]
           VNone (VStr " Thinking ") Sample.w0
           eq_refl eq_refl eq_refl eq_refl eq_refl).
Defined.

(** X22. Limits out of range. A limit at or above the number of lines is
    as good as none: the whole text is returned. A negative limit is
    taken for a slice from the end: [run_read] returns the lines but the
    last [-limit], then a marker whose number is the line count plus
    [-limit], more than the lines left out. *)
Theorem read_limit_out_of_range (W : Fs.Path) (path : string) (limit : Z)
        (w : world) (fp : Fs.Path) (text : string) :
  V2.safe_path W path w = (Return fp, w) ->
  Fs.read_file (files w) fp = inr text ->
  ((Z.of_nat (List.length (Py.splitlines (Py.universal_newlines text))) <= limit)%Z ->
   V2.run_read W path (Some limit) w = V2.run_read W path None w)
  /\ ((limit < 0)%Z ->
      V2.run_read W path (Some limit) w
      = (Return
           (Py.take 50000
              (Py.join Py.NL
                 (firstn (List.length (Py.splitlines (Py.universal_newlines text))
                          - Z.to_nat (- limit))
                         (Py.splitlines (Py.universal_newlines text))
                  ++ [("... ("
                       ++ Py.str_of_nat
                            (List.length (Py.splitlines (Py.universal_newlines text))
                             + Z.to_nat (- limit))
                       ++ " more)")%string])%list)), w)).
Proof.
  intros Hp Hr. split.
  - intros Hge.
    rewrite (run_read_cases W path (Some limit) w fp text Hp Hr).
    rewrite (run_read_cases W path None w fp text Hp Hr). cbv zeta.
    assert (E : (limit <? Z.of_nat (List.length
                   (Py.splitlines (Py.universal_newlines text))))%Z = false)
      by (apply Z.ltb_ge; lia).
    now rewrite E, andb_false_r.
  - intros Hneg.
    rewrite (run_read_cases W path (Some limit) w fp text Hp Hr). cbv zeta.
    assert (E0 : (limit =? 0)%Z = false) by (apply Z.eqb_neq; lia).
    assert (E1 : (limit <? Z.of_nat (List.length
                    (Py.splitlines (Py.universal_newlines text))))%Z = true)
      by (apply Z.ltb_lt; lia).
    assert (E2 : (limit <? 0)%Z = true) by (apply Z.ltb_lt; lia).
    rewrite E0, E1. cbn [negb andb]. unfold Py.slice_to, Py.str_of_nat.
    rewrite E2. repeat f_equal; lia.
Qed.

Lemma read_limit_out_of_range_witness :
  V2.safe_path Sample.WORKDIR "f" Sample.w0 = (Return ["w"; "f"], Sample.w0)
  /\ Fs.read_file (files Sample.w0) ["w"; "f"] = inr Sample.three_lines
  /\ fst (V2.run_read Sample.WORKDIR "f" (Some (-1)%Z) Sample.w0)
     = Return ("l1" ++ Py.NL ++ "l2" ++ Py.NL ++ "... (4 more)").
Proof.
  split; [reflexivity|]. split; [reflexivity|].
  rewrite (proj2 (read_limit_out_of_range Sample.WORKDIR "f" (-1)%Z Sample.w0
                    ["w"; "f"] Sample.three_lines eq_refl eq_refl)
                 ltac:(reflexivity)).
  vm_compute. reflexivity.
Defined.

(** ** The loop and the REPL of v1 *)




Lemma v1_main_turn_returns (W : Fs.Path) (sh : shell) (line : string)
      (gateway : list (outcome response)) (s : V1Loop.state) :
  exists r s', V1Loop.main_turn W sh line gateway s = (Return r, s').
Proof.
  unfold V1Loop.main_turn.
  destruct (is_empty (Py.strip line) || _); [now eexists; eexists|].
  unfold V1Loop.bind_l at 1. cbn [V1Loop.append_message].
  unfold V1Loop.bind_l, V1Loop.try_l.
  destruct (V1Loop.agent_loop W sh gateway _) as [[status|e] s2].
  - destruct status; now eexists; eexists.
  - now eexists; eexists.
Qed.







(** ** v2 beside v1 *)

(** X8. The tools of v2 answer as those of v1, with two exceptions.
    [run_write] and [run_edit] are the same. [run_bash] is the same for
    a command without [> /dev/] whose process does not time out.
    [run_read] is the same unless the limit cuts the file, where the
    two differ in the wording of the marker. [execute_tool] is the same
    for every name but [bash], [read_file] and [TodoWrite]. *)
Theorem v2_tools_answer_as_v1 (W : Fs.Path) (sh : shell) (w : world) :
  (forall path text, V2.run_write W path text w = V1.run_write W path text w)
  /\ (forall path old_text new_text,
         V2.run_edit W path old_text new_text w
         = V1.run_edit W path old_text new_text w)
  /\ (forall cmd,
         Py.contains "> /dev/" cmd = false ->
         (forall c fs, sh cmd (files w) <> (Raise (TimeoutExpired c), fs)) ->
         V2.run_bash sh cmd w = V1.run_bash sh cmd w)
  /\ (forall path limit,
         V2.run_read W path limit w = V1.run_read W path limit w
         \/ exists l fp text,
             limit = Some l
             /\ V2.safe_path W path w = (Return fp, w)
             /\ Fs.read_file (files w) fp = inr text
             /\ l <> 0%Z
             /\ (l < Z.of_nat (List.length
                                 (Py.splitlines (Py.universal_newlines text))))%Z)
  /\ (forall name input,
         String.eqb name "bash" = false ->
         String.eqb name "read_file" = false ->
         String.eqb name "TodoWrite" = false ->
         V2.execute_tool W sh name input w = V1.execute_tool W sh name input w).
Proof.
  split; [reflexivity|]. split; [reflexivity|]. split; [|split].
  - intros cmd Hdev Hrun. unfold V2.run_bash, V1.run_bash.
    unfold V2.dangerous, V1.dangerous. cbn [existsb]. rewrite Hdev.
    rewrite !orb_false_r.
    destruct (Py.contains "rm -rf /" cmd || (Py.contains "sudo" cmd
              || (Py.contains "shutdown" cmd || Py.contains "reboot" cmd)));
      [reflexivity|].
    unfold try_except, bind, subprocess_run.
    destruct (sh cmd (files w)) as [[r|e] fs] eqn:E; [reflexivity|].
    destruct e; try reflexivity. now elim (Hrun cmd0 fs).
  - intros path limit.
    destruct (V2.safe_path W path w) as [[fp|e] w0] eqn:Hp.
    2:{ left. unfold V2.run_read, V1.run_read, try_except, bind.
        change (V1.safe_path W path w) with (V2.safe_path W path w).
        now rewrite Hp. }
    assert (w0 = w) as ->.
    { rewrite safe_path_cases in Hp.
      destruct (Fs.has_nul _) in Hp; [discriminate|].
      destruct (Fs.is_relative_to _ _) in Hp; congruence. }
    destruct (Fs.read_file (files w) fp) as [errno|text] eqn:Hr.
    { left. unfold V2.run_read, V1.run_read, try_except, bind.
      change (V1.safe_path W path w) with (V2.safe_path W path w).
      rewrite Hp. unfold read_text. now rewrite Hr. }
    rewrite (run_read_cases W path limit w fp text Hp Hr).
    rewrite (v1_run_read_cases W path limit w fp text Hp Hr). cbv zeta.
    destruct limit as [l|]; [|now left].
    destruct (negb (l =? 0)%Z) eqn:E0; [|now left].
    destruct (l <? _)%Z eqn:E1; [|now left].
    right. exists l, fp, text.
    do 3 (split; [first [reflexivity | assumption]|]). split.
    + apply negb_true_iff, Z.eqb_neq in E0. exact E0.
    + now apply Z.ltb_lt.
  - intros name input Hb Hr Ht. unfold V2.execute_tool, V1.execute_tool.
    rewrite Hb, Hr, Ht.
    destruct (String.eqb name "write_file"); [reflexivity|].
    destruct (String.eqb name "edit_file"); reflexivity.
Qed.
